(** * Hall availability calendar: booking window and date selection

    A shallow embedding of [src/app/components/Calendar.tsx], which holds the
    two booking surfaces of the site: the single-hall [Calendar] component
    and the multi-hall [HallList] component.

    The wall clock ([new Date()]) and the local time zone offset are explicit
    parameters: [now] is a time value in milliseconds since the epoch, [tza]
    the offset of local time from UTC in milliseconds (a fixed offset, as in
    a zone without daylight saving). Time values are integers; those a
    [Date] can hold are the ones of [JSDate.valid]. *)

From Stdlib Require Import ZArith Lia Bool List Ascii String.
From stdpp Require Import gmap strings list fin_maps.

Local Open Scope Z_scope.

(** ** The part of the ECMAScript [Date] object the components use *)

Module JSDate.

Definition msPerDay : Z := 86400000.

Definition Day (t : Z) : Z := t / msPerDay.
Definition TimeWithinDay (t : Z) : Z := t mod msPerDay.

(** Local time and back, with the one offset [tza] at every instant: a zone
    whose offset does not change. Where a zone changes its offset (daylight
    saving) the [Date] of the source follows the rules of the zone instant
    by instant, which is outside this model. *)
Definition LocalTime (tza t : Z) : Z := t + tza.
Definition UTC (tza t : Z) : Z := t - tza.

(** Day number (days since 1970-01-01) to the proleptic Gregorian civil date,
    by 400-year eras that start on March 1st. [doe] is the day of the era,
    [yoe] the year of the era, [doy] the day of the March-based year and
    [mp] the March-based month. *)
Definition doe_of (z : Z) : Z := (z + 719468) mod 146097.
Definition era_of (z : Z) : Z := (z + 719468) / 146097.
Definition yoe_of (doe : Z) : Z :=
  (doe - doe / 1460 + doe / 36524 - doe / 146096) / 365.
Definition doy_of (doe : Z) : Z :=
  let yoe := yoe_of doe in doe - (365 * yoe + yoe / 4 - yoe / 100).
Definition mp_of (doe : Z) : Z := (5 * doy_of doe + 2) / 153.

(** Month of a day number, 0 = January. *)
Definition MonthFromDay (z : Z) : Z :=
  let mp := mp_of (doe_of z) in
  if mp <? 10 then mp + 2 else mp - 10.

Definition YearFromDay (z : Z) : Z :=
  let doe := doe_of z in
  let y := yoe_of doe + era_of z * 400 in
  if MonthFromDay z <=? 1 then y + 1 else y.

(** Day of the month, 1-based. *)
Definition DateFromDay (z : Z) : Z :=
  let doe := doe_of z in
  doy_of doe - (153 * mp_of doe + 2) / 5 + 1.

Definition YearFromTime (t : Z) : Z := YearFromDay (Day t).
Definition MonthFromTime (t : Z) : Z := MonthFromDay (Day t).
Definition DateFromTime (t : Z) : Z := DateFromDay (Day t).

(** Day number of the first day of month [m] (0 = January) of year [y]. *)
Definition DayFromYearMonth (y m : Z) : Z :=
  let y' := if m <=? 1 then y - 1 else y in
  let era := y' / 400 in
  let yoe := y' - era * 400 in
  let mp := if m <=? 1 then m + 10 else m - 2 in
  let doy := (153 * mp + 2) / 5 in
  era * 146097 + (yoe * 365 + yoe / 4 - yoe / 100 + doy) - 719468.

(** [MakeDay(year, month, date)]: the month may lie outside 0..11 and the date
    outside the month; both carry over. *)
Definition MakeDay (year month date : Z) : Z :=
  let ym := year + month / 12 in
  let mn := month mod 12 in
  DayFromYearMonth ym mn + date - 1.

Definition MakeDate (day time : Z) : Z := day * msPerDay + time.

(** [new Date(year, month, date)]: local midnight of that day; a year in
    0..99 means 1900 + year. The result is the time value as an integer;
    it is the one of the source's [Date] when it is [valid] (see below),
    and the [Date] is invalid otherwise. *)
Definition fromYMD (tza year month date : Z) : Z :=
  let yr := if (0 <=? year) && (year <=? 99) then 1900 + year else year in
  UTC tza (MakeDate (MakeDay yr month date) 0).

Definition getFullYear (tza t : Z) : Z := YearFromTime (LocalTime tza t).
Definition getMonth (tza t : Z) : Z := MonthFromTime (LocalTime tza t).
Definition getDate (tza t : Z) : Z := DateFromTime (LocalTime tza t).

(** [d.setDate(dt)]: same local year, month and time of day, day of the
    month [dt]; with the one offset, a step to the next day is a step of
    24 hours. *)
Definition setDate (tza t dt : Z) : Z :=
  let lt := LocalTime tza t in
  UTC tza (MakeDate (MakeDay (YearFromTime lt) (MonthFromTime lt) dt)
                    (TimeWithinDay lt)).

(** Decimal digits, zero-padded to [width] characters. *)
Definition digit (n : Z) : Ascii.ascii :=
  Ascii.ascii_of_nat (48 + Z.to_nat (n mod 10)).

Fixpoint pad (width : nat) (n : Z) (acc : string) : string :=
  match width with
  | O => acc
  | S w => pad w (n / 10) (String (digit n) acc)
  end.

Definition yearString (y : Z) : string :=
  if (0 <=? y) && (y <=? 9999) then pad 4 y ""
  else if y <? 0 then String "-"%char (pad 6 (- y) "")
  else String "+"%char (pad 6 y "").

(** [d.toISOString()]: the UTC fields, [YYYY-MM-DDTHH:mm:ss.sssZ]. *)
Definition toISOString (t : Z) : string :=
  let tod := TimeWithinDay t in
  yearString (YearFromTime t) +:+ "-" +:+ pad 2 (MonthFromTime t + 1) ""
    +:+ "-" +:+ pad 2 (DateFromTime t) ""
    +:+ "T" +:+ pad 2 (tod / 3600000) ""
    +:+ ":" +:+ pad 2 (tod / 60000 mod 60) ""
    +:+ ":" +:+ pad 2 (tod / 1000 mod 60) ""
    +:+ "." +:+ pad 3 (tod mod 1000) "" +:+ "Z".

(** [TimeClip]: a [Date] holds a time value of at most 8.64e15 ms on either
    side of the epoch; [new Date(...)] of anything beyond is an invalid
    date. *)
Definition maxTime : Z := 8640000000000000.

Definition valid (t : Z) : Prop := - maxTime <= t <= maxTime.

End JSDate.

(** [s.split("T")[0]]: the text before the first [T], all of [s] when it has
    none. *)
Fixpoint beforeT (s : string) : string :=
  match s with
  | EmptyString => EmptyString
  | String c rest =>
      if Ascii.eqb c "T"%char then EmptyString else String c (beforeT rest)
  end.

(** [hay.includes(needle)] *)
Fixpoint includes (hay needle : string) : bool :=
  String.prefix needle hay
  || match hay with
     | EmptyString => false
     | String _ rest => includes rest needle
     end.

(** ** The window policy with the horizon as a parameter

    The navigation and day-list code of the two components, on the bare
    (month, year) pair, with the number of months ahead, which the components
    write as a literal, as the argument [horizonMonths]. *)

Module WindowPolicy.

Definition Cursor : Type := Z * Z.

Definition prevMonth (tza now : Z) (c : Cursor) : Cursor :=
  let '(month, year) := c in
  if (month =? JSDate.getMonth tza now) && (year =? JSDate.getFullYear tza now)
  then c
  else if month =? 0 then (11, year - 1) else (month - 1, year).

Definition nextMonth (horizonMonths tza now : Z) (c : Cursor) : Cursor :=
  let '(month, year) := c in
  let maxMonth := JSDate.getMonth tza now + horizonMonths in
  let maxYear := JSDate.getFullYear tza now + maxMonth / 12 in
  if (month =? Z.rem maxMonth 12) && (year =? maxYear)
  then c
  else if month =? 11 then (0, year + 1) else (month + 1, year).

Fixpoint daysLoop (fuel : nat) (tza now date endDate : Z) (days : list string)
  : option (list string) :=
  match fuel with
  | O => None
  | S fuel' =>
      if date <=? endDate then
        let days' :=
          if date >=? now
          then days ++ [beforeT (JSDate.toISOString date)]
          else days in
        daysLoop fuel' tza now
                 (JSDate.setDate tza date (JSDate.getDate tza date + 1))
                 endDate days'
      else Some days
  end.

Definition daysInMonth (tza now month year : Z) : option (list string) :=
  daysLoop 32 tza now (JSDate.fromYMD tza year month 1)
           (JSDate.fromYMD tza year (month + 1) 0) [].

(** The date part of the ISO text of an instant. *)
Definition isoDate (t : Z) : string := beforeT (JSDate.toISOString t).

(** [n] instants a day apart, from [start] on. *)
Fixpoint dailyFrom (start : Z) (n : nat) : list Z :=
  match n with
  | O => []
  | S k => start :: dailyFrom (start + JSDate.msPerDay) k
  end.

(** The local midnights of the days of a month. *)
Definition monthMidnights (tza month year : Z) : list Z :=
  let startDate := JSDate.fromYMD tza year month 1 in
  let endDate := JSDate.fromYMD tza year (month + 1) 0 in
  dailyFrom startDate (Z.to_nat ((endDate - startDate) / JSDate.msPerDay + 1)).

(** Months are counted from year 0: the month index of a cursor. *)
Definition monthIndex (c : Cursor) : Z := 12 * snd c + fst c.

Definition today (tza now : Z) : Cursor :=
  (JSDate.getMonth tza now, JSDate.getFullYear tza now).

(** The month [horizonMonths] months after today's. *)
Definition horizonEnd (horizonMonths tza now : Z) : Cursor :=
  let maxMonth := JSDate.getMonth tza now + horizonMonths in
  (Z.rem maxMonth 12, JSDate.getFullYear tza now + maxMonth / 12).

Definition validMonth (c : Cursor) : Prop := 0 <= fst c <= 11.

(** One press of Previous: nothing, or one month back, the year going down
    at the January to December wrap only. *)
Definition stepBack (c c' : Cursor) : Prop :=
  c' = c
  \/ (fst c = 0 /\ c' = (11, snd c - 1))
  \/ (0 < fst c /\ c' = (fst c - 1, snd c)).

(** One press of Next: nothing, or one month on, the year going up at the
    December to January wrap only. *)
Definition stepForward (c c' : Cursor) : Prop :=
  c' = c
  \/ (fst c = 11 /\ c' = (0, snd c + 1))
  \/ (fst c < 11 /\ c' = (fst c + 1, snd c)).

(** A press of a navigation button, with the zone and the clock reading at
    the press. *)
Inductive Press :=
  | PrevAt (tza now : Z)
  | NextAt (tza now : Z).

Definition press (horizonMonths : Z) (c : Cursor) (p : Press) : Cursor :=
  match p with
  | PrevAt tza now => prevMonth tza now c
  | NextAt tza now => nextMonth horizonMonths tza now c
  end.

(** The presses happen in the zone [tza], at clock readings that do not go
    back, from [lo] on and not after [hi]. *)
Fixpoint inOrder (tza lo hi : Z) (presses : list Press) : Prop :=
  match presses with
  | [] => lo <= hi
  | PrevAt z t :: rest => z = tza /\ lo <= t /\ inOrder tza t hi rest
  | NextAt z t :: rest => z = tza /\ lo <= t /\ inOrder tza t hi rest
  end.

(** Repeated presses of a navigation button settle on [limit]. *)
Definition convergesTo (f : Cursor -> Cursor) (c limit : Cursor) : Prop :=
  exists n : nat, forall k : nat, (n <= k)%nat -> Nat.iter k f c = limit.

End WindowPolicy.

(** ** Data shared by the two components *)

Record AvailabilityData := {
  date : string;
  reason : string;
  isBooked : bool
}.

Module API.

Record Hall := { hall_id : Z; name : string }.

(** One element of [APIResponse.data]. The reason may be missing ([null]) in
    the payload, which is what the [||] of the normalization caters for. *)
Record Item := {
  date : string;
  reason : option string;
  is_booked : bool;
  hall : Hall
}.

Record Response := {
  statusCode : Z;
  message : string;
  data : list Item
}.

End API.

(** What the [try] block of [fetchAvailability] meets: a parsed body, or an
    exception (no connection, a body that is not JSON), which the [catch]
    takes. *)
Inductive FetchResult :=
  | Resolved (result : API.Response)
  | Rejected (error : string).

(** [reason || "Available"]: [null] and the empty string are falsy. *)
Definition orAvailable (r : option string) : string :=
  match r with
  | None => "Available"
  | Some EmptyString => "Available"
  | Some s => s
  end.

(** [r] is [null] or the empty string. *)
Definition falsy (r : option string) : Prop := r = None \/ r = Some "".

(** The payload record [item] is about hall [hallId] on [day]. *)
Definition isFor (hallId : Z) (day : string) (item : API.Item) : bool :=
  (API.hall_id (API.hall item) =? hallId)
  && String.eqb (beforeT (API.date item)) day.

(** A fetch that failed: an exception, or a status other than 200. *)
Definition failed (r : FetchResult) : Prop :=
  match r with
  | Resolved result => API.statusCode result <> 200
  | Rejected _ => True
  end.

(** Two records of the same day that may differ in the reason text only. *)
Definition sameButReason (a b : AvailabilityData) : Prop :=
  date a = date b /\ isBooked a = isBooked b.

(** ... and that are both held ("On hold") or both not. *)
Definition sameStatus (a b : AvailabilityData) : Prop :=
  sameButReason a b
  /\ String.eqb (reason a) "On hold" = String.eqb (reason b) "On hold".

(** A call of the [onDateSelect] prop. *)
Definition Selection : Type := Z * string.

(** What is rendered for one day: the button's classes and [disabled]
    attribute, and the label under it (colour class and text). *)
Record DayView := {
  className : string;
  disabled : bool;
  label : option (string * string)
}.

(** The three values of the button's class, which is how the components tell
    the status of a day. *)
Inductive DateStatus := Available | OnHold | Booked.

(** The status of a payload record in the words of the specification: booked
    with the booked flag, on hold with a reason present and the booked flag
    not set, available otherwise. What the components compute instead is
    their [statusOf]. *)
Definition statusBySpec (item : API.Item) : DateStatus :=
  if API.is_booked item then Booked
  else match API.reason item with
       | Some (String _ _) => OnHold
       | _ => Available
       end.

(** ** The single-hall surface *)

Module Calendar.

Record State := {
  availabilityData : list AvailabilityData;
  currentMonth : Z;
  currentYear : Z
}.

Definition withData (s : State) (d : list AvailabilityData) : State :=
  {| availabilityData := d;
     currentMonth := currentMonth s; currentYear := currentYear s |}.

Definition withCursor (s : State) (m y : Z) : State :=
  {| availabilityData := availabilityData s;
     currentMonth := m; currentYear := y |}.

(** The three [useState] initial values. *)
Definition init (tza now : Z) : State :=
  {| availabilityData := [];
     currentMonth := JSDate.getMonth tza now;
     currentYear := JSDate.getFullYear tza now |}.

Definition horizon : Z := 36.

Definition normalize (item : API.Item) : AvailabilityData :=
  {| date := beforeT (API.date item);
     reason := orAvailable (API.reason item);
     isBooked := API.is_booked item |}.

(** [fetchAvailability]: the new state and the lines written with
    [console.error]. *)
Definition fetchAvailability (hallId : Z) (r : FetchResult) (s : State)
  : State * list string :=
  match r with
  | Resolved result =>
      if API.statusCode result =? 200 then
        let dataForHall :=
          List.map normalize
            (List.filter (fun item => API.hall_id (API.hall item) =? hallId)
                         (API.data result)) in
        (withData s dataForHall, [])
      else (s, ["Failed to fetch availability data"])
  | Rejected error => (s, ["Error fetching availability: " +:+ error])
  end.

(** The [for] loop of [getDaysInMonth]; [None] when the fuel runs out. The
    loop reads the clock at every turn; the readings of one call are taken
    to be the one instant [now]. *)
Fixpoint daysLoop (fuel : nat) (tza now date endDate : Z) (days : list string)
  : option (list string) :=
  match fuel with
  | O => None
  | S fuel' =>
      if date <=? endDate then
        let days' :=
          if date >=? now
          then days ++ [beforeT (JSDate.toISOString date)]
          else days in
        daysLoop fuel' tza now
                 (JSDate.setDate tza date (JSDate.getDate tza date + 1))
                 endDate days'
      else Some days
  end.

(** A month has at most 31 days, so the loop test is reached at most 32
    times. *)
Definition loopFuel : nat := 32.

Definition getDaysInMonth (tza now month year : Z) : option (list string) :=
  let startDate := JSDate.fromYMD tza year month 1 in
  let endDate := JSDate.fromYMD tza year (month + 1) 0 in
  daysLoop loopFuel tza now startDate endDate [].

Definition handlePrevMonth (tza now : Z) (s : State) : State :=
  if (currentMonth s =? JSDate.getMonth tza now)
     && (currentYear s =? JSDate.getFullYear tza now)
  then s
  else if currentMonth s =? 0
  then withCursor s 11 (currentYear s - 1)
  else withCursor s (currentMonth s - 1) (currentYear s).

Definition handleNextMonth (tza now : Z) (s : State) : State :=
  let maxMonth := JSDate.getMonth tza now + 36 in
  let maxYear := JSDate.getFullYear tza now + maxMonth / 12 in
  if (currentMonth s =? Z.rem maxMonth 12) && (currentYear s =? maxYear)
  then s
  else if currentMonth s =? 11
  then withCursor s 0 (currentYear s + 1)
  else withCursor s (currentMonth s + 1) (currentYear s).

Definition getReasonColor (reason : string) : string :=
  if includes reason "Wedding" then "text-blue-600"
  else if includes reason "Upanayana" then "text-yellow-600"
  else if includes reason "Reception" then "text-red-600"
  else if includes reason "Available" then "text-green-600"
  else if includes reason "On hold" then "text-orange-600"
  else "text-purple-600".

(** [availabilityData.find((data) => data.date === day)] *)
Definition findDay (s : State) (day : string) : option AvailabilityData :=
  List.find (fun data => String.eqb (date data) day) (availabilityData s).

(** [availability?.isBooked] and [availability?.reason === "On hold"], as
    truth values. *)
Definition booked (availability : option AvailabilityData) : bool :=
  match availability with Some a => isBooked a | None => false end.

Definition onHold (availability : option AvailabilityData) : bool :=
  match availability with
  | Some a => String.eqb (reason a) "On hold"
  | None => false
  end.

(** The branch of the class ternary. *)
Definition statusOf (availability : option AvailabilityData) : DateStatus :=
  if booked availability then Booked
  else if onHold availability then OnHold
  else Available.

Definition dayView (s : State) (day : string) : DayView :=
  let availability := findDay s day in
  {| className :=
       "p-2 rounded-lg w-full " +:+
       match statusOf availability with
       | Booked => "bg-red-100 cursor-not-allowed"
       | OnHold => "bg-orange-100 cursor-not-allowed"
       | Available => "bg-green-100 hover:bg-green-200"
       end;
     disabled := booked availability || onHold availability;
     label :=
       match availability with
       | Some a => Some (getReasonColor (reason a), reason a)
       | None => None
       end |}.

(** The button's [onClick]: the call of [onDateSelect] it makes, if any. *)
Definition onClick (hallId : Z) (s : State) (day : string)
  : option Selection :=
  let availability := findDay s day in
  if negb (booked availability) && negb (onHold availability)
  then Some (hallId, day)
  else None.

(** A click on the day's button: a disabled button gets no click event. *)
Definition click (hallId : Z) (s : State) (day : string) : option Selection :=
  if disabled (dayView s day) then None else onClick hallId s day.

(** The visible month. *)
Definition cursor (s : State) : WindowPolicy.Cursor :=
  (currentMonth s, currentYear s).

(** What happens to a mounted component: a fetch completes, or a navigation
    button is pressed, at some reading of the clock. A press stands for a
    call of the handler: it is taken also where the button is disabled and
    the browser would not deliver the click, so that the runs of [run] are
    more than the runs of the component. [run] keeps one [hallId] for all
    of its events; [runProps] below follows a prop that changes. *)
Inductive Event :=
  | Fetched (r : FetchResult)
  | PrevPressed (tza now : Z)
  | NextPressed (tza now : Z).

Definition step (hallId : Z) (s : State) (e : Event) : State :=
  match e with
  | Fetched r => fst (fetchAvailability hallId r s)
  | PrevPressed tza now => handlePrevMonth tza now s
  | NextPressed tza now => handleNextMonth tza now s
  end.

Definition run (hallId : Z) (s : State) (events : list Event) : State :=
  fold_left (step hallId) events s.

(** The navigation presses among the events. *)
Definition presses (events : list Event) : list WindowPolicy.Press :=
  flat_map (fun e => match e with
                     | Fetched _ => []
                     | PrevPressed tza now => [WindowPolicy.PrevAt tza now]
                     | NextPressed tza now => [WindowPolicy.NextAt tza now]
                     end) events.

Definition reachable (hallId : Z) (s : State) : Prop :=
  exists tza now events, s = run hallId (init tza now) events.

(** The day lists of the visible month and of the months that [count]
    presses of Next lead through. *)
Fixpoint offered (count : nat) (tza now : Z) (s : State)
  : option (list string) :=
  match getDaysInMonth tza now (currentMonth s) (currentYear s) with
  | None => None
  | Some days =>
      match count with
      | O => Some days
      | S k =>
          match offered k tza now (handleNextMonth tza now s) with
          | Some rest => Some (days ++ rest)
          | None => None
          end
      end
  end.

(** All the days the surface offers, from mounting at [now] on. *)
Definition offeredDates (tza now : Z) : option (list string) :=
  offered (Z.to_nat horizon) tza now (init tza now).

(** Repeated presses settle the visible month on [limit]. *)
Definition settlesOn (f : State -> State) (s : State)
  (limit : WindowPolicy.Cursor) : Prop :=
  exists n : nat, forall k : nat, (n <= k)%nat -> cursor (Nat.iter k f s) = limit.

(** The [disabled] attribute of the Previous and of the Next button. *)
Definition prevDisabled (tza now : Z) (s : State) : bool :=
  (currentMonth s =? JSDate.getMonth tza now)
  && (currentYear s =? JSDate.getFullYear tza now).

Definition nextDisabled (tza now : Z) (s : State) : bool :=
  (currentMonth s =? Z.rem (JSDate.getMonth tza now + 36) 12)
  && (currentYear s
      =? JSDate.getFullYear tza now + (JSDate.getMonth tza now + 36) / 12).

(** The component starts a fetch when it is mounted and again whenever its
    [hallId] prop changes ([useEffect] on [fetchAvailability], which is
    rebuilt for a new [hallId]); the fetch filters for the [hallId] it was
    started with. The events of a component over the changes of its prop:
    a completed fetch comes with that [hallId]. *)
Inductive PropEvent :=
  | FetchedFor (hallId : Z) (r : FetchResult)
  | PrevPressedAt (tza now : Z)
  | NextPressedAt (tza now : Z).

Definition stepProp (s : State) (e : PropEvent) : State :=
  match e with
  | FetchedFor hallId r => fst (fetchAvailability hallId r s)
  | PrevPressedAt tza now => handlePrevMonth tza now s
  | NextPressedAt tza now => handleNextMonth tza now s
  end.

Definition runProps (s : State) (events : list PropEvent) : State :=
  fold_left stepProp events s.

(** The last fetch among the events that came back with status 200: the
    [hallId] it was started with and its payload. *)
Definition lastFetchedFor (events : list PropEvent)
  : option (Z * list API.Item) :=
  fold_left (fun last e =>
               match e with
               | FetchedFor hallId (Resolved result) =>
                   if API.statusCode result =? 200
                   then Some (hallId, API.data result) else last
               | _ => last
               end) events None.

End Calendar.

(** ** The multi-hall surface *)

Module HallList.

(** [Hall] of [../booking/types], as far as the component reads it. *)
Record Hall := {
  hall_id : Z;
  name : string;
  description : string;
  images : list string
}.

(** [availabilityData] is an object keyed by hall id. A number used as a
    property name is its decimal text, one text per integer, so the keys are
    kept as integers. *)
Record State := {
  availabilityData : gmap Z (list AvailabilityData);
  currentMonth : Z;
  currentYear : Z
}.

Definition withData (s : State) (d : gmap Z (list AvailabilityData)) : State :=
  {| availabilityData := d;
     currentMonth := currentMonth s; currentYear := currentYear s |}.

Definition withCursor (s : State) (m y : Z) : State :=
  {| availabilityData := availabilityData s;
     currentMonth := m; currentYear := y |}.

Definition init (tza now : Z) : State :=
  {| availabilityData := ∅;
     currentMonth := JSDate.getMonth tza now;
     currentYear := JSDate.getFullYear tza now |}.

Definition horizon : Z := 2.

Definition normalize (item : API.Item) : AvailabilityData :=
  {| date := beforeT (API.date item);
     reason := orAvailable (API.reason item);
     isBooked := API.is_booked item |}.

(** The body of the [forEach]: create the hall's array when it is missing,
    then push the normalized record. *)
Definition groupItem (groupedData : gmap Z (list AvailabilityData))
  (item : API.Item) : gmap Z (list AvailabilityData) :=
  let hallId := API.hall_id (API.hall item) in
  let groupedData' :=
    match groupedData !! hallId with
    | None => <[hallId := []]> groupedData
    | Some _ => groupedData
    end in
  match groupedData' !! hallId with
  | Some l => <[hallId := l ++ [normalize item]]> groupedData'
  | None => groupedData'
  end.

Definition fetchAvailability (r : FetchResult) (s : State)
  : State * list string :=
  match r with
  | Resolved result =>
      if API.statusCode result =? 200 then
        let groupedData := fold_left groupItem (API.data result) ∅ in
        (withData s groupedData, [])
      else (s, ["Failed to fetch availability data"])
  | Rejected error => (s, ["Error fetching availability: " +:+ error])
  end.

Fixpoint daysLoop (fuel : nat) (tza now date endDate : Z) (days : list string)
  : option (list string) :=
  match fuel with
  | O => None
  | S fuel' =>
      if date <=? endDate then
        let days' :=
          if date >=? now
          then days ++ [beforeT (JSDate.toISOString date)]
          else days in
        daysLoop fuel' tza now
                 (JSDate.setDate tza date (JSDate.getDate tza date + 1))
                 endDate days'
      else Some days
  end.

Definition loopFuel : nat := 32.

Definition getDaysInMonth (tza now month year : Z) : option (list string) :=
  let startDate := JSDate.fromYMD tza year month 1 in
  let endDate := JSDate.fromYMD tza year (month + 1) 0 in
  daysLoop loopFuel tza now startDate endDate [].

Definition handlePrevMonth (tza now : Z) (s : State) : State :=
  if (currentMonth s =? JSDate.getMonth tza now)
     && (currentYear s =? JSDate.getFullYear tza now)
  then s
  else if currentMonth s =? 0
  then withCursor s 11 (currentYear s - 1)
  else withCursor s (currentMonth s - 1) (currentYear s).

Definition handleNextMonth (tza now : Z) (s : State) : State :=
  let maxMonth := JSDate.getMonth tza now + 2 in
  let maxYear := JSDate.getFullYear tza now + maxMonth / 12 in
  if (currentMonth s =? Z.rem maxMonth 12) && (currentYear s =? maxYear)
  then s
  else if currentMonth s =? 11
  then withCursor s 0 (currentYear s + 1)
  else withCursor s (currentMonth s + 1) (currentYear s).

Definition getReasonColor (reason : string) : string :=
  if includes reason "Wedding" then "text-blue-600"
  else if includes reason "Upanayana" then "text-yellow-600"
  else if includes reason "Reception" then "text-red-600"
  else if includes reason "Available" then "text-green-600"
  else "text-purple-600".

(** [availabilityData[hall.hall_id]?.find((data) => data.date === day)] *)
Definition findDay (s : State) (hallId : Z) (day : string)
  : option AvailabilityData :=
  match availabilityData s !! hallId with
  | Some l => List.find (fun data => String.eqb (date data) day) l
  | None => None
  end.

Definition booked (availability : option AvailabilityData) : bool :=
  match availability with Some a => isBooked a | None => false end.

(** The class ternary of this surface has two branches only. *)
Definition statusOf (availability : option AvailabilityData) : DateStatus :=
  if booked availability then Booked else Available.

Definition dayView (s : State) (hallId : Z) (day : string) : DayView :=
  let availability := findDay s hallId day in
  {| className :=
       "p-3 rounded-lg w-full " +:+
       match statusOf availability with
       | Booked => "bg-red-100 cursor-not-allowed"
       | _ => "bg-green-100 hover:bg-green-200"
       end;
     disabled := booked availability;
     label :=
       match availability with
       | Some a =>
           if isBooked a then Some (getReasonColor (reason a), reason a)
           else None
       | None => None
       end |}.

Definition onClick (s : State) (hallId : Z) (day : string)
  : option Selection :=
  let availability := findDay s hallId day in
  if negb (booked availability) then Some (hallId, day) else None.

Definition click (s : State) (hallId : Z) (day : string) : option Selection :=
  if disabled (dayView s hallId day) then None else onClick s hallId day.

Definition cursor (s : State) : WindowPolicy.Cursor :=
  (currentMonth s, currentYear s).

Inductive Event :=
  | Fetched (r : FetchResult)
  | PrevPressed (tza now : Z)
  | NextPressed (tza now : Z).

Definition step (s : State) (e : Event) : State :=
  match e with
  | Fetched r => fst (fetchAvailability r s)
  | PrevPressed tza now => handlePrevMonth tza now s
  | NextPressed tza now => handleNextMonth tza now s
  end.

Definition run (s : State) (events : list Event) : State :=
  fold_left step events s.

(** The navigation presses among the events. *)
Definition presses (events : list Event) : list WindowPolicy.Press :=
  flat_map (fun e => match e with
                     | Fetched _ => []
                     | PrevPressed tza now => [WindowPolicy.PrevAt tza now]
                     | NextPressed tza now => [WindowPolicy.NextAt tza now]
                     end) events.

Definition reachable (s : State) : Prop :=
  exists tza now events, s = run (init tza now) events.

Fixpoint offered (count : nat) (tza now : Z) (s : State)
  : option (list string) :=
  match getDaysInMonth tza now (currentMonth s) (currentYear s) with
  | None => None
  | Some days =>
      match count with
      | O => Some days
      | S k =>
          match offered k tza now (handleNextMonth tza now s) with
          | Some rest => Some (days ++ rest)
          | None => None
          end
      end
  end.

Definition offeredDates (tza now : Z) : option (list string) :=
  offered (Z.to_nat horizon) tza now (init tza now).

Definition settlesOn (f : State -> State) (s : State)
  (limit : WindowPolicy.Cursor) : Prop :=
  exists n : nat, forall k : nat, (n <= k)%nat -> cursor (Nat.iter k f s) = limit.

(** The [disabled] attribute of the Previous and of the Next button. *)
Definition prevDisabled (tza now : Z) (s : State) : bool :=
  (currentMonth s =? JSDate.getMonth tza now)
  && (currentYear s =? JSDate.getFullYear tza now).

Definition nextDisabled (tza now : Z) (s : State) : bool :=
  (currentMonth s =? Z.rem (JSDate.getMonth tza now + 2) 12)
  && (currentYear s
      =? JSDate.getFullYear tza now + (JSDate.getMonth tza now + 2) / 12).

(** The payload of the last fetch among the events that came back with
    status 200. *)
Definition lastPayload (events : list Event) : option (list API.Item) :=
  fold_left (fun last e =>
               match e with
               | Fetched (Resolved result) =>
                   if API.statusCode result =? 200
                   then Some (API.data result) else last
               | _ => last
               end) events None.

End HallList.

(** ** Texts of dates *)

(** The date text of a day number: what [toISOString] puts before the [T]. *)
Definition dateText (z : Z) : string :=
  JSDate.yearString (JSDate.YearFromDay z) +:+ "-"
    +:+ JSDate.pad 2 (JSDate.MonthFromDay z + 1) "" +:+ "-"
    +:+ JSDate.pad 2 (JSDate.DateFromDay z) "".

(** Days from the start of an era to the start of its year [yoe], years
    running from March. *)
Definition yearStart (yoe : Z) : Z := 365 * yoe + yoe / 4 - yoe / 100.

(** The text of a date, [YYYY-MM-DD], month 0 being January. *)
Definition ymdText (year month day : Z) : string :=
  JSDate.yearString year +:+ "-" +:+ JSDate.pad 2 (month + 1) "" +:+ "-"
    +:+ JSDate.pad 2 day "".

(** [s] has a [T] in it. *)
Fixpoint hasT (s : string) : bool :=
  match s with
  | EmptyString => false
  | String c rest => Ascii.eqb c "T"%char || hasT rest
  end.

(** ** The page of one news item, [newsupdates/[newsId]/page.tsx] *)

Module News.

Record Image := { public_url : string; alt_text : string }.

(** An element of [data.NewsImages]. *)
Record NewsImage := { Images : Image }.

(** The [data] of the response body. *)
Record Data := {
  data_news_id : Z;
  data_title : string;
  data_content : string;
  data_title_kannada : option string;
  data_content_kannada : option string;
  data_created_at : string;
  NewsImages : list NewsImage
}.

Record NewsDetail := {
  news_id : Z;
  title : string;
  content : string;
  title_kannada : option string;
  content_kannada : option string;
  created_at : string;
  images : list Image
}.

(** A JavaScript number that is an integer or [NaN]. *)
Inductive Number := Int (i : Z) | NaN.

Record State := {
  newsDetail : option NewsDetail;
  loading : bool;
  error : option string;
  currentImageIndex : option Number
}.

Definition init : State :=
  {| newsDetail := None; loading := true; error := None;
     currentImageIndex := None |}.

(** What the [try] block of [fetchNewsDetail] meets: the parsed [data], or
    an exception (no connection, a response that is not [ok], a body that
    is not JSON or lacks [NewsImages]). *)
Inductive FetchResult :=
  | Loaded (data : Data)
  | Threw (err : string).

(** [!newsId] *)
Definition noId (newsId : option string) : bool :=
  match newsId with
  | None => true
  | Some EmptyString => true
  | Some _ => false
  end.

Definition toDetail (data : Data) : NewsDetail :=
  let images :=
    List.map (fun newsImage =>
                {| public_url := public_url (Images newsImage);
                   alt_text := alt_text (Images newsImage) |})
             (NewsImages data) in
  {| news_id := data_news_id data;
     title := data_title data;
     content := data_content data;
     title_kannada := data_title_kannada data;
     content_kannada := data_content_kannada data;
     created_at := data_created_at data;
     images := images |}.

(** [fetchNewsDetail]: the new state and the lines written with
    [console.error]. *)
Definition fetchNewsDetail (newsId : option string) (r : FetchResult)
  (s : State) : State * list string :=
  if noId newsId then (s, [])
  else
    match r with
    | Loaded data =>
        ({| newsDetail := Some (toDetail data);
            loading := false;
            error := error s;
            currentImageIndex := currentImageIndex s |}, [])
    | Threw err =>
        ({| newsDetail := newsDetail s;
            loading := false;
            error := Some "Failed to load news detail. Please try again later.";
            currentImageIndex := currentImageIndex s |}, [err])
    end.

Definition setCurrentImageIndex (s : State) (i : option Number) : State :=
  {| newsDetail := newsDetail s; loading := loading s; error := error s;
     currentImageIndex := i |}.

Definition handleImageClick (index : Z) (s : State) : State :=
  setCurrentImageIndex s (Some (Int index)).

Definition closeZoom (s : State) : State := setCurrentImageIndex s None.

Inductive Direction := prev | next.

(** [a + b] and [a % b] on numbers; the remainder has the sign of [a], and
    none by zero. *)
Definition add (a : Number) (b : Z) : Number :=
  match a with Int i => Int (i + b) | NaN => NaN end.

Definition remainder (a : Number) (b : Z) : Number :=
  match a with
  | Int i => if b =? 0 then NaN else Int (Z.rem i b)
  | NaN => NaN
  end.

Definition navigateImage (direction : Direction) (s : State) : State :=
  match currentImageIndex s, newsDetail s with
  | Some index, Some detail =>
      let totalImages := Z.of_nat (List.length (images detail)) in
      match direction with
      | prev =>
          setCurrentImageIndex s
            (Some (remainder (add (add index (-1)) totalImages) totalImages))
      | next =>
          setCurrentImageIndex s (Some (remainder (add index 1) totalImages))
      end
  | _, _ => s
  end.

(** [images[index]]: nothing for an index that is no position of the
    array. *)
Definition imageAt (l : list Image) (index : Number) : option Image :=
  match index with
  | Int i => if i <? 0 then None else nth_error l (Z.to_nat i)
  | NaN => None
  end.

(** The modal: none, the zoomed image, or, for an index without an image,
    the exception of reading [public_url] of [undefined]. *)
Inductive Modal :=
  | NoModal
  | Zoomed (image : Image)
  | ModalThrows.

Definition modalOf (s : State) : Modal :=
  match currentImageIndex s, newsDetail s with
  | Some index, Some detail =>
      match imageAt (images detail) index with
      | Some image => Zoomed image
      | None => ModalThrows
      end
  | _, _ => NoModal
  end.

(** The article; [dateOf] is the text handed to the date formatting, and a
    missing Kannada text leaves its element empty. *)
Record Article := {
  heading : option string;
  body : option string;
  dateOf : string;
  thumbnails : list Image
}.

Inductive View :=
  | Spinner
  | ErrorText (message : string)
  | Shown (article : option Article) (zoom : option Image)
  | Throws.

Definition articleOf (showKannada : bool) (detail : NewsDetail) : Article :=
  {| heading := if showKannada then title_kannada detail
                else Some (title detail);
     body := if showKannada then content_kannada detail
             else Some (content detail);
     dateOf := created_at detail;
     thumbnails := images detail |}.

(** [if (error)]: the message when there is one that is not empty. *)
Definition shownError (s : State) : option string :=
  match error s with
  | Some (String c rest) => Some (String c rest)
  | _ => None
  end.

Definition view (showKannada : bool) (s : State) : View :=
  if loading s then Spinner
  else match shownError s with
       | Some message => ErrorText message
       | None =>
           match modalOf s with
           | ModalThrows => Throws
           | Zoomed image =>
               Shown (option_map (articleOf showKannada) (newsDetail s))
                     (Some image)
           | NoModal =>
               Shown (option_map (articleOf showKannada) (newsDetail s)) None
           end
       end.

(** The zoomed index, if any, is a position of the images. *)
Definition indexInRange (s : State) : Prop :=
  match currentImageIndex s with
  | None => True
  | Some index =>
      exists i detail,
        index = Int i /\ newsDetail s = Some detail
        /\ 0 <= i < Z.of_nat (List.length (images detail))
  end.

(** A state with the modal open on position [i] of [detail]'s images. *)
Definition zoomedAt (s : State) (detail : NewsDetail) (i : Z) : Prop :=
  currentImageIndex s = Some (Int i) /\ newsDetail s = Some detail
  /\ 0 <= i < Z.of_nat (List.length (images detail)).

(** What happens to the page: a fetch completes, a thumbnail is clicked, the
    modal is closed, or one of its arrows is pressed. The handlers are
    taken as functions of the state alone: [step] applies them also in a
    state whose render throws, where the page offers nothing to press. *)
Inductive Event :=
  | Fetched (newsId : option string) (r : FetchResult)
  | ImageClicked (index : Z)
  | ZoomClosed
  | Navigated (direction : Direction).

Definition step (s : State) (e : Event) : State :=
  match e with
  | Fetched newsId r => fst (fetchNewsDetail newsId r s)
  | ImageClicked index => handleImageClick index s
  | ZoomClosed => closeZoom s
  | Navigated direction => navigateImage direction s
  end.

Definition run (s : State) (events : list Event) : State :=
  fold_left step events s.

End News.

(** ** The timings page, [temple/page.tsx] *)

Module Temple.

Record Detail := { title : string; description : string }.

Record Content := { heading : string; details : list Detail }.

(** One rendered entry: its title, its description and whether a rule
    follows it. *)
Record Block := {
  blockTitle : string;
  blockText : string;
  ruleAfter : bool
}.

(** [details.map(({ title, description }, index) => ...)], from [index]
    on. *)
Fixpoint blocksFrom (index : nat) (total : nat) (details : list Detail)
  : list Block :=
  match details with
  | [] => []
  | d :: rest =>
      {| blockTitle := title d;
         blockText := description d;
         ruleAfter := Z.of_nat index <? Z.of_nat total - 1 |}
      :: blocksFrom (S index) total rest
  end.

Definition blocks (details : list Detail) : list Block :=
  blocksFrom 0 (List.length details) details.

End Temple.

(** ** Concrete clock readings and payloads *)

Module Sample.

(** 2025-01-15T10:00:00Z and 2025-02-15T10:00:00Z *)
Definition jan15 : Z := 1736935200000.
Definition feb15 : Z := 1739613600000.

(** India Standard Time, UTC+05:30, in milliseconds. *)
Definition ist : Z := 19800000.

Definition hallA : API.Hall := {| API.hall_id := 1; API.name := "Hall A" |}.

Definition record (reason : option string) (is_booked : bool) : API.Item :=
  {| API.date := "2025-06-10T00:00:00.000Z";
     API.reason := reason;
     API.is_booked := is_booked;
     API.hall := hallA |}.

Definition ok (data : list API.Item) : FetchResult :=
  Resolved {| API.statusCode := 200; API.message := "OK"; API.data := data |}.

Definition serverError (data : list API.Item) : FetchResult :=
  Resolved {| API.statusCode := 500; API.message := "Internal Server Error";
              API.data := data |}.

Definition photo (n : string) : News.NewsImage :=
  {| News.Images := {| News.public_url := "https://cdn.example/" +:+ n;
                       News.alt_text := n |} |}.

Definition story (photos : list News.NewsImage) : News.Data :=
  {| News.data_news_id := 7;
     News.data_title := "Annual festival";
     News.data_content := "The festival begins on Friday.";
     News.data_title_kannada := None;
     News.data_content_kannada := None;
     News.data_created_at := "2025-01-10T08:00:00.000Z";
     News.NewsImages := photos |}.

(** The page after the story with three photos has loaded. *)
Definition loaded : News.State :=
  fst (News.fetchNewsDetail (Some "7")
         (News.Loaded (story [photo "a"; photo "b"; photo "c"])) News.init).

End Sample.

(** ** Facts about the calendar arithmetic *)

Module DateFacts.
Import JSDate.

Lemma yoe_range doe : 0 <= doe < 146097 -> 0 <= yoe_of doe <= 399.
Proof. intros H. unfold yoe_of. Z.div_mod_to_equations. lia. Qed.

Lemma doy_range doe : 0 <= doe < 146097 -> 0 <= doy_of doe <= 365.
Proof. intros H. unfold doy_of, yoe_of. Z.div_mod_to_equations. lia. Qed.

Lemma mp_range doe : 0 <= doe < 146097 -> 0 <= mp_of doe <= 11.
Proof.
  intros H. pose proof (doy_range doe H) as Hd.
  unfold mp_of. Z.div_mod_to_equations. lia.
Qed.

Lemma doe_range z : 0 <= doe_of z < 146097.
Proof. unfold doe_of. apply Z.mod_pos_bound. lia. Qed.

Lemma era_ok z :
  0 <= yoe_of (doe_of z) <= 399 /\ 0 <= mp_of (doe_of z) <= 11.
Proof.
  pose proof (doe_range z) as Hd.
  split; [apply yoe_range | apply mp_range]; exact Hd.
Qed.

Lemma MonthFromDay_range z : 0 <= MonthFromDay z <= 11.
Proof.
  unfold MonthFromDay. destruct (era_ok z) as [_ Hmp].
  destruct (mp_of (doe_of z) <? 10) eqn:E; lia.
Qed.

Lemma getMonth_range tza t : 0 <= getMonth tza t <= 11.
Proof. apply MonthFromDay_range. Qed.

(** The civil date of a day number denotes that day number. *)
Lemma MakeDay_civil z :
  MakeDay (YearFromDay z) (MonthFromDay z) (DateFromDay z) = z.
Proof.
  pose proof (MonthFromDay_range z) as Hm.
  destruct (era_ok z) as [Hy Hmp].
  unfold MakeDay. rewrite (Z.div_small _ 12), (Z.mod_small _ 12) by lia.
  rewrite Z.add_0_r.
  unfold DayFromYearMonth, YearFromDay, DateFromDay.
  assert (Hz : z + 719468 = 146097 * era_of z + doe_of z)
    by (unfold era_of, doe_of; apply Z.div_mod; lia).
  unfold MonthFromDay in *.
  set (doe := doe_of z) in *. set (era := era_of z) in *.
  set (mp := mp_of doe) in *. set (yoe := yoe_of doe) in *.
  assert (Hdoy : doy_of doe = doe - (365 * yoe + yoe / 4 - yoe / 100))
    by reflexivity.
  destruct (mp <? 10) eqn:E.
  - apply Z.ltb_lt in E.
    destruct (mp + 2 <=? 1) eqn:E1; [apply Z.leb_le in E1; lia|].
    replace ((yoe + era * 400) / 400) with era
      by (apply Z.div_unique with yoe; lia).
    replace (yoe + era * 400 - era * 400) with yoe by lia.
    replace (mp + 2 - 2) with mp by lia. lia.
  - apply Z.ltb_ge in E.
    destruct (mp - 10 <=? 1) eqn:E1; [|apply Z.leb_gt in E1; lia].
    replace (yoe + era * 400 + 1 - 1) with (yoe + era * 400) by lia.
    replace ((yoe + era * 400) / 400) with era
      by (apply Z.div_unique with yoe; lia).
    replace (yoe + era * 400 - era * 400) with yoe by lia.
    replace (mp - 10 + 10) with mp by lia. lia.
Qed.

(** Shifting the day of the month shifts the day number. *)
Lemma MakeDay_shift y m d k : MakeDay y m (d + k) = MakeDay y m d + k.
Proof. unfold MakeDay. lia. Qed.

(** [date.setDate(date.getDate() + 1)] is the same time on the next day. *)
Lemma setDate_next tza t :
  setDate tza t (getDate tza t + 1) = t + msPerDay.
Proof.
  unfold setDate, getDate, YearFromTime, MonthFromTime, DateFromTime.
  rewrite MakeDay_shift, MakeDay_civil.
  unfold UTC, MakeDate, LocalTime, Day, TimeWithinDay.
  pose proof (Z.div_mod (t + tza) msPerDay) as H.
  unfold msPerDay in *. lia.
Qed.

Lemma yoe_mono a b : 0 <= a <= b -> b < 146097 -> yoe_of a <= yoe_of b.
Proof. intros H1 H2. unfold yoe_of. Z.div_mod_to_equations. lia. Qed.

Lemma mp_mono a b :
  0 <= a <= b -> b < 146097 -> yoe_of a = yoe_of b -> mp_of a <= mp_of b.
Proof.
  intros H1 H2 E. unfold mp_of, doy_of. rewrite E.
  apply Z.div_le_mono; lia.
Qed.

(** Months since the March that starts the era, of a day of the era. *)
Lemma eraMonth_mono a b :
  0 <= a <= b -> b < 146097 ->
  12 * yoe_of a + mp_of a <= 12 * yoe_of b + mp_of b.
Proof.
  intros H1 H2.
  pose proof (yoe_mono a b H1 H2).
  destruct (Z.eq_dec (yoe_of a) (yoe_of b)) as [E|E].
  - pose proof (mp_mono a b H1 H2 E). lia.
  - pose proof (mp_range a ltac:(lia)). pose proof (mp_range b ltac:(lia)). lia.
Qed.

(** The month index of a day number, by era. *)
Lemma monthIndex_of_day z :
  12 * YearFromDay z + MonthFromDay z
  = 4800 * era_of z + 12 * yoe_of (doe_of z) + mp_of (doe_of z) + 2.
Proof.
  unfold YearFromDay, MonthFromDay.
  destruct (era_ok z) as [_ Hmp].
  destruct (mp_of (doe_of z) <? 10) eqn:E.
  - apply Z.ltb_lt in E.
    destruct (mp_of (doe_of z) + 2 <=? 1) eqn:E1;
      [apply Z.leb_le in E1|]; lia.
  - apply Z.ltb_ge in E.
    destruct (mp_of (doe_of z) - 10 <=? 1) eqn:E1;
      [|apply Z.leb_gt in E1]; lia.
Qed.

(** Later days are in later or equal months. *)
Lemma monthIndex_of_day_mono z1 z2 :
  z1 <= z2 ->
  12 * YearFromDay z1 + MonthFromDay z1 <= 12 * YearFromDay z2 + MonthFromDay z2.
Proof.
  intros Hz. rewrite !monthIndex_of_day.
  pose proof (doe_range z1) as Hd1. pose proof (doe_range z2) as Hd2.
  destruct (era_ok z1) as [Hy1 Hm1]. destruct (era_ok z2) as [Hy2 Hm2].
  assert (He : era_of z1 <= era_of z2)
    by (unfold era_of; apply Z.div_le_mono; lia).
  destruct (Z.eq_dec (era_of z1) (era_of z2)) as [E|E].
  - assert (Hdoe : doe_of z1 <= doe_of z2).
    { assert (H1 : z1 + 719468 = 146097 * era_of z1 + doe_of z1)
        by (unfold era_of, doe_of; apply Z.div_mod; lia).
      assert (H2 : z2 + 719468 = 146097 * era_of z2 + doe_of z2)
        by (unfold era_of, doe_of; apply Z.div_mod; lia).
      lia. }
    pose proof (eraMonth_mono (doe_of z1) (doe_of z2) ltac:(lia) ltac:(lia)).
    lia.
  - lia.
Qed.

(** January 1st of year [y] is the day ECMAScript calls DayFromYear(y). *)
Lemma DayFromYear_first y :
  DayFromYearMonth y 0
  = 365 * (y - 1970) + (y - 1969) / 4 - (y - 1901) / 100 + (y - 1601) / 400.
Proof. unfold DayFromYearMonth. simpl. Z.div_mod_to_equations. lia. Qed.

Lemma month_length_within y m :
  0 <= m <= 10 ->
  28 <= DayFromYearMonth y (m + 1) - DayFromYearMonth y m <= 31.
Proof.
  intros H.
  assert (Hc : m = 0 \/ m = 1 \/ m = 2 \/ m = 3 \/ m = 4 \/ m = 5 \/ m = 6
               \/ m = 7 \/ m = 8 \/ m = 9 \/ m = 10) by lia.
  repeat (destruct Hc as [-> | Hc]); try subst m;
    unfold DayFromYearMonth; simpl; Z.div_mod_to_equations; lia.
Qed.

Lemma month_length_december y :
  DayFromYearMonth (y + 1) 0 - DayFromYearMonth y 11 = 31.
Proof.
  unfold DayFromYearMonth; simpl. replace (y + 1 - 1) with y by lia.
  Z.div_mod_to_equations; lia.
Qed.

(** From the first day of a month to its last there are 27 to 30 days,
    whatever the month number, in range or not. *)
Lemma month_length y m : 27 <= MakeDay y (m + 1) 0 - MakeDay y m 1 <= 30.
Proof.
  unfold MakeDay.
  pose proof (Z.mod_pos_bound m 12 ltac:(lia)) as Hm.
  pose proof (Z.div_mod m 12 ltac:(lia)) as Hdm.
  destruct (Z.eq_dec (m mod 12) 11) as [E|E].
  - assert (H1 : (m + 1) / 12 = m / 12 + 1)
      by (symmetry; apply Z.div_unique with 0; lia).
    assert (H2 : (m + 1) mod 12 = 0)
      by (symmetry; apply Z.mod_unique with (m / 12 + 1); lia).
    rewrite H1, H2, E. pose proof (month_length_december (y + m / 12)).
    replace (y + (m / 12 + 1)) with (y + m / 12 + 1) by lia. lia.
  - assert (H1 : (m + 1) / 12 = m / 12)
      by (symmetry; apply Z.div_unique with (m mod 12 + 1); lia).
    assert (H2 : (m + 1) mod 12 = m mod 12 + 1)
      by (symmetry; apply Z.mod_unique with (m / 12); lia).
    rewrite H1, H2.
    pose proof (month_length_within (y + m / 12) (m mod 12) ltac:(lia)). lia.
Qed.

(** The two bounds of the loop of [getDaysInMonth] are whole days apart. *)
Lemma month_span tza year month :
  exists n : Z,
    27 <= n <= 30
    /\ fromYMD tza year (month + 1) 0
       = fromYMD tza year month 1 + n * msPerDay.
Proof.
  unfold fromYMD.
  set (yr := if (0 <=? year) && (year <=? 99) then 1900 + year else year).
  exists (MakeDay yr (month + 1) 0 - MakeDay yr month 1).
  split; [apply month_length|].
  unfold UTC, MakeDate, msPerDay. lia.
Qed.

End DateFacts.

(** ** Facts about the navigation on the bare cursor *)

Module WindowFacts.
Import WindowPolicy.

Lemma today_valid tza now : validMonth (today tza now).
Proof. apply DateFacts.getMonth_range. Qed.

Lemma monthIndex_inj c c' :
  validMonth c -> validMonth c' -> monthIndex c = monthIndex c' -> c = c'.
Proof.
  destruct c as [m y], c' as [m' y']. unfold validMonth, monthIndex. simpl.
  intros H H' E. f_equal; lia.
Qed.

Lemma cursor_eq_dec (c c' : Cursor) : {c = c'} + {c <> c'}.
Proof.
  destruct c as [m y], c' as [m' y'].
  destruct (Z.eq_dec m m') as [->|Hm]; [|right; congruence].
  destruct (Z.eq_dec y y') as [->|Hy]; [left; reflexivity | right; congruence].
Qed.

Lemma horizonEnd_valid h tza now : 0 <= h -> validMonth (horizonEnd h tza now).
Proof.
  intros Hh. pose proof (DateFacts.getMonth_range tza now) as Hm.
  unfold validMonth, horizonEnd. simpl.
  rewrite Z.rem_mod_nonneg by lia.
  pose proof (Z.mod_pos_bound (JSDate.getMonth tza now + h) 12). lia.
Qed.

Lemma monthIndex_horizonEnd h tza now :
  0 <= h ->
  monthIndex (horizonEnd h tza now) = monthIndex (today tza now) + h.
Proof.
  intros Hh. pose proof (DateFacts.getMonth_range tza now) as Hm.
  unfold monthIndex, horizonEnd, today. simpl.
  rewrite Z.rem_mod_nonneg by lia.
  pose proof (Z.div_mod (JSDate.getMonth tza now + h) 12). lia.
Qed.

Lemma prevMonth_today tza now : prevMonth tza now (today tza now) = today tza now.
Proof. unfold prevMonth, today. now rewrite !Z.eqb_refl. Qed.

Lemma nextMonth_horizonEnd h tza now :
  nextMonth h tza now (horizonEnd h tza now) = horizonEnd h tza now.
Proof. unfold nextMonth, horizonEnd. now rewrite !Z.eqb_refl. Qed.

Lemma prevMonth_stepBack tza now c :
  validMonth c -> stepBack c (prevMonth tza now c).
Proof.
  destruct c as [m y]. unfold validMonth, stepBack, prevMonth. simpl.
  intros Hm.
  destruct ((m =? JSDate.getMonth tza now)
            && (y =? JSDate.getFullYear tza now)); [now left|].
  destruct (m =? 0) eqn:E.
  - apply Z.eqb_eq in E. right. left. now split.
  - apply Z.eqb_neq in E. right. right. split; [lia | reflexivity].
Qed.

Lemma nextMonth_stepForward h tza now c :
  validMonth c -> stepForward c (nextMonth h tza now c).
Proof.
  destruct c as [m y]. unfold validMonth, stepForward, nextMonth. simpl.
  intros Hm.
  destruct ((m =? Z.rem (JSDate.getMonth tza now + h) 12)
            && (y =? JSDate.getFullYear tza now
                       + (JSDate.getMonth tza now + h) / 12)); [now left|].
  destruct (m =? 11) eqn:E.
  - apply Z.eqb_eq in E. right. left. now split.
  - apply Z.eqb_neq in E. right. right. split; [lia | reflexivity].
Qed.

Lemma stepBack_valid c c' : validMonth c -> stepBack c c' -> validMonth c'.
Proof.
  unfold validMonth, stepBack.
  intros Hc [-> | [[_ ->] | [H ->]]]; simpl; lia.
Qed.

Lemma stepForward_valid c c' : validMonth c -> stepForward c c' -> validMonth c'.
Proof.
  unfold validMonth, stepForward.
  intros Hc [-> | [[_ ->] | [H ->]]]; simpl; lia.
Qed.

Lemma prevMonth_valid tza now c : validMonth c -> validMonth (prevMonth tza now c).
Proof. intros H. eapply stepBack_valid; eauto using prevMonth_stepBack. Qed.

Lemma nextMonth_valid h tza now c :
  validMonth c -> validMonth (nextMonth h tza now c).
Proof. intros H. eapply stepForward_valid; eauto using nextMonth_stepForward. Qed.

(** Away from today's month, Previous goes back one month. *)
Lemma prevMonth_moves tza now c :
  validMonth c -> c <> today tza now ->
  monthIndex (prevMonth tza now c) = monthIndex c - 1.
Proof.
  destruct c as [m y]. unfold validMonth, prevMonth, today, monthIndex. simpl.
  intros Hm Hne.
  destruct ((m =? JSDate.getMonth tza now)
            && (y =? JSDate.getFullYear tza now)) eqn:E.
  - apply andb_true_iff in E as [E1 E2].
    apply Z.eqb_eq in E1, E2. subst. now elim Hne.
  - destruct (m =? 0) eqn:E0; simpl.
    + apply Z.eqb_eq in E0. lia.
    + lia.
Qed.

(** Away from the month of the horizon's end, Next goes on one month. *)
Lemma nextMonth_moves h tza now c :
  validMonth c -> c <> horizonEnd h tza now ->
  monthIndex (nextMonth h tza now c) = monthIndex c + 1.
Proof.
  destruct c as [m y]. unfold validMonth, nextMonth, horizonEnd, monthIndex.
  simpl. intros Hm Hne.
  destruct ((m =? Z.rem (JSDate.getMonth tza now + h) 12)
            && (y =? JSDate.getFullYear tza now
                       + (JSDate.getMonth tza now + h) / 12)) eqn:E.
  - apply andb_true_iff in E as [E1 E2].
    apply Z.eqb_eq in E1, E2. subst. now elim Hne.
  - destruct (m =? 11) eqn:E0; simpl.
    + apply Z.eqb_eq in E0. lia.
    + lia.
Qed.

Lemma iter_fixed (f : Cursor -> Cursor) (c : Cursor) :
  f c = c -> forall k, Nat.iter k f c = c.
Proof.
  intros Hf. induction k as [|k IH]; [reflexivity|].
  rewrite Nat.iter_succ. congruence.
Qed.

(** A cursor that reaches a fixed point after [n] presses stays there. *)
Lemma converges_after (f : Cursor -> Cursor) (c limit : Cursor) (n : nat) :
  Nat.iter n f c = limit -> f limit = limit -> convergesTo f c limit.
Proof.
  intros Hn Hf. exists n. intros k Hk.
  replace k with ((k - n) + n)%nat by lia.
  rewrite Nat.iter_add, Hn. now apply iter_fixed.
Qed.

Lemma prevMonth_reaches tza now :
  forall (n : nat) c,
    validMonth c ->
    monthIndex c = monthIndex (today tza now) + Z.of_nat n ->
    Nat.iter n (prevMonth tza now) c = today tza now.
Proof.
  induction n as [|n IH]; intros c Hv Hi.
  - simpl. apply monthIndex_inj; auto using today_valid. lia.
  - rewrite Nat.iter_succ_r. apply IH.
    + now apply prevMonth_valid.
    + rewrite prevMonth_moves; [lia | assumption |].
      intros ->. lia.
Qed.

Lemma nextMonth_reaches h tza now :
  0 <= h ->
  forall (n : nat) c,
    validMonth c ->
    monthIndex c + Z.of_nat n = monthIndex (horizonEnd h tza now) ->
    Nat.iter n (nextMonth h tza now) c = horizonEnd h tza now.
Proof.
  intros Hh. induction n as [|n IH]; intros c Hv Hi.
  - simpl. apply monthIndex_inj; auto using horizonEnd_valid. lia.
  - rewrite Nat.iter_succ_r. apply IH.
    + now apply nextMonth_valid.
    + rewrite nextMonth_moves; [lia | assumption |].
      intros ->. lia.
Qed.

(** Previous saturates at today's month from any month at or after it. *)
Lemma prevMonth_converges tza now c :
  validMonth c -> monthIndex (today tza now) <= monthIndex c ->
  convergesTo (prevMonth tza now) c (today tza now).
Proof.
  intros Hv Hi.
  apply converges_after
    with (n := Z.to_nat (monthIndex c - monthIndex (today tza now))).
  - apply prevMonth_reaches; [assumption | lia].
  - apply prevMonth_today.
Qed.

(** Next saturates at the horizon's end from any month at or before it. *)
Lemma nextMonth_converges h tza now c :
  0 <= h -> validMonth c ->
  monthIndex c <= monthIndex (horizonEnd h tza now) ->
  convergesTo (nextMonth h tza now) c (horizonEnd h tza now).
Proof.
  intros Hh Hv Hi.
  apply converges_after
    with (n := Z.to_nat (monthIndex (horizonEnd h tza now) - monthIndex c)).
  - apply nextMonth_reaches; [assumption | assumption | lia].
  - apply nextMonth_horizonEnd.
Qed.

(** Before today's month, Previous never stops. *)
Lemma prevMonth_runs_away tza now c :
  validMonth c -> monthIndex c < monthIndex (today tza now) ->
  forall k : nat,
    validMonth (Nat.iter k (prevMonth tza now) c)
    /\ monthIndex (Nat.iter k (prevMonth tza now) c) = monthIndex c - Z.of_nat k.
Proof.
  intros Hv Hi. induction k as [|k [IHv IHi]].
  - simpl. split; [assumption | lia].
  - rewrite Nat.iter_succ. split.
    + now apply prevMonth_valid.
    + rewrite prevMonth_moves; [lia | assumption |].
      intros E. rewrite E in IHi. lia.
Qed.

Lemma prevMonth_diverges tza now c :
  validMonth c -> monthIndex c < monthIndex (today tza now) ->
  ~ convergesTo (prevMonth tza now) c (today tza now).
Proof.
  intros Hv Hi [n Hn].
  destruct (prevMonth_runs_away tza now c Hv Hi n) as [_ Hk].
  rewrite (Hn n) in Hk by lia. lia.
Qed.

(** On a clock that does not go back, today's month does not go back. *)
Lemma today_mono tza now1 now2 :
  now1 <= now2 ->
  monthIndex (today tza now1) <= monthIndex (today tza now2).
Proof.
  intros H. unfold monthIndex, today. simpl.
  apply DateFacts.monthIndex_of_day_mono.
  unfold JSDate.LocalTime, JSDate.Day.
  apply Z.div_le_mono; [reflexivity | lia].
Qed.

Lemma inOrder_le tza presses : forall lo hi, inOrder tza lo hi presses -> lo <= hi.
Proof.
  induction presses as [|[z t|z t] rest IH]; intros lo hi H; simpl in H.
  - exact H.
  - destruct H as (_ & Hlo & Hrest). specialize (IH _ _ Hrest). lia.
  - destruct H as (_ & Hlo & Hrest). specialize (IH _ _ Hrest). lia.
Qed.

(** Whatever is pressed, the visible month never passes the month of the
    horizon's end of the day. *)
Lemma presses_below_horizon h tza :
  0 <= h ->
  forall presses lo hi c,
    inOrder tza lo hi presses ->
    validMonth c ->
    monthIndex c <= monthIndex (today tza lo) + h ->
    validMonth (fold_left (press h) presses c)
    /\ monthIndex (fold_left (press h) presses c)
       <= monthIndex (today tza hi) + h.
Proof.
  intros Hh.
  induction presses as [|[z t|z t] rest IH]; intros lo hi c Hord Hv Hi;
    simpl in Hord.
  - simpl. split; [exact Hv|]. pose proof (today_mono tza lo hi Hord). lia.
  - destruct Hord as (-> & Hlo & Hrest). simpl.
    pose proof (today_mono tza lo t Hlo) as Hmono.
    apply (IH t hi); [exact Hrest | now apply prevMonth_valid |].
    destruct (prevMonth_stepBack tza t c Hv) as [-> | [[H0 ->] | [H0 ->]]];
      unfold monthIndex in *; simpl in *; lia.
  - destruct Hord as (-> & Hlo & Hrest). simpl.
    pose proof (today_mono tza lo t Hlo) as Hmono.
    apply (IH t hi); [exact Hrest | now apply nextMonth_valid |].
    destruct (cursor_eq_dec c (horizonEnd h tza t)) as [-> | Hne].
    + rewrite nextMonth_horizonEnd, monthIndex_horizonEnd by assumption. lia.
    + rewrite nextMonth_moves by assumption.
      assert (monthIndex c <> monthIndex (horizonEnd h tza t)).
      { intros E. apply Hne.
        apply monthIndex_inj; auto using horizonEnd_valid. }
      rewrite monthIndex_horizonEnd in * by assumption. lia.
Qed.

(** While today's month stays the same, the visible month never falls
    behind it. *)
Lemma presses_not_before_today h tza :
  forall presses lo hi c,
    inOrder tza lo hi presses ->
    today tza lo = today tza hi ->
    validMonth c ->
    monthIndex (today tza hi) <= monthIndex c ->
    monthIndex (today tza hi) <= monthIndex (fold_left (press h) presses c).
Proof.
  induction presses as [|[z t|z t] rest IH]; intros lo hi c Hord Hsame Hv Hi;
    simpl in Hord.
  - exact Hi.
  - destruct Hord as (-> & Hlo & Hrest). simpl.
    assert (Ht : today tza t = today tza hi).
    { apply monthIndex_inj; auto using today_valid.
      pose proof (today_mono tza lo t Hlo).
      pose proof (today_mono tza t hi (inOrder_le _ _ _ _ Hrest)).
      rewrite Hsame in *. lia. }
    apply (IH t hi); [exact Hrest | exact Ht | now apply prevMonth_valid |].
    destruct (cursor_eq_dec c (today tza t)) as [-> | Hne].
    + rewrite prevMonth_today, Ht. lia.
    + rewrite prevMonth_moves by assumption.
      assert (monthIndex c <> monthIndex (today tza t)).
      { intros E. apply Hne. apply monthIndex_inj; auto using today_valid. }
      rewrite Ht in *. lia.
  - destruct Hord as (-> & Hlo & Hrest). simpl.
    assert (Ht : today tza t = today tza hi).
    { apply monthIndex_inj; auto using today_valid.
      pose proof (today_mono tza lo t Hlo).
      pose proof (today_mono tza t hi (inOrder_le _ _ _ _ Hrest)).
      rewrite Hsame in *. lia. }
    apply (IH t hi); [exact Hrest | exact Ht | now apply nextMonth_valid |].
    destruct (nextMonth_stepForward h tza t c Hv) as [-> | [[H0 ->] | [H0 ->]]];
      unfold monthIndex in *; simpl in *; lia.
Qed.

End WindowFacts.

Module CalendarFacts.
Import WindowPolicy WindowFacts.

Lemma calendar_cursor_prev tza now (s : Calendar.State) :
  Calendar.cursor (Calendar.handlePrevMonth tza now s)
  = prevMonth tza now (Calendar.cursor s).
Proof.
  unfold Calendar.handlePrevMonth, prevMonth, Calendar.cursor.
  destruct ((Calendar.currentMonth s =? JSDate.getMonth tza now)
            && (Calendar.currentYear s =? JSDate.getFullYear tza now));
    [reflexivity|].
  now destruct (Calendar.currentMonth s =? 0).
Qed.

Lemma calendar_cursor_next tza now (s : Calendar.State) :
  Calendar.cursor (Calendar.handleNextMonth tza now s)
  = nextMonth Calendar.horizon tza now (Calendar.cursor s).
Proof.
  unfold Calendar.handleNextMonth, nextMonth, Calendar.cursor, Calendar.horizon.
  destruct ((Calendar.currentMonth s =? Z.rem (JSDate.getMonth tza now + 36) 12)
            && (Calendar.currentYear s
                =? JSDate.getFullYear tza now
                   + (JSDate.getMonth tza now + 36) / 12));
    [reflexivity|].
  now destruct (Calendar.currentMonth s =? 11).
Qed.

(** Navigation leaves the fetched records alone. *)
Lemma calendar_data_prev tza now (s : Calendar.State) :
  Calendar.availabilityData (Calendar.handlePrevMonth tza now s)
  = Calendar.availabilityData s.
Proof.
  unfold Calendar.handlePrevMonth.
  destruct (_ && _); [reflexivity|]. now destruct (_ =? 0).
Qed.

Lemma calendar_data_next tza now (s : Calendar.State) :
  Calendar.availabilityData (Calendar.handleNextMonth tza now s)
  = Calendar.availabilityData s.
Proof.
  unfold Calendar.handleNextMonth.
  destruct (_ && _); [reflexivity|]. now destruct (_ =? 11).
Qed.

(** A fetch leaves the visible month alone. *)
Lemma calendar_cursor_fetch (hallId : Z) r (s : Calendar.State) :
  Calendar.cursor (fst (Calendar.fetchAvailability hallId r s)) = Calendar.cursor s.
Proof.
  unfold Calendar.fetchAvailability. destruct r as [result|error];
    [|reflexivity].
  now destruct (API.statusCode result =? 200).
Qed.

Lemma calendar_cursor_iter (f : Calendar.State -> Calendar.State) (g : Cursor -> Cursor) :
  (forall s, Calendar.cursor (f s) = g (Calendar.cursor s)) ->
  forall k s, Calendar.cursor (Nat.iter k f s) = Nat.iter k g (Calendar.cursor s).
Proof.
  intros Hfg. induction k as [|k IH]; intros s; [reflexivity|].
  now rewrite !Nat.iter_succ, Hfg, IH.
Qed.

Lemma calendar_settlesOn_iff (f : Calendar.State -> Calendar.State) (g : Cursor -> Cursor) s limit :
  (forall s, Calendar.cursor (f s) = g (Calendar.cursor s)) ->
  Calendar.settlesOn f s limit <-> convergesTo g (Calendar.cursor s) limit.
Proof.
  intros Hfg. unfold Calendar.settlesOn, convergesTo.
  split; intros [n Hn]; exists n; intros k Hk.
  - rewrite <- (calendar_cursor_iter f g Hfg). now apply Hn.
  - rewrite (calendar_cursor_iter f g Hfg). now apply Hn.
Qed.

Lemma calendar_step_valid (hallId : Z) (s : Calendar.State) e :
  validMonth (Calendar.cursor s) ->
  validMonth (Calendar.cursor (Calendar.step hallId s e)).
Proof.
  intros Hv. destruct e as [r|tza now|tza now]; simpl.
  - now rewrite calendar_cursor_fetch.
  - rewrite calendar_cursor_prev. now apply prevMonth_valid.
  - rewrite calendar_cursor_next. now apply nextMonth_valid.
Qed.

Lemma calendar_run_valid (hallId : Z) events : forall s : Calendar.State,
  validMonth (Calendar.cursor s) ->
  validMonth (Calendar.cursor (Calendar.run hallId s events)).
Proof.
  induction events as [|e events IH]; intros s Hv; [exact Hv|].
  simpl. apply IH. now apply calendar_step_valid.
Qed.

Lemma calendar_reachable_valid (hallId : Z) (s : Calendar.State) :
  Calendar.reachable hallId s -> validMonth (Calendar.cursor s).
Proof.
  intros (tza & now & events & ->). apply calendar_run_valid. apply today_valid.
Qed.

(** The visible month after a run is what the presses make of it. *)
Lemma calendar_cursor_run (hallId : Z) events : forall s : Calendar.State,
  Calendar.cursor (Calendar.run hallId s events)
  = fold_left (press Calendar.horizon) (Calendar.presses events) (Calendar.cursor s).
Proof.
  induction events as [|e events IH]; intros s; [reflexivity|].
  simpl. rewrite IH. destruct e as [r|tza now|tza now]; simpl.
  - now rewrite calendar_cursor_fetch.
  - now rewrite calendar_cursor_prev.
  - now rewrite calendar_cursor_next.
Qed.

End CalendarFacts.

Module HallListFacts.
Import WindowPolicy WindowFacts.

Lemma halllist_cursor_prev tza now (s : HallList.State) :
  HallList.cursor (HallList.handlePrevMonth tza now s)
  = prevMonth tza now (HallList.cursor s).
Proof.
  unfold HallList.handlePrevMonth, prevMonth, HallList.cursor.
  destruct ((HallList.currentMonth s =? JSDate.getMonth tza now)
            && (HallList.currentYear s =? JSDate.getFullYear tza now));
    [reflexivity|].
  now destruct (HallList.currentMonth s =? 0).
Qed.

Lemma halllist_cursor_next tza now (s : HallList.State) :
  HallList.cursor (HallList.handleNextMonth tza now s)
  = nextMonth HallList.horizon tza now (HallList.cursor s).
Proof.
  unfold HallList.handleNextMonth, nextMonth, HallList.cursor, HallList.horizon.
  destruct ((HallList.currentMonth s =? Z.rem (JSDate.getMonth tza now + 2) 12)
            && (HallList.currentYear s
                =? JSDate.getFullYear tza now
                   + (JSDate.getMonth tza now + 2) / 12));
    [reflexivity|].
  now destruct (HallList.currentMonth s =? 11).
Qed.

(** Navigation leaves the fetched records alone. *)
Lemma halllist_data_prev tza now (s : HallList.State) :
  HallList.availabilityData (HallList.handlePrevMonth tza now s)
  = HallList.availabilityData s.
Proof.
  unfold HallList.handlePrevMonth.
  destruct (_ && _); [reflexivity|]. now destruct (_ =? 0).
Qed.

Lemma halllist_data_next tza now (s : HallList.State) :
  HallList.availabilityData (HallList.handleNextMonth tza now s)
  = HallList.availabilityData s.
Proof.
  unfold HallList.handleNextMonth.
  destruct (_ && _); [reflexivity|]. now destruct (_ =? 11).
Qed.

(** A fetch leaves the visible month alone. *)
Lemma halllist_cursor_fetch r (s : HallList.State) :
  HallList.cursor (fst (HallList.fetchAvailability r s)) = HallList.cursor s.
Proof.
  unfold HallList.fetchAvailability. destruct r as [result|error];
    [|reflexivity].
  now destruct (API.statusCode result =? 200).
Qed.

Lemma halllist_cursor_iter (f : HallList.State -> HallList.State) (g : Cursor -> Cursor) :
  (forall s, HallList.cursor (f s) = g (HallList.cursor s)) ->
  forall k s, HallList.cursor (Nat.iter k f s) = Nat.iter k g (HallList.cursor s).
Proof.
  intros Hfg. induction k as [|k IH]; intros s; [reflexivity|].
  now rewrite !Nat.iter_succ, Hfg, IH.
Qed.

Lemma halllist_settlesOn_iff (f : HallList.State -> HallList.State) (g : Cursor -> Cursor) s limit :
  (forall s, HallList.cursor (f s) = g (HallList.cursor s)) ->
  HallList.settlesOn f s limit <-> convergesTo g (HallList.cursor s) limit.
Proof.
  intros Hfg. unfold HallList.settlesOn, convergesTo.
  split; intros [n Hn]; exists n; intros k Hk.
  - rewrite <- (halllist_cursor_iter f g Hfg). now apply Hn.
  - rewrite (halllist_cursor_iter f g Hfg). now apply Hn.
Qed.

Lemma halllist_step_valid (s : HallList.State) e :
  validMonth (HallList.cursor s) ->
  validMonth (HallList.cursor (HallList.step s e)).
Proof.
  intros Hv. destruct e as [r|tza now|tza now]; simpl.
  - now rewrite halllist_cursor_fetch.
  - rewrite halllist_cursor_prev. now apply prevMonth_valid.
  - rewrite halllist_cursor_next. now apply nextMonth_valid.
Qed.

Lemma halllist_run_valid events : forall s : HallList.State,
  validMonth (HallList.cursor s) ->
  validMonth (HallList.cursor (HallList.run s events)).
Proof.
  induction events as [|e events IH]; intros s Hv; [exact Hv|].
  simpl. apply IH. now apply halllist_step_valid.
Qed.

Lemma halllist_reachable_valid (s : HallList.State) :
  HallList.reachable s -> validMonth (HallList.cursor s).
Proof.
  intros (tza & now & events & ->). apply halllist_run_valid. apply today_valid.
Qed.

(** The visible month after a run is what the presses make of it. *)
Lemma halllist_cursor_run events : forall s : HallList.State,
  HallList.cursor (HallList.run s events)
  = fold_left (press HallList.horizon) (HallList.presses events) (HallList.cursor s).
Proof.
  induction events as [|e events IH]; intros s; [reflexivity|].
  simpl. rewrite IH. destruct e as [r|tza now|tza now]; simpl.
  - now rewrite halllist_cursor_fetch.
  - now rewrite halllist_cursor_prev.
  - now rewrite halllist_cursor_next.
Qed.

End HallListFacts.

(** ** Facts about the fetched records *)

Module AvailabilityFacts.

Section FindNormalized.

Variable norm : API.Item -> AvailabilityData.
Hypothesis norm_date : forall item, date (norm item) = beforeT (API.date item).

(** The record found for a day is the normalized first payload record for
    the hall and the day. *)
Lemma find_normalized (hallId : Z) (day : string) (data : list API.Item) :
  List.find (fun d => String.eqb (date d) day)
    (List.map norm
       (List.filter (fun item => API.hall_id (API.hall item) =? hallId) data))
  = option_map norm (List.find (isFor hallId day) data).
Proof.
  induction data as [|item data IH]; [reflexivity|].
  simpl. unfold isFor at 1.
  destruct (API.hall_id (API.hall item) =? hallId); simpl; [|exact IH].
  rewrite norm_date.
  destruct (String.eqb (beforeT (API.date item)) day); [reflexivity | exact IH].
Qed.

End FindNormalized.

Lemma orAvailable_falsy r : falsy r -> orAvailable r = "Available".
Proof. intros [-> | ->]; reflexivity. Qed.

Lemma orAvailable_nonempty r : orAvailable r <> "".
Proof. destruct r as [[|c r]|]; discriminate. Qed.

Lemma calendar_findDay_refreshed hallId result s day :
  API.statusCode result = 200 ->
  Calendar.findDay (fst (Calendar.fetchAvailability hallId (Resolved result) s))
                   day
  = option_map Calendar.normalize
      (List.find (isFor hallId day) (API.data result)).
Proof.
  intros H200. unfold Calendar.fetchAvailability, Calendar.findDay.
  rewrite H200. simpl. now apply find_normalized.
Qed.

Lemma groupItem_lookup (m : gmap Z (list AvailabilityData)) item h :
  HallList.groupItem m item !! h
  = if API.hall_id (API.hall item) =? h
    then Some (default [] (m !! h) ++ [HallList.normalize item])
    else m !! h.
Proof.
  unfold HallList.groupItem.
  destruct (API.hall_id (API.hall item) =? h) eqn:E.
  - apply Z.eqb_eq in E. rewrite E.
    destruct (m !! h) as [l|] eqn:El.
    + rewrite El. now rewrite lookup_insert_eq.
    + rewrite lookup_insert_eq. now rewrite lookup_insert_eq.
  - apply Z.eqb_neq in E.
    destruct (m !! API.hall_id (API.hall item)) as [l|] eqn:El.
    + rewrite El. now rewrite lookup_insert_ne.
    + rewrite lookup_insert_eq. now rewrite !lookup_insert_ne.
Qed.

(** After the [forEach], a hall's array holds its normalized records in
    payload order, after whatever it held before. *)
Lemma grouped_lookup (data : list API.Item) :
  forall (m : gmap Z (list AvailabilityData)) h,
    fold_left HallList.groupItem data m !! h
    = match List.filter (fun item => API.hall_id (API.hall item) =? h) data with
      | [] => m !! h
      | items =>
          Some (default [] (m !! h) ++ List.map HallList.normalize items)
      end.
Proof.
  induction data as [|item data IH]; intros m h; [reflexivity|].
  simpl. rewrite IH, groupItem_lookup.
  destruct (API.hall_id (API.hall item) =? h); [|reflexivity].
  simpl.
  destruct (List.filter _ data) as [|item' items]; simpl.
  - reflexivity.
  - now rewrite <- app_assoc.
Qed.

Lemma halllist_findDay_refreshed result s hallId day :
  API.statusCode result = 200 ->
  HallList.findDay (fst (HallList.fetchAvailability (Resolved result) s))
                   hallId day
  = option_map HallList.normalize
      (List.find (isFor hallId day) (API.data result)).
Proof.
  intros H200. unfold HallList.fetchAvailability, HallList.findDay.
  rewrite H200. simpl. rewrite grouped_lookup, lookup_empty.
  rewrite <- (find_normalized HallList.normalize) by reflexivity.
  now destruct (List.filter _ (API.data result)).
Qed.

(** A failed fetch changes nothing and writes one line to the console. *)
Lemma calendar_fetch_failed hallId r s :
  failed r ->
  Calendar.fetchAvailability hallId r s
  = (s, match r with
        | Resolved _ => ["Failed to fetch availability data"]
        | Rejected error => ["Error fetching availability: " +:+ error]
        end).
Proof.
  destruct r as [result|error]; simpl; [|reflexivity].
  intros Hne. apply Z.eqb_neq in Hne. now rewrite Hne.
Qed.

Lemma halllist_fetch_failed r s :
  failed r ->
  HallList.fetchAvailability r s
  = (s, match r with
        | Resolved _ => ["Failed to fetch availability data"]
        | Rejected error => ["Error fetching availability: " +:+ error]
        end).
Proof.
  destruct r as [result|error]; simpl; [|reflexivity].
  intros Hne. apply Z.eqb_neq in Hne. now rewrite Hne.
Qed.

End AvailabilityFacts.

(** ** The day list of a month *)

Module DayListFacts.

Lemma calendar_daysLoop fuel tza now endDate :
  forall date days,
    Calendar.daysLoop fuel tza now date endDate days
    = WindowPolicy.daysLoop fuel tza now date endDate days.
Proof.
  induction fuel as [|fuel IH]; intros date days; [reflexivity|].
  simpl. destruct (date <=? endDate); [apply IH | reflexivity].
Qed.

Lemma halllist_daysLoop fuel tza now endDate :
  forall date days,
    HallList.daysLoop fuel tza now date endDate days
    = WindowPolicy.daysLoop fuel tza now date endDate days.
Proof.
  induction fuel as [|fuel IH]; intros date days; [reflexivity|].
  simpl. destruct (date <=? endDate); [apply IH | reflexivity].
Qed.

(** The loop visits [n] instants a day apart and keeps those not before
    [now]. *)
Lemma daysLoop_spec tza now endDate :
  forall (n fuel : nat) date days,
    (n < fuel)%nat ->
    endDate = date + (Z.of_nat n - 1) * JSDate.msPerDay ->
    WindowPolicy.daysLoop fuel tza now date endDate days
    = Some (days ++ List.map WindowPolicy.isoDate
                      (List.filter (fun t => t >=? now)
                                   (WindowPolicy.dailyFrom date n))).
Proof.
  induction n as [|n IH]; intros fuel date days Hfuel Hend;
    (destruct fuel as [|fuel]; [lia|]); simpl.
  - assert (E : (date <=? endDate) = false)
      by (apply Z.leb_gt; unfold JSDate.msPerDay in *; lia).
    rewrite E. now rewrite app_nil_r.
  - assert (E : (date <=? endDate) = true)
      by (apply Z.leb_le; unfold JSDate.msPerDay in *; lia).
    rewrite E, DateFacts.setDate_next.
    rewrite (IH fuel); [|lia|lia].
    destruct (date >=? now); simpl; [|reflexivity].
    now rewrite <- app_assoc.
Qed.

(** [getDaysInMonth] always returns: the ISO dates of the local midnights of
    the month that are not before [now]. *)
Lemma daysInMonth_spec tza now month year :
  WindowPolicy.daysInMonth tza now month year
  = Some (List.map WindowPolicy.isoDate
            (List.filter (fun t => t >=? now)
                         (WindowPolicy.monthMidnights tza month year))).
Proof.
  unfold WindowPolicy.daysInMonth, WindowPolicy.monthMidnights.
  destruct (DateFacts.month_span tza year month) as (n & Hn & Hspan).
  rewrite Hspan.
  replace ((JSDate.fromYMD tza year month 1 + n * JSDate.msPerDay
            - JSDate.fromYMD tza year month 1) / JSDate.msPerDay + 1)
    with (n + 1).
  2:{ replace (JSDate.fromYMD tza year month 1 + n * JSDate.msPerDay
               - JSDate.fromYMD tza year month 1)
        with (n * JSDate.msPerDay) by lia.
      rewrite Z.div_mul; [reflexivity | discriminate]. }
  rewrite (daysLoop_spec tza now _ (Z.to_nat (n + 1))); [reflexivity|lia|lia].
Qed.

(** Every day offered for a month is the ISO date of a local midnight that
    is not before [now]. *)
Lemma daysInMonth_not_before_now tza now month year days :
  WindowPolicy.daysInMonth tza now month year = Some days ->
  forall d, In d days ->
    exists t, d = WindowPolicy.isoDate t /\ now <= t
              /\ In t (WindowPolicy.monthMidnights tza month year).
Proof.
  intros Hdays d Hd.
  pose proof (daysInMonth_spec tza now month year) as Hspec.
  assert (E : days = List.map WindowPolicy.isoDate
                       (List.filter (fun t => t >=? now)
                          (WindowPolicy.monthMidnights tza month year)))
    by congruence.
  rewrite E in Hd. clear E Hspec Hdays.
  apply in_map_iff in Hd as (t & <- & Ht).
  apply filter_In in Ht as [Hin Hge].
  exists t. split; [reflexivity | split; [lia | exact Hin]].
Qed.

Lemma calendar_getDaysInMonth tza now month year :
  Calendar.getDaysInMonth tza now month year
  = WindowPolicy.daysInMonth tza now month year.
Proof. apply calendar_daysLoop. Qed.

Lemma halllist_getDaysInMonth tza now month year :
  HallList.getDaysInMonth tza now month year
  = WindowPolicy.daysInMonth tza now month year.
Proof. apply halllist_daysLoop. Qed.

End DayListFacts.

(** ** Which days can be selected *)

Module SelectionFacts.

Lemma calendar_click_onClick hallId s day :
  Calendar.click hallId s day = Calendar.onClick hallId s day.
Proof.
  unfold Calendar.click, Calendar.onClick, Calendar.dayView. simpl.
  now destruct (Calendar.booked _), (Calendar.onHold _).
Qed.

Lemma halllist_click_onClick s hallId day :
  HallList.click s hallId day = HallList.onClick s hallId day.
Proof.
  unfold HallList.click, HallList.onClick, HallList.dayView. simpl.
  now destruct (HallList.booked _).
Qed.

(** On the single-hall surface a day is selectable exactly when its class
    is the green one. *)
Lemma calendar_click_status hallId s day :
  Calendar.click hallId s day
  = match Calendar.statusOf (Calendar.findDay s day) with
    | Available => Some (hallId, day)
    | _ => None
    end.
Proof.
  rewrite calendar_click_onClick.
  unfold Calendar.onClick, Calendar.statusOf.
  now destruct (Calendar.booked _), (Calendar.onHold _).
Qed.

Lemma halllist_click_status s hallId day :
  HallList.click s hallId day
  = match HallList.statusOf (HallList.findDay s hallId day) with
    | Booked => None
    | _ => Some (hallId, day)
    end.
Proof.
  rewrite halllist_click_onClick.
  unfold HallList.onClick, HallList.statusOf.
  now destruct (HallList.booked _).
Qed.

(** Lists that agree record by record find agreeing records for a day. *)
Lemma find_related (R : AvailabilityData -> AvailabilityData -> Prop) day :
  (forall a b, R a b -> date a = date b) ->
  forall l1 l2, Forall2 R l1 l2 ->
    option_Forall2 R
      (List.find (fun d => String.eqb (date d) day) l1)
      (List.find (fun d => String.eqb (date d) day) l2).
Proof.
  intros HR l1 l2 H. induction H as [|a b l1 l2 Hab _ IH]; simpl.
  - constructor.
  - rewrite <- (HR a b Hab).
    destruct (String.eqb (date a) day); [now constructor | exact IH].
Qed.

Lemma calendar_status_related o1 o2 :
  option_Forall2 sameStatus o1 o2 ->
  Calendar.booked o1 = Calendar.booked o2
  /\ Calendar.onHold o1 = Calendar.onHold o2.
Proof. intros [a b [[_ Hb] Hh]|]; simpl; auto. Qed.

Lemma halllist_status_related o1 o2 :
  option_Forall2 sameButReason o1 o2 ->
  HallList.booked o1 = HallList.booked o2.
Proof. intros [a b [_ Hb]|]; simpl; auto. Qed.

End SelectionFacts.

(** ** The properties of the specification *)

(** C2, as the code has it: [onDateSelect] is never called for a day whose
    record is booked, on either surface; on the single-hall surface it is
    not called either when the record's reason is the text "On hold". The
    button is disabled in these cases. *)
Theorem unavailable_day_not_selected :
  (forall hallId s day a,
      Calendar.findDay s day = Some a ->
      isBooked a = true \/ reason a = "On hold" ->
      disabled (Calendar.dayView s day) = true
      /\ Calendar.onClick hallId s day = None
      /\ Calendar.click hallId s day = None)
  /\ (forall s hallId day a,
      HallList.findDay s hallId day = Some a ->
      isBooked a = true ->
      disabled (HallList.dayView s hallId day) = true
      /\ HallList.onClick s hallId day = None
      /\ HallList.click s hallId day = None).
Proof.
  split.
  - intros hallId s day a Hfind Hor.
    rewrite SelectionFacts.calendar_click_onClick.
    unfold Calendar.onClick, Calendar.dayView. simpl. rewrite Hfind. simpl.
    destruct Hor as [Hb | Hr].
    + rewrite Hb. auto.
    + rewrite Hr. simpl. rewrite orb_true_r, andb_false_r. auto.
  - intros s hallId day a Hfind Hb.
    rewrite SelectionFacts.halllist_click_onClick.
    unfold HallList.onClick, HallList.dayView. simpl. rewrite Hfind. simpl.
    rewrite Hb. auto.
Qed.

Lemma unavailable_day_not_selected_witness :
  let held := fst (Calendar.fetchAvailability 1
                     (Sample.ok [Sample.record (Some "On hold") false])
                     (Calendar.init 0 Sample.jan15)) in
  let taken := fst (HallList.fetchAvailability
                      (Sample.ok [Sample.record (Some "Wedding") true])
                      (HallList.init 0 Sample.jan15)) in
  Calendar.click 1 held "2025-06-10" = None
  /\ HallList.click taken 1 "2025-06-10" = None.
Proof.
  split.
  - apply (proj1 unavailable_day_not_selected 1 _ "2025-06-10"
             {| date := "2025-06-10"; reason := "On hold"; isBooked := false |}).
    + reflexivity.
    + right. reflexivity.
  - apply (proj2 unavailable_day_not_selected _ 1 "2025-06-10"
             {| date := "2025-06-10"; reason := "Wedding"; isBooked := true |}).
    + reflexivity.
    + reflexivity.
Defined.

(** C2 as stated fails: a record with a reason and [is_booked] false, here
    the reason "Wedding", does not stop the single-hall surface from calling
    [onDateSelect]. *)
Lemma reason_present_is_selected :
  let s := fst (Calendar.fetchAvailability 1
                  (Sample.ok [Sample.record (Some "Wedding") false])
                  (Calendar.init 0 Sample.jan15)) in
  Calendar.findDay s "2025-06-10"
    = Some {| date := "2025-06-10"; reason := "Wedding"; isBooked := false |}
  /\ disabled (Calendar.dayView s "2025-06-10") = false
  /\ Calendar.click 1 s "2025-06-10" = Some (1, "2025-06-10").
Proof. repeat split. Qed.

(** The multi-hall surface has no test for a held day: a record that the
    single-hall surface refuses is selected there. *)
Lemma halllist_selects_held_day :
  let r := Sample.ok [Sample.record (Some "On hold") false] in
  let c := fst (Calendar.fetchAvailability 1 r (Calendar.init 0 Sample.jan15)) in
  let h := fst (HallList.fetchAvailability r (HallList.init 0 Sample.jan15)) in
  Calendar.click 1 c "2025-06-10" = None
  /\ HallList.click h 1 "2025-06-10" = Some (1, "2025-06-10").
Proof. split; reflexivity. Qed.

(** C5, as the code has it: a failed fetch (an exception, or a status other
    than 200) leaves the state of the component exactly as it was and writes
    a line to the console; nothing else records the failure. Every day is
    then shown as before the fetch, and from the initial state, which holds
    no records, every day is shown as available and can be selected. *)
Theorem failed_fetch_keeps_state :
  (forall hallId r s,
      failed r ->
      fst (Calendar.fetchAvailability hallId r s) = s
      /\ snd (Calendar.fetchAvailability hallId r s) <> [])
  /\ (forall r s,
      failed r ->
      fst (HallList.fetchAvailability r s) = s
      /\ snd (HallList.fetchAvailability r s) <> [])
  /\ (forall tza now hallId r day,
      failed r ->
      let c := fst (Calendar.fetchAvailability hallId r (Calendar.init tza now)) in
      let h := fst (HallList.fetchAvailability r (HallList.init tza now)) in
      Calendar.statusOf (Calendar.findDay c day) = Available
      /\ Calendar.click hallId c day = Some (hallId, day)
      /\ HallList.statusOf (HallList.findDay h hallId day) = Available
      /\ HallList.click h hallId day = Some (hallId, day)).
Proof.
  split; [|split].
  - intros hallId r s Hf.
    rewrite AvailabilityFacts.calendar_fetch_failed by assumption.
    split; [reflexivity|]. now destruct r.
  - intros r s Hf.
    rewrite AvailabilityFacts.halllist_fetch_failed by assumption.
    split; [reflexivity|]. now destruct r.
  - intros tza now hallId r day Hf. simpl.
    rewrite AvailabilityFacts.calendar_fetch_failed by assumption.
    rewrite AvailabilityFacts.halllist_fetch_failed by assumption.
    repeat split.
Qed.

Lemma failed_fetch_keeps_state_witness :
  let s := fst (Calendar.fetchAvailability 1
                  (Sample.ok [Sample.record (Some "Wedding") true])
                  (Calendar.init 0 Sample.jan15)) in
  fst (Calendar.fetchAvailability 1 (Rejected "Failed to fetch") s) = s
  /\ fst (HallList.fetchAvailability (Sample.serverError [])
            (HallList.init 0 Sample.jan15))
     = HallList.init 0 Sample.jan15
  /\ Calendar.click 1
       (fst (Calendar.fetchAvailability 1 (Sample.serverError [])
               (Calendar.init 0 Sample.jan15))) "2025-06-10"
     = Some (1, "2025-06-10").
Proof.
  split; [|split].
  - apply (proj1 failed_fetch_keeps_state 1 (Rejected "Failed to fetch")).
    exact I.
  - apply (proj1 (proj2 failed_fetch_keeps_state) (Sample.serverError [])).
    simpl. lia.
  - apply (proj2 (proj2 failed_fetch_keeps_state) 0 Sample.jan15 1
             (Sample.serverError []) "2025-06-10").
    simpl. lia.
Defined.

(** C5 as stated fails: the first fetch fails with status 500, its body
    carrying a booked record for the day; the day is shown exactly as after
    a successful fetch of no records at all, available and selectable. *)
Lemma failed_fetch_shows_available :
  let r := Sample.serverError [Sample.record (Some "Wedding") true] in
  let c := fst (Calendar.fetchAvailability 1 r (Calendar.init 0 Sample.jan15)) in
  let c0 := fst (Calendar.fetchAvailability 1 (Sample.ok [])
                   (Calendar.init 0 Sample.jan15)) in
  let h := fst (HallList.fetchAvailability r (HallList.init 0 Sample.jan15)) in
  failed r
  /\ Calendar.statusOf (Calendar.findDay c "2025-06-10") = Available
  /\ Calendar.click 1 c "2025-06-10" = Some (1, "2025-06-10")
  /\ Calendar.dayView c "2025-06-10" = Calendar.dayView c0 "2025-06-10"
  /\ HallList.statusOf (HallList.findDay h 1 "2025-06-10") = Available
  /\ HallList.click h 1 "2025-06-10" = Some (1, "2025-06-10").
Proof. simpl. repeat split. lia. Qed.

(** C6: after a refresh, a day for which the payload has no record of the
    hall has no record in the state of either surface; its status is
    Available, its button has the green class and is not disabled, and a
    click calls [onDateSelect] with the hall and the day. *)
Theorem absent_record_is_available result hallId day :
  API.statusCode result = 200 ->
  List.find (isFor hallId day) (API.data result) = None ->
  (forall s,
      let s' := fst (Calendar.fetchAvailability hallId (Resolved result) s) in
      Calendar.findDay s' day = None
      /\ Calendar.statusOf (Calendar.findDay s' day) = Available
      /\ Calendar.dayView s' day
         = {| className := "p-2 rounded-lg w-full bg-green-100 hover:bg-green-200";
              disabled := false; label := None |}
      /\ Calendar.click hallId s' day = Some (hallId, day))
  /\ (forall s,
      let s' := fst (HallList.fetchAvailability (Resolved result) s) in
      HallList.findDay s' hallId day = None
      /\ HallList.statusOf (HallList.findDay s' hallId day) = Available
      /\ HallList.dayView s' hallId day
         = {| className := "p-3 rounded-lg w-full bg-green-100 hover:bg-green-200";
              disabled := false; label := None |}
      /\ HallList.click s' hallId day = Some (hallId, day)).
Proof.
  intros H200 Hnone. split; intros s s'.
  - assert (Hf : Calendar.findDay s' day = None).
    { unfold s'. rewrite AvailabilityFacts.calendar_findDay_refreshed
        by assumption. now rewrite Hnone. }
    rewrite SelectionFacts.calendar_click_status.
    unfold Calendar.dayView. rewrite Hf. repeat split.
  - assert (Hf : HallList.findDay s' hallId day = None).
    { unfold s'. rewrite AvailabilityFacts.halllist_findDay_refreshed
        by assumption. now rewrite Hnone. }
    rewrite SelectionFacts.halllist_click_status.
    unfold HallList.dayView. rewrite Hf. repeat split.
Qed.

Lemma absent_record_is_available_witness :
  let r := {| API.statusCode := 200; API.message := "OK";
              API.data := [Sample.record (Some "Wedding") true] |} in
  Calendar.click 1
    (fst (Calendar.fetchAvailability 1 (Resolved r) (Calendar.init 0 Sample.jan15)))
    "2025-06-11" = Some (1, "2025-06-11")
  /\ HallList.click
       (fst (HallList.fetchAvailability (Resolved r) (HallList.init 0 Sample.jan15)))
       2 "2025-06-10" = Some (2, "2025-06-10").
Proof.
  split.
  - apply (proj1 (absent_record_is_available
                    {| API.statusCode := 200; API.message := "OK";
                       API.data := [Sample.record (Some "Wedding") true] |}
                    1 "2025-06-11" eq_refl eq_refl)).
  - apply (proj2 (absent_record_is_available
                    {| API.statusCode := 200; API.message := "OK";
                       API.data := [Sample.record (Some "Wedding") true] |}
                    2 "2025-06-10" eq_refl eq_refl)).
Defined.

(** C8, as the code has it: on the single-hall surface the reason text
    takes part in the selection of a day through one test only, whether it
    is exactly the text "On hold". Two states whose records agree one by
    one in day and booked flag and are both "On hold" or both not give
    every day the same status, the same class, the same [disabled]
    attribute and the same outcome of a click; and the test does decide:
    for the records that two states find for a day, with the same booked
    flag, a click has the same outcome exactly when the records are booked
    or agree in that test. On the multi-hall surface the reason plays no
    part: records that agree in day and booked flag give the same status,
    class, attribute and outcome whatever their reasons. *)
Theorem reason_decides_by_on_hold_test_only :
  (forall hallId s1 s2 day,
      Forall2 sameStatus (Calendar.availabilityData s1)
                         (Calendar.availabilityData s2) ->
      Calendar.statusOf (Calendar.findDay s1 day)
        = Calendar.statusOf (Calendar.findDay s2 day)
      /\ className (Calendar.dayView s1 day) = className (Calendar.dayView s2 day)
      /\ disabled (Calendar.dayView s1 day) = disabled (Calendar.dayView s2 day)
      /\ Calendar.click hallId s1 day = Calendar.click hallId s2 day)
  /\ (forall hallId s1 s2 day a1 a2,
      Calendar.findDay s1 day = Some a1 ->
      Calendar.findDay s2 day = Some a2 ->
      isBooked a1 = isBooked a2 ->
      (Calendar.click hallId s1 day = Calendar.click hallId s2 day
       <-> isBooked a1 = true
           \/ String.eqb (reason a1) "On hold"
              = String.eqb (reason a2) "On hold"))
  /\ (forall s1 s2 hallId day,
      option_Forall2 (Forall2 sameButReason)
        (HallList.availabilityData s1 !! hallId)
        (HallList.availabilityData s2 !! hallId) ->
      HallList.statusOf (HallList.findDay s1 hallId day)
        = HallList.statusOf (HallList.findDay s2 hallId day)
      /\ className (HallList.dayView s1 hallId day)
         = className (HallList.dayView s2 hallId day)
      /\ disabled (HallList.dayView s1 hallId day)
         = disabled (HallList.dayView s2 hallId day)
      /\ HallList.click s1 hallId day = HallList.click s2 hallId day).
Proof.
  split; [|split].
  - intros hallId s1 s2 day Hrel.
    assert (Hfind : option_Forall2 sameStatus (Calendar.findDay s1 day)
                                              (Calendar.findDay s2 day)).
    { apply SelectionFacts.find_related; [|exact Hrel].
      intros a b [[Hd _] _]. exact Hd. }
    apply SelectionFacts.calendar_status_related in Hfind as [Hb Hh].
    rewrite !SelectionFacts.calendar_click_status.
    unfold Calendar.dayView, Calendar.statusOf. simpl.
    rewrite Hb, Hh. repeat split.
  - intros hallId s1 s2 day a1 a2 Hf1 Hf2 Hb.
    rewrite !SelectionFacts.calendar_click_onClick.
    unfold Calendar.onClick. rewrite Hf1, Hf2.
    unfold Calendar.booked, Calendar.onHold. rewrite Hb.
    destruct (isBooked a2), (String.eqb (reason a1) "On hold"),
      (String.eqb (reason a2) "On hold"); simpl;
      split; intros H; try reflexivity; try discriminate;
      try (left; reflexivity); try (right; reflexivity);
      destruct H as [H | H]; discriminate.
  - intros s1 s2 hallId day Hrel.
    assert (Hfind : option_Forall2 sameButReason
                      (HallList.findDay s1 hallId day)
                      (HallList.findDay s2 hallId day)).
    { unfold HallList.findDay.
      destruct Hrel as [l1 l2 Hl|]; [|constructor].
      apply SelectionFacts.find_related; [|exact Hl].
      intros a b [Hd _]. exact Hd. }
    apply SelectionFacts.halllist_status_related in Hfind as Hb.
    rewrite !SelectionFacts.halllist_click_status.
    unfold HallList.dayView, HallList.statusOf. simpl.
    rewrite Hb. repeat split.
Qed.

Lemma reason_decides_by_on_hold_test_only_witness :
  let c1 := fst (Calendar.fetchAvailability 1
                   (Sample.ok [Sample.record (Some "Wedding") true])
                   (Calendar.init 0 Sample.jan15)) in
  let c2 := fst (Calendar.fetchAvailability 1
                   (Sample.ok [Sample.record (Some "Reception") true])
                   (Calendar.init 0 Sample.jan15)) in
  let c3 := fst (Calendar.fetchAvailability 1
                   (Sample.ok [Sample.record (Some "Wedding") false])
                   (Calendar.init 0 Sample.jan15)) in
  let c4 := fst (Calendar.fetchAvailability 1
                   (Sample.ok [Sample.record None false])
                   (Calendar.init 0 Sample.jan15)) in
  let h1 := fst (HallList.fetchAvailability
                   (Sample.ok [Sample.record (Some "On hold") false])
                   (HallList.init 0 Sample.jan15)) in
  let h2 := fst (HallList.fetchAvailability
                   (Sample.ok [Sample.record None false])
                   (HallList.init 0 Sample.jan15)) in
  Calendar.click 1 c1 "2025-06-10" = Calendar.click 1 c2 "2025-06-10"
  /\ Calendar.click 1 c3 "2025-06-10" = Calendar.click 1 c4 "2025-06-10"
  /\ HallList.click h1 1 "2025-06-10" = HallList.click h2 1 "2025-06-10".
Proof.
  split; [|split].
  - apply (proj1 reason_decides_by_on_hold_test_only 1 _ _ "2025-06-10").
    simpl. repeat constructor.
  - apply (proj1 (proj2 reason_decides_by_on_hold_test_only) 1 _ _ "2025-06-10"
             {| date := "2025-06-10"; reason := "Wedding"; isBooked := false |}
             {| date := "2025-06-10"; reason := "Available";
                isBooked := false |}).
    + reflexivity.
    + reflexivity.
    + reflexivity.
    + right. reflexivity.
  - apply (proj2 (proj2 reason_decides_by_on_hold_test_only) _ _ 1 "2025-06-10").
    vm_compute. repeat constructor.
Defined.

(** C8 as stated fails on the single-hall surface: two records that differ
    in the reason text only, both with a reason and [is_booked] false and so
    both on hold in the words of the specification, are not equally
    selectable: the day with the text "On hold" is disabled and a click
    selects nothing, the day with the text "Wedding" is selected. *)
Lemma on_hold_text_decides_selection :
  let held := Sample.record (Some "On hold") false in
  let wedding := Sample.record (Some "Wedding") false in
  let c1 := fst (Calendar.fetchAvailability 1 (Sample.ok [held])
                   (Calendar.init 0 Sample.jan15)) in
  let c2 := fst (Calendar.fetchAvailability 1 (Sample.ok [wedding])
                   (Calendar.init 0 Sample.jan15)) in
  API.date held = API.date wedding
  /\ API.hall held = API.hall wedding
  /\ API.is_booked held = API.is_booked wedding
  /\ statusBySpec held = OnHold
  /\ statusBySpec wedding = OnHold
  /\ disabled (Calendar.dayView c1 "2025-06-10") = true
  /\ Calendar.click 1 c1 "2025-06-10" = None
  /\ disabled (Calendar.dayView c2 "2025-06-10") = false
  /\ Calendar.click 1 c2 "2025-06-10" = Some (1, "2025-06-10").
Proof. repeat split. Qed.

(** C10: the normalization turns a missing or empty reason into the text
    "Available" and keeps the booked flag as it is. A fetched record with
    [is_booked] true and such a reason is shown with the label "Available"
    (in the colour of that label) while its button is disabled and a click
    selects nothing. *)
Theorem empty_reason_labelled_available :
  (forall item,
      falsy (API.reason item) ->
      reason (Calendar.normalize item) = "Available"
      /\ isBooked (Calendar.normalize item) = API.is_booked item
      /\ reason (HallList.normalize item) = "Available"
      /\ isBooked (HallList.normalize item) = API.is_booked item)
  /\ (forall result hallId day item,
      API.statusCode result = 200 ->
      List.find (isFor hallId day) (API.data result) = Some item ->
      falsy (API.reason item) ->
      API.is_booked item = true ->
      (forall s,
          let s' := fst (Calendar.fetchAvailability hallId (Resolved result) s) in
          label (Calendar.dayView s' day) = Some ("text-green-600", "Available")
          /\ disabled (Calendar.dayView s' day) = true
          /\ Calendar.click hallId s' day = None)
      /\ (forall s,
          let s' := fst (HallList.fetchAvailability (Resolved result) s) in
          label (HallList.dayView s' hallId day)
            = Some ("text-green-600", "Available")
          /\ disabled (HallList.dayView s' hallId day) = true
          /\ HallList.click s' hallId day = None)).
Proof.
  split.
  - intros item Hf. unfold Calendar.normalize, HallList.normalize. simpl.
    rewrite (AvailabilityFacts.orAvailable_falsy _ Hf). repeat split.
  - intros result hallId day item H200 Hfind Hf Hb. split; intros s s'.
    + rewrite SelectionFacts.calendar_click_status.
      unfold Calendar.dayView, s'.
      rewrite AvailabilityFacts.calendar_findDay_refreshed by assumption.
      rewrite Hfind. simpl.
      rewrite (AvailabilityFacts.orAvailable_falsy _ Hf).
      unfold Calendar.statusOf. simpl. rewrite Hb. repeat split.
    + rewrite SelectionFacts.halllist_click_status.
      unfold HallList.dayView, s'.
      rewrite AvailabilityFacts.halllist_findDay_refreshed by assumption.
      rewrite Hfind. simpl.
      rewrite (AvailabilityFacts.orAvailable_falsy _ Hf).
      unfold HallList.statusOf. simpl. rewrite Hb. repeat split.
Qed.

Lemma empty_reason_labelled_available_witness :
  reason (Calendar.normalize (Sample.record None true)) = "Available"
  /\ (let s := fst (Calendar.fetchAvailability 1
                      (Sample.ok [Sample.record (Some "") true])
                      (Calendar.init 0 Sample.jan15)) in
      label (Calendar.dayView s "2025-06-10")
        = Some ("text-green-600", "Available")
      /\ disabled (Calendar.dayView s "2025-06-10") = true
      /\ Calendar.click 1 s "2025-06-10" = None).
Proof.
  split.
  - apply (proj1 empty_reason_labelled_available (Sample.record None true)).
    left. reflexivity.
  - apply (proj1 (proj2 empty_reason_labelled_available
                    {| API.statusCode := 200; API.message := "OK";
                       API.data := [Sample.record (Some "") true] |}
                    1 "2025-06-10" (Sample.record (Some "") true)
                    eq_refl eq_refl (or_intror eq_refl) eq_refl)).
Defined.

(** C7: the two surfaces run one window policy and differ in the horizon
    only. Their day lists are the policy's day list, their Previous buttons
    the policy's [prevMonth], and their Next buttons the policy's
    [nextMonth] at 36 and at 2 months; so on equal clock, month and year
    they compute the same day list and the same month before, and Next
    differs by the horizon alone. *)
Theorem surfaces_share_window_policy tza now :
  (forall month year,
      Calendar.getDaysInMonth tza now month year
        = WindowPolicy.daysInMonth tza now month year
      /\ HallList.getDaysInMonth tza now month year
         = WindowPolicy.daysInMonth tza now month year
      /\ Calendar.getDaysInMonth tza now month year
         = HallList.getDaysInMonth tza now month year)
  /\ (forall (c : Calendar.State) (h : HallList.State),
      Calendar.cursor (Calendar.handlePrevMonth tza now c)
        = WindowPolicy.prevMonth tza now (Calendar.cursor c)
      /\ HallList.cursor (HallList.handlePrevMonth tza now h)
         = WindowPolicy.prevMonth tza now (HallList.cursor h)
      /\ Calendar.cursor (Calendar.handleNextMonth tza now c)
         = WindowPolicy.nextMonth 36 tza now (Calendar.cursor c)
      /\ HallList.cursor (HallList.handleNextMonth tza now h)
         = WindowPolicy.nextMonth 2 tza now (HallList.cursor h))
  /\ Calendar.horizon = 36 /\ HallList.horizon = 2.
Proof.
  split; [|split; [|split; reflexivity]].
  - intros month year.
    pose proof (DayListFacts.calendar_getDaysInMonth tza now month year) as Hc.
    pose proof (DayListFacts.halllist_getDaysInMonth tza now month year) as Hh.
    split; [exact Hc | split; [exact Hh | congruence]].
  - intros c h.
    rewrite CalendarFacts.calendar_cursor_prev, HallListFacts.halllist_cursor_prev,
            CalendarFacts.calendar_cursor_next, HallListFacts.halllist_cursor_next.
    repeat split.
Qed.

(** C9: on both surfaces the month of every reachable state is in 0..11,
    and a press of Previous or Next leaves the visible month as it is or
    moves it by one month, the year changing at the wrap between December
    and January and only there. *)
Theorem cursor_month_in_range :
  (forall hallId s,
      Calendar.reachable hallId s ->
      0 <= Calendar.currentMonth s <= 11
      /\ forall tza now,
          WindowPolicy.stepBack (Calendar.cursor s)
            (Calendar.cursor (Calendar.handlePrevMonth tza now s))
          /\ WindowPolicy.stepForward (Calendar.cursor s)
               (Calendar.cursor (Calendar.handleNextMonth tza now s)))
  /\ (forall s,
      HallList.reachable s ->
      0 <= HallList.currentMonth s <= 11
      /\ forall tza now,
          WindowPolicy.stepBack (HallList.cursor s)
            (HallList.cursor (HallList.handlePrevMonth tza now s))
          /\ WindowPolicy.stepForward (HallList.cursor s)
               (HallList.cursor (HallList.handleNextMonth tza now s))).
Proof.
  split.
  - intros hallId s Hr.
    pose proof (CalendarFacts.calendar_reachable_valid hallId s Hr) as Hv.
    split; [exact Hv|]. intros tza now.
    rewrite CalendarFacts.calendar_cursor_prev, CalendarFacts.calendar_cursor_next.
    split; [now apply WindowFacts.prevMonth_stepBack
           | now apply WindowFacts.nextMonth_stepForward].
  - intros s Hr.
    pose proof (HallListFacts.halllist_reachable_valid s Hr) as Hv.
    split; [exact Hv|]. intros tza now.
    rewrite HallListFacts.halllist_cursor_prev, HallListFacts.halllist_cursor_next.
    split; [now apply WindowFacts.prevMonth_stepBack
           | now apply WindowFacts.nextMonth_stepForward].
Qed.

Lemma cursor_month_in_range_witness :
  let c := Calendar.run 1 (Calendar.init 0 Sample.jan15)
             [Calendar.NextPressed 0 Sample.jan15;
              Calendar.Fetched (Sample.ok []);
              Calendar.PrevPressed 0 Sample.feb15;
              Calendar.PrevPressed 0 Sample.feb15] in
  let h := HallList.run (HallList.init Sample.ist Sample.jan15)
             [HallList.NextPressed Sample.ist Sample.jan15;
              HallList.NextPressed Sample.ist Sample.jan15;
              HallList.NextPressed Sample.ist Sample.jan15] in
  0 <= Calendar.currentMonth c <= 11 /\ 0 <= HallList.currentMonth h <= 11.
Proof.
  split.
  - apply (proj1 cursor_month_in_range 1).
    exists 0, Sample.jan15. eexists. reflexivity.
  - apply (proj2 cursor_month_in_range).
    exists Sample.ist, Sample.jan15. eexists. reflexivity.
Defined.

(** C4, as the code has it: the boundaries are computed from the clock at
    every press and compared with the visible month for equality. On a
    clock that does not go back, from every state a surface can be in,
    presses of Next reach the month of the horizon's end of the day of the
    press and stay there, also when today has advanced since mounting;
    presses of Previous reach today's month and stay there when the visible
    month is not before it, which is so as long as today's month is the
    month of mounting. *)
Theorem navigation_saturates tza mounted now :
  (forall hallId events,
      WindowPolicy.inOrder tza mounted now (Calendar.presses events) ->
      let s := Calendar.run hallId (Calendar.init tza mounted) events in
      Calendar.settlesOn (Calendar.handleNextMonth tza now) s
        (WindowPolicy.horizonEnd 36 tza now)
      /\ (WindowPolicy.monthIndex (WindowPolicy.today tza now)
            <= WindowPolicy.monthIndex (Calendar.cursor s) ->
          Calendar.settlesOn (Calendar.handlePrevMonth tza now) s
            (WindowPolicy.today tza now))
      /\ (WindowPolicy.today tza mounted = WindowPolicy.today tza now ->
          WindowPolicy.monthIndex (WindowPolicy.today tza now)
            <= WindowPolicy.monthIndex (Calendar.cursor s)))
  /\ (forall events,
      WindowPolicy.inOrder tza mounted now (HallList.presses events) ->
      let s := HallList.run (HallList.init tza mounted) events in
      HallList.settlesOn (HallList.handleNextMonth tza now) s
        (WindowPolicy.horizonEnd 2 tza now)
      /\ (WindowPolicy.monthIndex (WindowPolicy.today tza now)
            <= WindowPolicy.monthIndex (HallList.cursor s) ->
          HallList.settlesOn (HallList.handlePrevMonth tza now) s
            (WindowPolicy.today tza now))
      /\ (WindowPolicy.today tza mounted = WindowPolicy.today tza now ->
          WindowPolicy.monthIndex (WindowPolicy.today tza now)
            <= WindowPolicy.monthIndex (HallList.cursor s))).
Proof.
  split.
  - intros hallId events Hord s.
    assert (Hs : Calendar.cursor s
                 = fold_left (WindowPolicy.press 36) (Calendar.presses events)
                             (WindowPolicy.today tza mounted))
      by apply CalendarFacts.calendar_cursor_run.
    destruct (WindowFacts.presses_below_horizon 36 tza ltac:(discriminate)
                (Calendar.presses events) mounted now
                (WindowPolicy.today tza mounted) Hord
                (WindowFacts.today_valid tza mounted) ltac:(lia))
      as [Hv Hup].
    rewrite <- Hs in Hv, Hup.
    split; [|split].
    + apply (CalendarFacts.calendar_settlesOn_iff _ _ _ _
               (CalendarFacts.calendar_cursor_next tza now)).
      apply WindowFacts.nextMonth_converges; [discriminate | exact Hv |].
      rewrite WindowFacts.monthIndex_horizonEnd; [exact Hup | discriminate].
    + intros Hlow.
      apply (CalendarFacts.calendar_settlesOn_iff _ _ _ _
               (CalendarFacts.calendar_cursor_prev tza now)).
      now apply WindowFacts.prevMonth_converges.
    + intros Hsame. rewrite Hs.
      apply (WindowFacts.presses_not_before_today 36 tza _ mounted now);
        [exact Hord | exact Hsame | apply WindowFacts.today_valid |].
      rewrite Hsame. lia.
  - intros events Hord s.
    assert (Hs : HallList.cursor s
                 = fold_left (WindowPolicy.press 2) (HallList.presses events)
                             (WindowPolicy.today tza mounted))
      by apply HallListFacts.halllist_cursor_run.
    destruct (WindowFacts.presses_below_horizon 2 tza ltac:(discriminate)
                (HallList.presses events) mounted now
                (WindowPolicy.today tza mounted) Hord
                (WindowFacts.today_valid tza mounted) ltac:(lia))
      as [Hv Hup].
    rewrite <- Hs in Hv, Hup.
    split; [|split].
    + apply (HallListFacts.halllist_settlesOn_iff _ _ _ _
               (HallListFacts.halllist_cursor_next tza now)).
      apply WindowFacts.nextMonth_converges; [discriminate | exact Hv |].
      rewrite WindowFacts.monthIndex_horizonEnd; [exact Hup | discriminate].
    + intros Hlow.
      apply (HallListFacts.halllist_settlesOn_iff _ _ _ _
               (HallListFacts.halllist_cursor_prev tza now)).
      now apply WindowFacts.prevMonth_converges.
    + intros Hsame. rewrite Hs.
      apply (WindowFacts.presses_not_before_today 2 tza _ mounted now);
        [exact Hord | exact Hsame | apply WindowFacts.today_valid |].
      rewrite Hsame. lia.
Qed.

Lemma navigation_saturates_witness :
  Calendar.settlesOn (Calendar.handleNextMonth 0 Sample.feb15)
    (Calendar.run 1 (Calendar.init 0 Sample.jan15)
       [Calendar.NextPressed 0 Sample.jan15; Calendar.Fetched (Sample.ok [])])
    (1, 2028)
  /\ HallList.settlesOn (HallList.handlePrevMonth 0 Sample.jan15)
       (HallList.run (HallList.init 0 Sample.jan15)
          [HallList.NextPressed 0 Sample.jan15;
           HallList.NextPressed 0 Sample.jan15])
       (0, 2025).
Proof.
  split.
  - apply (proj1 (navigation_saturates 0 Sample.jan15 Sample.feb15) 1
             [Calendar.NextPressed 0 Sample.jan15;
              Calendar.Fetched (Sample.ok [])]).
    simpl. unfold Sample.jan15, Sample.feb15. lia.
  - apply (proj2 (navigation_saturates 0 Sample.jan15 Sample.jan15)
             [HallList.NextPressed 0 Sample.jan15;
              HallList.NextPressed 0 Sample.jan15]).
    + simpl. lia.
    + vm_compute. discriminate.
Defined.

(** C4 as stated fails: a calendar mounted on 15 January 2025 shows January;
    on 15 February, presses of Previous never bring it to February, today's
    month, and never stop moving it. *)
Lemma stale_cursor_never_settles :
  let s := Calendar.init 0 Sample.jan15 in
  Calendar.reachable 1 s
  /\ Calendar.cursor s = (0, 2025)
  /\ WindowPolicy.today 0 Sample.feb15 = (1, 2025)
  /\ ~ Calendar.settlesOn (Calendar.handlePrevMonth 0 Sample.feb15) s
         (WindowPolicy.today 0 Sample.feb15)
  /\ Calendar.cursor
       (Nat.iter 3 (Calendar.handlePrevMonth 0 Sample.feb15) s) = (9, 2024).
Proof.
  simpl. split; [|split; [|split; [|split]]].
  - exists 0, Sample.jan15, []. reflexivity.
  - reflexivity.
  - reflexivity.
  - intros H.
    apply (CalendarFacts.calendar_settlesOn_iff _ _ _ _
             (CalendarFacts.calendar_cursor_prev 0 Sample.feb15)) in H.
    revert H. apply WindowFacts.prevMonth_diverges.
    + vm_compute. split; discriminate.
    + vm_compute. reflexivity.
  - reflexivity.
Qed.


(** C3 at 10:00 on 15 January 2025: the days offered, from the month of
    mounting through the presses of Next up to the horizon, start on the
    16th on both surfaces; the 15th itself, today, is not among them. The
    last day offered is the last day of the month of the horizon's end when
    local time is UTC, and the day before it in India, where the first day
    offered carries the text of the 15th. *)
Theorem today_is_not_offered :
  (exists days,
      HallList.offeredDates 0 Sample.jan15 = Some days
      /\ hd_error days = Some "2025-01-16"
      /\ List.last days "" = "2025-03-31"
      /\ existsb (String.eqb "2025-01-15") days = false)
  /\ (exists days,
      Calendar.offeredDates 0 Sample.jan15 = Some days
      /\ hd_error days = Some "2025-01-16"
      /\ List.last days "" = "2028-01-31"
      /\ existsb (String.eqb "2025-01-15") days = false)
  /\ (exists days,
      HallList.offeredDates Sample.ist Sample.jan15 = Some days
      /\ hd_error days = Some "2025-01-15"
      /\ List.last days "" = "2025-03-30"
      /\ existsb (String.eqb "2025-03-31") days = false).
Proof.
  split; [|split]; eexists; (split; [vm_compute; reflexivity|]);
    vm_compute; repeat split.
Qed.

(** The guard of a click reads the component's own snapshot only: two
    visitors who fetched the same payload, without a record for the day,
    both get their [onDateSelect] called for it. Whether one of the two
    bookings is then refused is decided behind that callback. *)
Lemma two_visitors_both_select :
  let payload := Sample.ok [] in
  let first := fst (Calendar.fetchAvailability 1 payload
                      (Calendar.init 0 Sample.jan15)) in
  let second := fst (Calendar.fetchAvailability 1 payload
                       (Calendar.init Sample.ist Sample.jan15)) in
  Calendar.click 1 first "2025-06-10" = Some (1, "2025-06-10")
  /\ Calendar.click 1 second "2025-06-10" = Some (1, "2025-06-10").
Proof. split; reflexivity. Qed.

(** ** Texts: [split("T")], [includes], the date part of an ISO text *)

Module TextFacts.

Lemma beforeT_app (s r : string) :
  hasT s = false -> beforeT (s +:+ r) = s +:+ beforeT r.
Proof.
  induction s as [|c s IH]; simpl; [reflexivity|].
  intros H. apply orb_false_iff in H as [Hc Hs].
  rewrite Hc. now rewrite IH.
Qed.

Lemma beforeT_noT (s : string) : hasT (beforeT s) = false.
Proof.
  induction s as [|c s IH]; simpl; [reflexivity|].
  destruct (Ascii.eqb c "T") eqn:E; simpl; [reflexivity|].
  now rewrite E.
Qed.

Lemma beforeT_id (s : string) : hasT s = false -> beforeT s = s.
Proof.
  induction s as [|c s IH]; simpl; [reflexivity|].
  intros H. apply orb_false_iff in H as [Hc Hs].
  rewrite Hc. now rewrite IH.
Qed.

Lemma hasT_app (s r : string) : hasT (s +:+ r) = hasT s || hasT r.
Proof.
  induction s as [|c s IH]; simpl; [reflexivity|].
  now rewrite IH, orb_assoc.
Qed.

Lemma append_empty (s : string) : s +:+ "" = s.
Proof.
  induction s as [|c s IH]; [reflexivity|].
  change (String c (s +:+ "") = String c s). now rewrite IH.
Qed.

Lemma digit_notT n : Ascii.eqb (JSDate.digit n) "T" = false.
Proof.
  unfold JSDate.digit.
  pose proof (Z.mod_pos_bound n 10 ltac:(lia)) as H.
  assert (Hc : n mod 10 = 0 \/ n mod 10 = 1 \/ n mod 10 = 2 \/ n mod 10 = 3
               \/ n mod 10 = 4 \/ n mod 10 = 5 \/ n mod 10 = 6
               \/ n mod 10 = 7 \/ n mod 10 = 8 \/ n mod 10 = 9) by lia.
  repeat (destruct Hc as [-> | Hc]); try rewrite Hc; reflexivity.
Qed.

Lemma pad_noT width : forall n acc,
  hasT acc = false -> hasT (JSDate.pad width n acc) = false.
Proof.
  induction width as [|w IH]; intros n acc H; simpl; [exact H|].
  apply IH.
  change (Ascii.eqb (JSDate.digit n) "T" || hasT acc = false).
  now rewrite digit_notT.
Qed.

Lemma yearString_noT y : hasT (JSDate.yearString y) = false.
Proof.
  unfold JSDate.yearString.
  destruct ((0 <=? y) && (y <=? 9999)); [now apply pad_noT|].
  destruct (y <? 0).
  - change (Ascii.eqb "-" "T" || hasT (JSDate.pad 6 (- y) "") = false).
    now rewrite pad_noT.
  - change (Ascii.eqb "+" "T" || hasT (JSDate.pad 6 y "") = false).
    now rewrite pad_noT.
Qed.

Lemma dateText_noT z : hasT (dateText z) = false.
Proof.
  unfold dateText.
  rewrite !hasT_app, yearString_noT, !pad_noT by reflexivity. reflexivity.
Qed.

(** The date part of the ISO text of an instant is the date text of its
    day number: the time of day plays no part. *)
Lemma isoDate_dateText t : WindowPolicy.isoDate t = dateText (JSDate.Day t).
Proof.
  unfold WindowPolicy.isoDate, JSDate.toISOString.
  unfold JSDate.YearFromTime, JSDate.MonthFromTime, JSDate.DateFromTime.
  rewrite beforeT_app by apply yearString_noT.
  rewrite (beforeT_app "-") by reflexivity.
  rewrite beforeT_app by now apply pad_noT.
  rewrite (beforeT_app "-") by reflexivity.
  rewrite beforeT_app by now apply pad_noT.
  simpl beforeT at 1. unfold dateText.
  now rewrite append_empty.
Qed.

Lemma prefix_app (needle : string) :
  forall b, String.prefix needle (needle +:+ b) = true.
Proof.
  induction needle as [|c n IH]; intros b.
  - change ("" +:+ b) with b. now destruct b.
  - change (String c n +:+ b) with (String c (n +:+ b)). simpl.
    destruct (Ascii.ascii_dec c c); [apply IH | contradiction].
Qed.

Lemma includes_unfold (hay needle : string) :
  includes hay needle
  = String.prefix needle hay
    || match hay with
       | EmptyString => false
       | String _ rest => includes rest needle
       end.
Proof. destruct hay; reflexivity. Qed.

Lemma includes_prefix (hay needle : string) :
  String.prefix needle hay = true -> includes hay needle = true.
Proof. intros H. now rewrite includes_unfold, H. Qed.

Lemma includes_intro (needle : string) :
  forall a b, includes (a +:+ needle +:+ b) needle = true.
Proof.
  induction a as [|c a IH]; intros b.
  - change ("" +:+ needle +:+ b) with (needle +:+ b).
    apply includes_prefix, prefix_app.
  - change (String c a +:+ needle +:+ b) with (String c (a +:+ needle +:+ b)).
    rewrite includes_unfold, IH. apply orb_true_r.
Qed.

Lemma prefix_split (needle : string) :
  forall hay, String.prefix needle hay = true ->
    exists b, hay = needle +:+ b.
Proof.
  induction needle as [|c n IH]; intros hay H.
  - exists hay. reflexivity.
  - destruct hay as [|c' hay]; simpl in H; [discriminate|].
    destruct (Ascii.ascii_dec c c') as [->|]; [|discriminate].
    destruct (IH hay H) as [b ->]. exists b. reflexivity.
Qed.

(** [includes] is the test for a substring. *)
Lemma includes_spec (hay needle : string) :
  includes hay needle = true <-> exists a b, hay = a +:+ needle +:+ b.
Proof.
  split.
  - induction hay as [|c hay IH]; rewrite includes_unfold; intros H.
    + rewrite orb_false_r in H.
      destruct (prefix_split _ _ H) as [b Hb]. exists "", b. exact Hb.
    + apply orb_true_iff in H as [H | H].
      * destruct (prefix_split _ _ H) as [b Hb]. exists "", b. exact Hb.
      * destruct (IH H) as (a & b & ->). exists (String c a), b. reflexivity.
  - intros (a & b & ->). apply includes_intro.
Qed.

End TextFacts.

(** ** More on the day list of a month *)

Module MonthFacts.
Import JSDate.

(** [new Date(year, month, d)] is [d - 1] days after the first of the
    month. *)
Lemma fromYMD_day tza year month d :
  fromYMD tza year month d = fromYMD tza year month 1 + (d - 1) * msPerDay.
Proof. unfold fromYMD, UTC, MakeDate, MakeDay, msPerDay. lia. Qed.

Lemma fromYMD_zone tza year month d :
  fromYMD tza year month d = fromYMD 0 year month d - tza.
Proof. unfold fromYMD, UTC. lia. Qed.

Lemma fromYMD_midnight year month d : Day (fromYMD 0 year month d) * msPerDay
                                      = fromYMD 0 year month d.
Proof.
  unfold fromYMD, UTC, MakeDate, Day. rewrite Z.sub_0_r, Z.add_0_r.
  rewrite Z.div_mul; [reflexivity | discriminate].
Qed.

Lemma dailyFrom_seqZ (n : nat) : forall start first,
  WindowPolicy.dailyFrom start n
  = List.map (fun d => start + (d - first) * msPerDay)
             (seqZ first (Z.of_nat n)).
Proof.
  induction n as [|n IH]; intros start first.
  - now rewrite seqZ_nil by lia.
  - rewrite seqZ_cons by lia. simpl WindowPolicy.dailyFrom.
    rewrite (IH _ (Z.succ first)).
    replace (Z.pred (Z.of_nat (S n))) with (Z.of_nat n) by lia.
    simpl. f_equal; [lia|].
    apply map_ext. intros d. lia.
Qed.

(** The local midnights of a month are [new Date(year, month, d)] for [d]
    from 1 to the number of its days, which the loop's upper bound
    [new Date(year, month + 1, 0)] ends. *)
Lemma monthMidnights_days tza month year :
  exists n,
    28 <= n <= 31
    /\ fromYMD tza year (month + 1) 0 = fromYMD tza year month n
    /\ WindowPolicy.monthMidnights tza month year
       = List.map (fun d => fromYMD tza year month d) (seqZ 1 n).
Proof.
  destruct (DateFacts.month_span tza year month) as (k & Hk & Hspan).
  exists (k + 1). split; [lia|]. split.
  - rewrite Hspan, (fromYMD_day tza year month (k + 1)). lia.
  - unfold WindowPolicy.monthMidnights. rewrite Hspan.
    replace ((fromYMD tza year month 1 + k * msPerDay
              - fromYMD tza year month 1) / msPerDay + 1) with (k + 1).
    2:{ replace (fromYMD tza year month 1 + k * msPerDay
                 - fromYMD tza year month 1) with (k * msPerDay) by lia.
        rewrite Z.div_mul; [reflexivity | discriminate]. }
    rewrite (dailyFrom_seqZ _ _ 1), Z2Nat.id by lia.
    apply map_ext. intros d. now rewrite (fromYMD_day tza year month d).
Qed.

(** The instants [new Date(year, month, d)] grow with [d]. *)
Lemma fromYMD_mono tza year month d d' :
  d <= d' -> fromYMD tza year month d <= fromYMD tza year month d'.
Proof.
  intros H. rewrite (fromYMD_day _ _ _ d), (fromYMD_day _ _ _ d').
  unfold msPerDay. lia.
Qed.

Lemma filter_all {A} (f : A -> bool) (l : list A) :
  (forall x, In x l -> f x = true) -> List.filter f l = l.
Proof.
  induction l as [|x l IH]; intros H; simpl; [reflexivity|].
  rewrite (H x) by now left. f_equal. apply IH.
  intros y Hy. apply H. now right.
Qed.

Lemma filter_none {A} (f : A -> bool) (l : list A) :
  (forall x, In x l -> f x = false) -> List.filter f l = [].
Proof.
  induction l as [|x l IH]; intros H; simpl; [reflexivity|].
  rewrite (H x) by now left. apply IH.
  intros y Hy. apply H. now right.
Qed.

(** East of UTC, by at most a day, the text of a local midnight is the date
    of the day before. *)
Lemma isoDate_east tza year month d :
  0 < tza <= msPerDay ->
  WindowPolicy.isoDate (fromYMD tza year month d)
  = WindowPolicy.isoDate (fromYMD 0 year month (d - 1)).
Proof.
  intros Htz. rewrite !TextFacts.isoDate_dateText. f_equal.
  rewrite fromYMD_zone, (fromYMD_day 0 year month (d - 1)),
          (fromYMD_day 0 year month d).
  pose proof (fromYMD_midnight year month 1) as H1.
  set (t := fromYMD 0 year month 1) in *.
  unfold Day in *. unfold msPerDay in *.
  symmetry. apply Z.div_unique with (86400000 - tza); [lia|].
  pose proof (Z.div_mod t 86400000 ltac:(lia)).
  assert (Hq : (t + (d - 1 - 1) * 86400000) / 86400000 = t / 86400000 + (d - 2)).
  { replace (t + (d - 1 - 1) * 86400000) with (t + (d - 2) * 86400000) by lia.
    now rewrite Z.div_add by lia. }
  rewrite Hq. lia.
Qed.

(** At UTC and west of it, by less than a day, the text of a local midnight
    is the date of the day itself. *)
Lemma isoDate_west tza year month d :
  - msPerDay < tza <= 0 ->
  WindowPolicy.isoDate (fromYMD tza year month d)
  = WindowPolicy.isoDate (fromYMD 0 year month d).
Proof.
  intros Htz. rewrite !TextFacts.isoDate_dateText. f_equal.
  rewrite fromYMD_zone.
  pose proof (fromYMD_midnight year month d) as H1.
  set (t := fromYMD 0 year month d) in *.
  unfold Day in *. unfold msPerDay in *.
  symmetry. apply Z.div_unique with (- tza); lia.
Qed.

End MonthFacts.

(** ** From a date to its day number and back *)

Module CivilFacts.
Import JSDate.

Lemma yoe_of_ys yoe doy :
  0 <= yoe <= 399 -> 0 <= doy ->
  yearStart yoe + doy < (if yoe =? 399 then 146097 else yearStart (yoe + 1)) ->
  yoe_of (yearStart yoe + doy) = yoe.
Proof.
  intros Hy Hd Hlt. unfold yoe_of, yearStart in *.
  destruct (yoe =? 399) eqn:E.
  - apply Z.eqb_eq in E. subst. Z.div_mod_to_equations. lia.
  - apply Z.eqb_neq in E. Z.div_mod_to_equations. lia.
Qed.

(* the era decomposition of a day *)
Lemma era_unique z era doe : 0 <= doe < 146097 -> z + 719468 = era * 146097 + doe ->
  era_of z = era /\ doe_of z = doe.
Proof.
  intros H E. unfold era_of, doe_of. split.
  - symmetry. apply Z.div_unique with doe; lia.
  - symmetry. apply Z.mod_unique with era; lia.
Qed.

Lemma civil_pieces y' mp d :
  0 <= mp <= 11 ->
  1 <= d ->
  (mp <= 10 -> d <= (153 * (mp + 1) + 2) / 5 - (153 * mp + 2) / 5) ->
  (mp = 11 -> d <= (if y' mod 400 =? 399 then 146097 else yearStart (y' mod 400 + 1)) - yearStart (y' mod 400) - 337) ->
  let z := (y' / 400) * 146097 + (yearStart (y' mod 400) + ((153 * mp + 2) / 5 + d - 1)) - 719468 in
  era_of z = y' / 400 /\ yoe_of (doe_of z) = y' mod 400 /\ mp_of (doe_of z) = mp
  /\ DateFromDay z = d.
Proof.
  intros Hmp Hd H10 H11 z.
  pose proof (Z.mod_pos_bound y' 400 ltac:(lia)) as Hyoe.
  set (yoe := y' mod 400) in *.
  set (doy := (153 * mp + 2) / 5 + d - 1).
  assert (Hdoy0 : 0 <= doy) by (unfold doy; Z.div_mod_to_equations; lia).
  assert (Hlt : yearStart yoe + doy < (if yoe =? 399 then 146097 else yearStart (yoe + 1))).
  { destruct (Z.eq_dec mp 11) as [->|Hne].
    - specialize (H11 eq_refl). unfold doy. change ((153 * 11 + 2) / 5) with 337. lia.
    - specialize (H10 ltac:(lia)). unfold doy.
      assert (yearStart yoe + 365 <= (if yoe =? 399 then 146097 else yearStart (yoe + 1))).
      { destruct (yoe =? 399) eqn:E.
        - apply Z.eqb_eq in E. rewrite E. unfold yearStart. Z.div_mod_to_equations. lia.
        - unfold yearStart. Z.div_mod_to_equations. lia. }
      assert ((153 * (mp + 1) + 2) / 5 <= 337) by (Z.div_mod_to_equations; lia).
      lia. }
  assert (Hdoe : 0 <= yearStart yoe + doy < 146097).
  { split; [unfold yearStart; Z.div_mod_to_equations; lia|].
    destruct (yoe =? 399) eqn:E; [lia|]. apply Z.eqb_neq in E.
    assert (yearStart (yoe + 1) <= 146097) by (unfold yearStart; Z.div_mod_to_equations; lia). lia. }
  destruct (era_unique z (y' / 400) (yearStart yoe + doy) Hdoe ltac:(unfold z, doy; lia)) as [He Hd'].
  split; [exact He|].
  pose proof (yoe_of_ys yoe doy ltac:(lia) Hdoy0 Hlt) as Hy.
  rewrite Hd'. split; [exact Hy|].
  assert (Hdy : doy_of (yearStart yoe + doy) = doy) by (unfold doy_of; rewrite Hy; unfold yearStart; lia).
  assert (Hm : mp_of (yearStart yoe + doy) = mp).
  { unfold mp_of. rewrite Hdy. unfold doy.
    destruct (Z.eq_dec mp 11) as [->|Hne].
    - specialize (H11 eq_refl).
      assert (d <= 29).
      { destruct (yoe =? 399) eqn:E.
        - apply Z.eqb_eq in E. rewrite E in H11. unfold yearStart in H11. Z.div_mod_to_equations. lia.
        - unfold yearStart in H11. Z.div_mod_to_equations. lia. }
      change ((153 * 11 + 2) / 5) with 337. Z.div_mod_to_equations. lia.
    - specialize (H10 ltac:(lia)).
      assert (Hc : mp = 0 \/ mp = 1 \/ mp = 2 \/ mp = 3 \/ mp = 4 \/ mp = 5 \/ mp = 6 \/ mp = 7 \/ mp = 8 \/ mp = 9 \/ mp = 10) by lia.
      repeat (destruct Hc as [-> | Hc]); try subst mp; Z.div_mod_to_equations; lia. }
  split; [exact Hm|].
  unfold DateFromDay. rewrite Hd', Hdy, Hm. unfold doy. lia.
Qed.

(** Decide the comparisons between numerals in the goal. *)
Ltac decide_tests :=
  repeat match goal with
         | |- context [?a <=? 1] =>
             let v := eval vm_compute in (a <=? 1) in
             match v with
             | true => change (a <=? 1) with true
             | false => change (a <=? 1) with false
             end
         | |- context [?a =? 1] =>
             let v := eval vm_compute in (a =? 1) in
             match v with
             | true => change (a =? 1) with true
             | false => change (a =? 1) with false
             end
         end;
  cbv iota zeta.

Lemma DayFromYearMonth_ys y m :
  DayFromYearMonth y m
  = (let y' := if m <=? 1 then y - 1 else y in
     let mp := if m <=? 1 then m + 10 else m - 2 in
     (y' / 400) * 146097 + (yearStart (y' mod 400) + (153 * mp + 2) / 5) - 719468).
Proof.
  unfold DayFromYearMonth, yearStart. cbv zeta.
  set (y' := if m <=? 1 then y - 1 else y).
  replace (y' - y' / 400 * 400) with (y' mod 400)
    by (pose proof (Z.div_mod y' 400 ltac:(lia)); lia).
  lia.
Qed.

Lemma civil_MakeDay y m d :
  0 <= m <= 11 ->
  1 <= d <= MakeDay y (m + 1) 0 - MakeDay y m 1 + 1 ->
  YearFromDay (MakeDay y m d) = y
  /\ MonthFromDay (MakeDay y m d) = m
  /\ DateFromDay (MakeDay y m d) = d.
Proof.
  intros Hm Hd.
  set (y' := if m <=? 1 then y - 1 else y).
  set (mp := if m <=? 1 then m + 10 else m - 2).
  assert (Hz : MakeDay y m d
               = (y' / 400) * 146097
                 + (yearStart (y' mod 400) + ((153 * mp + 2) / 5 + d - 1)) - 719468).
  { unfold MakeDay. rewrite (Z.div_small m 12), (Z.mod_small m 12) by lia.
    rewrite Z.add_0_r, DayFromYearMonth_ys. cbv zeta. fold y' mp. lia. }
  assert (Hlen : MakeDay y (m + 1) 0 - MakeDay y m 1 + 1
                 = if m =? 1
                   then (if y' mod 400 =? 399 then 146097 else yearStart (y' mod 400 + 1))
                        - yearStart (y' mod 400) - 337
                   else (153 * (mp + 1) + 2) / 5 - (153 * mp + 2) / 5).
  { unfold MakeDay. rewrite (Z.div_small m 12), (Z.mod_small m 12) by lia.
    rewrite Z.add_0_r.
    destruct (Z.eq_dec m 11) as [->|Hne].
    - change ((11 + 1) / 12) with 1. change ((11 + 1) mod 12) with 0.
      rewrite !DayFromYearMonth_ys. unfold y', mp.
      change (0 <=? 1) with true. change (11 <=? 1) with false. change (11 =? 1) with false.
      cbv iota zeta. replace (y + 1 - 1) with y by lia. rewrite !Z.add_0_r.
      Z.div_mod_to_equations. lia.
    - rewrite (Z.div_small (m + 1) 12), (Z.mod_small (m + 1) 12) by lia.
      rewrite Z.add_0_r, !DayFromYearMonth_ys. unfold y', mp.
      assert (Hc : m = 0 \/ m = 1 \/ m = 2 \/ m = 3 \/ m = 4 \/ m = 5 \/ m = 6 \/ m = 7 \/ m = 8 \/ m = 9 \/ m = 10) by lia.
      repeat (destruct Hc as [-> | Hc]); try subst m; decide_tests.
      all: try (Z.div_mod_to_equations; lia).
      (* February *)
      unfold yearStart. destruct (Z.eq_dec ((y - 1) mod 400) 399) as [E|E].
      + rewrite E. change (399 =? 399) with true. cbv iota.
        Z.div_mod_to_equations. lia.
      + apply Z.eqb_neq in E as E'. rewrite E'.
        Z.div_mod_to_equations. lia. }
  rewrite Hlen in Hd.
  assert (Hmp : 0 <= mp <= 11)
    by (unfold mp; destruct (m <=? 1) eqn:E;
        [apply Z.leb_le in E | apply Z.leb_gt in E]; lia).
  assert (Hm1 : mp = 11 <-> m = 1)
    by (unfold mp; destruct (m <=? 1) eqn:E;
        [apply Z.leb_le in E | apply Z.leb_gt in E]; lia).
  destruct (civil_pieces y' mp d Hmp ltac:(lia)) as (He & Hy & Hp & Hdate).
  - intros H10. destruct (m =? 1) eqn:E; [apply Z.eqb_eq in E; lia | lia].
  - intros H11. destruct (m =? 1) eqn:E; [lia | apply Z.eqb_neq in E; lia].
  - rewrite <- Hz in He, Hy, Hp, Hdate.
    assert (HM : MonthFromDay (MakeDay y m d) = m).
    { unfold MonthFromDay. rewrite Hp. unfold mp.
      destruct (m <=? 1) eqn:E; [apply Z.leb_le in E | apply Z.leb_gt in E].
      - destruct (m + 10 <? 10) eqn:E2; [apply Z.ltb_lt in E2|]; lia.
      - destruct (m - 2 <? 10) eqn:E2; [|apply Z.ltb_ge in E2]; lia. }
    split; [|split; [exact HM | exact Hdate]].
    unfold YearFromDay. rewrite HM, Hy, He.
    pose proof (Z.div_mod y' 400 ltac:(lia)).
    unfold y' in *. destruct (m <=? 1); lia.
Qed.

End CivilFacts.

(** ** Further properties of the components *)

Module DayTextFacts.

(** The day list in terms of the days of the month. *)
Lemma daysInMonth_days tza now month year :
  exists n,
    28 <= n <= 31
    /\ JSDate.fromYMD tza year (month + 1) 0 = JSDate.fromYMD tza year month n
    /\ WindowPolicy.daysInMonth tza now month year
       = Some (List.map (fun d => WindowPolicy.isoDate
                                    (JSDate.fromYMD tza year month d))
                 (List.filter (fun d => JSDate.fromYMD tza year month d >=? now)
                              (seqZ 1 n))).
Proof.
  destruct (MonthFacts.monthMidnights_days tza month year) as (n & Hn & Hend & Hm).
  exists n. split; [exact Hn|]. split; [exact Hend|].
  rewrite DayListFacts.daysInMonth_spec, Hm.
  now rewrite filter_map_swap, map_map.
Qed.

Lemma both_surfaces tza now month year days :
  WindowPolicy.daysInMonth tza now month year = Some days ->
  Calendar.getDaysInMonth tza now month year = Some days
  /\ HallList.getDaysInMonth tza now month year = Some days.
Proof.
  intros H.
  pose proof (DayListFacts.calendar_getDaysInMonth tza now month year).
  pose proof (DayListFacts.halllist_getDaysInMonth tza now month year).
  split; congruence.
Qed.

(** In UTC, the text of [new Date(year, month, d)] for a day of the month
    is the date itself. *)
Lemma isoDate_utc year month d :
  0 <= month <= 11 -> year < 0 \/ 99 < year ->
  1 <= d <= JSDate.MakeDay year (month + 1) 0 - JSDate.MakeDay year month 1 + 1 ->
  WindowPolicy.isoDate (JSDate.fromYMD 0 year month d) = ymdText year month d.
Proof.
  intros Hm Hy Hd. rewrite TextFacts.isoDate_dateText.
  assert (Hday : JSDate.Day (JSDate.fromYMD 0 year month d)
                 = JSDate.MakeDay year month d).
  { unfold JSDate.fromYMD, JSDate.UTC, JSDate.MakeDate, JSDate.Day.
    assert (E : (0 <=? year) && (year <=? 99) = false).
    { apply andb_false_iff. destruct Hy; [left; apply Z.leb_gt | right; apply Z.leb_gt]; lia. }
    rewrite E, Z.sub_0_r, Z.add_0_r.
    rewrite Z.div_mul; [reflexivity | discriminate]. }
  rewrite Hday. unfold dateText, ymdText.
  destruct (CivilFacts.civil_MakeDay year month d Hm Hd) as (-> & -> & ->).
  reflexivity.
Qed.

(** The number of days the loop of [getDaysInMonth] runs through. *)
Lemma month_end_day tza year month n :
  year < 0 \/ 99 < year ->
  JSDate.fromYMD tza year (month + 1) 0 = JSDate.fromYMD tza year month n ->
  n = JSDate.MakeDay year (month + 1) 0 - JSDate.MakeDay year month 1 + 1.
Proof.
  intros Hy. unfold JSDate.fromYMD, JSDate.UTC, JSDate.MakeDate.
  assert (E : (0 <=? year) && (year <=? 99) = false).
  { apply andb_false_iff. destruct Hy; [left; apply Z.leb_gt | right; apply Z.leb_gt]; lia. }
  rewrite E. unfold JSDate.MakeDay, JSDate.msPerDay. lia.
Qed.

Lemma map_filter_ext {A B} (f g : A -> B) (p : A -> bool) (l : list A) :
  (forall x, In x l -> f x = g x) ->
  List.map f (List.filter p l) = List.map g (List.filter p l).
Proof.
  intros H. apply map_ext_in. intros x Hx.
  apply filter_In in Hx as [Hx _]. now apply H.
Qed.

Lemma in_seqZ (x m n : Z) : In x (seqZ m n) -> m <= x < m + n.
Proof. intros H. apply list_elem_of_In, elem_of_seqZ in H. exact H. Qed.

End DayTextFacts.

(** X1: in a time zone whose offset from UTC is the same at every instant
    (no daylight saving) and for a month 0..11 whose two loop bounds are
    dates a [Date] can hold, [getDaysInMonth] returns on both surfaces, at
    every clock: with [n], 28 to 31, the day of the month that
    [new Date(year, month + 1, 0)] is, the result is the ISO date texts of
    [new Date(year, month, d)] for the [d] in 1..[n] whose local midnight is
    not before the clock, in rising order. *)
Theorem month_days_listed tza now month year :
  0 <= month <= 11 ->
  JSDate.valid (JSDate.fromYMD tza year month 1) ->
  JSDate.valid (JSDate.fromYMD tza year (month + 1) 0) ->
  exists n,
    28 <= n <= 31
    /\ JSDate.fromYMD tza year (month + 1) 0 = JSDate.fromYMD tza year month n
    /\ let days :=
         List.map (fun d => WindowPolicy.isoDate (JSDate.fromYMD tza year month d))
           (List.filter (fun d => JSDate.fromYMD tza year month d >=? now)
                        (seqZ 1 n)) in
       Calendar.getDaysInMonth tza now month year = Some days
       /\ HallList.getDaysInMonth tza now month year = Some days.
Proof.
  intros _ _ _.
  destruct (DayTextFacts.daysInMonth_days tza now month year)
    as (n & Hn & Hend & H).
  exists n. split; [exact Hn|]. split; [exact Hend|].
  cbv zeta. now apply DayTextFacts.both_surfaces.
Qed.

Lemma month_days_listed_witness :
  exists n,
    28 <= n <= 31
    /\ Calendar.getDaysInMonth Sample.ist Sample.jan15 0 2025
       = Some (List.map (fun d => WindowPolicy.isoDate
                                    (JSDate.fromYMD Sample.ist 2025 0 d))
                 (List.filter
                    (fun d => JSDate.fromYMD Sample.ist 2025 0 d >=? Sample.jan15)
                    (seqZ 1 n))).
Proof.
  assert (Hm : 0 <= 0 <= 11) by lia.
  assert (Hlo : JSDate.valid (JSDate.fromYMD Sample.ist 2025 0 1))
    by (vm_compute; split; discriminate).
  assert (Hhi : JSDate.valid (JSDate.fromYMD Sample.ist 2025 (0 + 1) 0))
    by (vm_compute; split; discriminate).
  pose proof (month_days_listed Sample.ist Sample.jan15 0 2025 Hm Hlo Hhi) as H.
  cbv zeta in H. destruct H as (n & Hn & _ & Hc & _).
  exists n. split; [exact Hn | exact Hc].
Defined.

(** X2: in a time zone whose offset from UTC is the same at every instant
    and for a month 0..11 whose two loop bounds are dates a [Date] can hold:
    a month that lies wholly before the clock offers no day, and a month
    that lies wholly after it offers every one of its 28 to 31 days; so
    only the month of today is ever cut. *)
Theorem month_before_or_after_now tza now month year :
  0 <= month <= 11 ->
  JSDate.valid (JSDate.fromYMD tza year month 1) ->
  JSDate.valid (JSDate.fromYMD tza year (month + 1) 0) ->
  (JSDate.fromYMD tza year (month + 1) 0 < now ->
   Calendar.getDaysInMonth tza now month year = Some []
   /\ HallList.getDaysInMonth tza now month year = Some [])
  /\ (now <= JSDate.fromYMD tza year month 1 ->
      exists n,
        28 <= n <= 31
        /\ let days :=
             List.map (fun d => WindowPolicy.isoDate
                                  (JSDate.fromYMD tza year month d))
                      (seqZ 1 n) in
           Calendar.getDaysInMonth tza now month year = Some days
           /\ HallList.getDaysInMonth tza now month year = Some days
           /\ List.length days = Z.to_nat n).
Proof.
  intros _ _ _.
  destruct (DayTextFacts.daysInMonth_days tza now month year)
    as (n & Hn & Hend & H).
  split.
  - intros Hpast. apply DayTextFacts.both_surfaces. rewrite H.
    rewrite MonthFacts.filter_none; [reflexivity|].
    intros d Hd. apply DayTextFacts.in_seqZ in Hd.
    pose proof (MonthFacts.fromYMD_mono tza year month d n ltac:(lia)).
    destruct (_ >=? now) eqn:E; [apply Z.geb_le in E; lia | reflexivity].
  - intros Hahead. exists n. split; [exact Hn|]. cbv zeta.
    rewrite MonthFacts.filter_all in H.
    + destruct (DayTextFacts.both_surfaces _ _ _ _ _ H) as [Hc Hh].
      split; [exact Hc|]. split; [exact Hh|].
      now rewrite length_map, length_seqZ.
    + intros d Hd. apply DayTextFacts.in_seqZ in Hd.
      pose proof (MonthFacts.fromYMD_mono tza year month 1 d ltac:(lia)).
      apply Z.geb_le. lia.
Qed.

Lemma month_before_or_after_now_witness :
  Calendar.getDaysInMonth 0 Sample.jan15 11 2024 = Some []
  /\ exists n, 28 <= n <= 31
       /\ HallList.getDaysInMonth Sample.ist Sample.jan15 1 2025
          = Some (List.map (fun d => WindowPolicy.isoDate
                                       (JSDate.fromYMD Sample.ist 2025 1 d))
                           (seqZ 1 n)).
Proof.
  assert (Hm : 0 <= 11 <= 11) by lia.
  assert (Hm' : 0 <= 1 <= 11) by lia.
  assert (Hlo : JSDate.valid (JSDate.fromYMD 0 2024 11 1))
    by (vm_compute; split; discriminate).
  assert (Hhi : JSDate.valid (JSDate.fromYMD 0 2024 (11 + 1) 0))
    by (vm_compute; split; discriminate).
  assert (Hlo' : JSDate.valid (JSDate.fromYMD Sample.ist 2025 1 1))
    by (vm_compute; split; discriminate).
  assert (Hhi' : JSDate.valid (JSDate.fromYMD Sample.ist 2025 (1 + 1) 0))
    by (vm_compute; split; discriminate).
  assert (Hpast : JSDate.fromYMD 0 2024 (11 + 1) 0 < Sample.jan15)
    by (vm_compute; reflexivity).
  assert (Hahead : Sample.jan15 <= JSDate.fromYMD Sample.ist 2025 1 1)
    by (vm_compute; discriminate).
  split.
  - exact (proj1 (proj1 (month_before_or_after_now 0 Sample.jan15 11 2024
                           Hm Hlo Hhi)
                        Hpast)).
  - pose proof (proj2 (month_before_or_after_now Sample.ist Sample.jan15 1 2025
                         Hm' Hlo' Hhi')
                      Hahead) as H.
    cbv zeta in H. destruct H as (n & Hn & _ & Hh & _).
    exists n. split; [exact Hn | exact Hh].
Defined.

(** X3: which text stands for which day, in a time zone whose offset from
    UTC is the same at every instant and for a month 0..11 of a year
    outside 0..99 whose two loop bounds are dates a [Date] can hold. With
    an offset of zero or of up to a day west of UTC, the text offered for
    the local day [d] is the date [year]-[month + 1]-[d] itself; with an
    offset of up to a day east of UTC it is the date of the day before,
    [d - 1], and for the first of the month the last day of the month
    before. *)
Theorem day_texts_by_zone tza now month year :
  0 <= month <= 11 ->
  year < 0 \/ 99 < year ->
  JSDate.valid (JSDate.fromYMD tza year month 1) ->
  JSDate.valid (JSDate.fromYMD tza year (month + 1) 0) ->
  exists n,
    28 <= n <= 31
    /\ (- JSDate.msPerDay < tza <= 0 ->
        let days :=
          List.map (ymdText year month)
            (List.filter (fun d => JSDate.fromYMD tza year month d >=? now)
                         (seqZ 1 n)) in
        Calendar.getDaysInMonth tza now month year = Some days
        /\ HallList.getDaysInMonth tza now month year = Some days)
    /\ (0 < tza <= JSDate.msPerDay ->
        let days :=
          List.map (fun d => if d =? 1
                             then WindowPolicy.isoDate
                                    (JSDate.fromYMD 0 year month 0)
                             else ymdText year month (d - 1))
            (List.filter (fun d => JSDate.fromYMD tza year month d >=? now)
                         (seqZ 1 n)) in
        Calendar.getDaysInMonth tza now month year = Some days
        /\ HallList.getDaysInMonth tza now month year = Some days).
Proof.
  intros Hm Hy _ _.
  destruct (DayTextFacts.daysInMonth_days tza now month year)
    as (n & Hn & Hend & H).
  pose proof (DayTextFacts.month_end_day tza year month n Hy Hend) as Hlen.
  exists n. split; [exact Hn|]. split; intros Htz; cbv zeta;
    apply DayTextFacts.both_surfaces; rewrite H; f_equal;
    apply DayTextFacts.map_filter_ext; intros d Hd;
    apply DayTextFacts.in_seqZ in Hd.
  - rewrite MonthFacts.isoDate_west by exact Htz.
    apply DayTextFacts.isoDate_utc; [exact Hm | exact Hy | lia].
  - rewrite MonthFacts.isoDate_east by exact Htz.
    destruct (d =? 1) eqn:E.
    + apply Z.eqb_eq in E. subst d. reflexivity.
    + apply Z.eqb_neq in E.
      apply DayTextFacts.isoDate_utc; [exact Hm | exact Hy | lia].
Qed.

Lemma day_texts_by_zone_witness :
  exists n, 28 <= n <= 31
    /\ Calendar.getDaysInMonth Sample.ist Sample.jan15 1 2025
       = Some (List.map (fun d => if d =? 1
                                  then WindowPolicy.isoDate
                                         (JSDate.fromYMD 0 2025 1 0)
                                  else ymdText 2025 1 (d - 1))
                 (List.filter
                    (fun d => JSDate.fromYMD Sample.ist 2025 1 d >=? Sample.jan15)
                    (seqZ 1 n))).
Proof.
  assert (Hm : 0 <= 1 <= 11) by lia.
  assert (Hy : 2025 < 0 \/ 99 < 2025) by (right; lia).
  assert (Hlo : JSDate.valid (JSDate.fromYMD Sample.ist 2025 1 1))
    by (vm_compute; split; discriminate).
  assert (Hhi : JSDate.valid (JSDate.fromYMD Sample.ist 2025 (1 + 1) 0))
    by (vm_compute; split; discriminate).
  assert (Htz : 0 < Sample.ist <= JSDate.msPerDay)
    by (unfold Sample.ist, JSDate.msPerDay; lia).
  pose proof (day_texts_by_zone Sample.ist Sample.jan15 1 2025 Hm Hy Hlo Hhi)
    as H.
  cbv zeta in H. destruct H as (n & Hn & _ & Heast).
  exists n. split; [exact Hn | exact (proj1 (Heast Htz))].
Defined.

(** ** More on the navigation *)

Module NavigationFacts.
Import WindowPolicy WindowFacts.

Lemma nextMonth_iter_index h tza now :
  0 <= h ->
  forall (k : nat) c,
    validMonth c ->
    monthIndex c <= monthIndex (today tza now) + h ->
    validMonth (Nat.iter k (nextMonth h tza now) c)
    /\ monthIndex (Nat.iter k (nextMonth h tza now) c)
       = Z.min (monthIndex c + Z.of_nat k) (monthIndex (today tza now) + h).
Proof.
  intros Hh k c Hv Hi. induction k as [|k [IHv IHi]].
  - simpl. split; [exact Hv | lia].
  - rewrite Nat.iter_succ. split; [now apply nextMonth_valid|].
    destruct (cursor_eq_dec (Nat.iter k (nextMonth h tza now) c)
                            (horizonEnd h tza now)) as [E | Hne].
    + rewrite E in *. rewrite nextMonth_horizonEnd.
      rewrite monthIndex_horizonEnd in * by assumption. lia.
    + rewrite nextMonth_moves by assumption.
      assert (monthIndex (Nat.iter k (nextMonth h tza now) c)
              <> monthIndex (horizonEnd h tza now)).
      { intros E. apply Hne.
        apply monthIndex_inj; auto using horizonEnd_valid. }
      rewrite monthIndex_horizonEnd in * by assumption. lia.
Qed.

Lemma prevMonth_iter_index tza now :
  forall (k : nat) c,
    validMonth c ->
    monthIndex (today tza now) <= monthIndex c ->
    validMonth (Nat.iter k (prevMonth tza now) c)
    /\ monthIndex (Nat.iter k (prevMonth tza now) c)
       = Z.max (monthIndex c - Z.of_nat k) (monthIndex (today tza now)).
Proof.
  intros k c Hv Hi. induction k as [|k [IHv IHi]].
  - simpl. split; [exact Hv | lia].
  - rewrite Nat.iter_succ. split; [now apply prevMonth_valid|].
    destruct (cursor_eq_dec (Nat.iter k (prevMonth tza now) c)
                            (today tza now)) as [E | Hne].
    + rewrite E in *. rewrite prevMonth_today. lia.
    + rewrite prevMonth_moves by assumption.
      assert (monthIndex (Nat.iter k (prevMonth tza now) c)
              <> monthIndex (today tza now)).
      { intros E. apply Hne. apply monthIndex_inj; auto using today_valid. }
      lia.
Qed.

(** Inside the window, Previous undoes Next and Next undoes Previous. *)
Lemma prev_next_cursor h tza now c :
  0 <= h -> validMonth c ->
  monthIndex (today tza now) <= monthIndex c < monthIndex (today tza now) + h ->
  prevMonth tza now (nextMonth h tza now c) = c.
Proof.
  intros Hh Hv Hi.
  assert (Hne : c <> horizonEnd h tza now).
  { intros ->. rewrite monthIndex_horizonEnd in Hi by assumption. lia. }
  pose proof (nextMonth_moves h tza now c Hv Hne) as Hn.
  pose proof (nextMonth_valid h tza now c Hv) as Hnv.
  assert (Hnt : nextMonth h tza now c <> today tza now)
    by (intros E; rewrite E in Hn; lia).
  apply monthIndex_inj; [now apply prevMonth_valid | exact Hv |].
  rewrite prevMonth_moves by assumption. lia.
Qed.

Lemma next_prev_cursor h tza now c :
  0 <= h -> validMonth c ->
  monthIndex (today tza now) < monthIndex c <= monthIndex (today tza now) + h ->
  nextMonth h tza now (prevMonth tza now c) = c.
Proof.
  intros Hh Hv Hi.
  assert (Hne : c <> today tza now) by (intros ->; lia).
  pose proof (prevMonth_moves tza now c Hv Hne) as Hp.
  pose proof (prevMonth_valid tza now c Hv) as Hpv.
  assert (Hpe : prevMonth tza now c <> horizonEnd h tza now).
  { intros E. rewrite E, monthIndex_horizonEnd in Hp by assumption. lia. }
  apply monthIndex_inj; [now apply nextMonth_valid | exact Hv |].
  rewrite nextMonth_moves by assumption. lia.
Qed.

(** Next from today's month, then Previous: where the visible month is. *)
Lemma presses_closed_form h tza now (k j : nat) :
  0 <= h ->
  validMonth (Nat.iter k (nextMonth h tza now) (today tza now))
  /\ monthIndex (Nat.iter k (nextMonth h tza now) (today tza now))
     = monthIndex (today tza now) + Z.min (Z.of_nat k) h
  /\ validMonth (Nat.iter j (prevMonth tza now)
                   (Nat.iter k (nextMonth h tza now) (today tza now)))
  /\ monthIndex (Nat.iter j (prevMonth tza now)
                   (Nat.iter k (nextMonth h tza now) (today tza now)))
     = monthIndex (today tza now) + Z.max (Z.min (Z.of_nat k) h - Z.of_nat j) 0.
Proof.
  intros Hh.
  destruct (nextMonth_iter_index h tza now Hh k (today tza now)
              (today_valid tza now) ltac:(lia)) as [Hv Hi].
  destruct (prevMonth_iter_index tza now j _ Hv ltac:(lia)) as [Hv' Hi'].
  split; [exact Hv|]. split; [lia|]. split; [exact Hv' | lia].
Qed.

Lemma calendar_state_eq (s s' : Calendar.State) :
  Calendar.cursor s = Calendar.cursor s' ->
  Calendar.availabilityData s = Calendar.availabilityData s' ->
  s = s'.
Proof.
  destruct s, s'. unfold Calendar.cursor. simpl. intros [= -> ->] ->.
  reflexivity.
Qed.

Lemma halllist_state_eq (s s' : HallList.State) :
  HallList.cursor s = HallList.cursor s' ->
  HallList.availabilityData s = HallList.availabilityData s' ->
  s = s'.
Proof.
  destruct s, s'. unfold HallList.cursor. simpl. intros [= -> ->] ->.
  reflexivity.
Qed.

End NavigationFacts.

(** The attribute and the handler of a navigation button at one and the
    same reading of the clock. *)
Lemma disabled_iff_no_move_at_one_clock tza now :
  (forall s : Calendar.State,
      (Calendar.prevDisabled tza now s = true
       <-> Calendar.handlePrevMonth tza now s = s)
      /\ (Calendar.nextDisabled tza now s = true
          <-> Calendar.handleNextMonth tza now s = s))
  /\ (forall s : HallList.State,
      (HallList.prevDisabled tza now s = true
       <-> HallList.handlePrevMonth tza now s = s)
      /\ (HallList.nextDisabled tza now s = true
          <-> HallList.handleNextMonth tza now s = s)).
Proof.
  split; intros s; split.
  - unfold Calendar.prevDisabled, Calendar.handlePrevMonth.
    destruct (_ && _); [tauto|].
    split; [discriminate|]. intros E.
    apply (f_equal Calendar.currentMonth) in E. simpl in E.
    destruct (Calendar.currentMonth s =? 0) eqn:E0; simpl in E;
      [apply Z.eqb_eq in E0|]; lia.
  - unfold Calendar.nextDisabled, Calendar.handleNextMonth.
    destruct (_ && _); [tauto|].
    split; [discriminate|]. intros E.
    apply (f_equal Calendar.currentMonth) in E. simpl in E.
    destruct (Calendar.currentMonth s =? 11) eqn:E0; simpl in E;
      [apply Z.eqb_eq in E0|]; lia.
  - unfold HallList.prevDisabled, HallList.handlePrevMonth.
    destruct (_ && _); [tauto|].
    split; [discriminate|]. intros E.
    apply (f_equal HallList.currentMonth) in E. simpl in E.
    destruct (HallList.currentMonth s =? 0) eqn:E0; simpl in E;
      [apply Z.eqb_eq in E0|]; lia.
  - unfold HallList.nextDisabled, HallList.handleNextMonth.
    destruct (_ && _); [tauto|].
    split; [discriminate|]. intros E.
    apply (f_equal HallList.currentMonth) in E. simpl in E.
    destruct (HallList.currentMonth s =? 11) eqn:E0; simpl in E;
      [apply Z.eqb_eq in E0|]; lia.
Qed.

(** The attributes depend on the clock through the month of today only. *)
Lemma disabled_by_today tzaR rendered tza now :
  WindowPolicy.today tzaR rendered = WindowPolicy.today tza now ->
  (forall s : Calendar.State,
      Calendar.prevDisabled tzaR rendered s = Calendar.prevDisabled tza now s
      /\ Calendar.nextDisabled tzaR rendered s = Calendar.nextDisabled tza now s)
  /\ (forall s : HallList.State,
      HallList.prevDisabled tzaR rendered s = HallList.prevDisabled tza now s
      /\ HallList.nextDisabled tzaR rendered s
         = HallList.nextDisabled tza now s).
Proof.
  unfold WindowPolicy.today. intros E.
  assert (Em : JSDate.getMonth tzaR rendered = JSDate.getMonth tza now)
    by congruence.
  assert (Ey : JSDate.getFullYear tzaR rendered = JSDate.getFullYear tza now)
    by congruence.
  split; intros s; split.
  - unfold Calendar.prevDisabled. now rewrite Em, Ey.
  - unfold Calendar.nextDisabled. now rewrite Em, Ey.
  - unfold HallList.prevDisabled. now rewrite Em, Ey.
  - unfold HallList.nextDisabled. now rewrite Em, Ey.
Qed.

(** X4: the [disabled] attribute of a navigation button is what the last
    render computed, at the clock reading [rendered]; the handler reads the
    clock again at the click, [now]. As long as the month of today at the
    click is the month of today at that render, on both surfaces and in
    every state the button is disabled exactly when its handler would
    change nothing: the attribute and the early return of the handler do
    not disagree. *)
Theorem button_disabled_iff_no_move tzaR rendered tza now :
  WindowPolicy.today tzaR rendered = WindowPolicy.today tza now ->
  (forall s : Calendar.State,
      (Calendar.prevDisabled tzaR rendered s = true
       <-> Calendar.handlePrevMonth tza now s = s)
      /\ (Calendar.nextDisabled tzaR rendered s = true
          <-> Calendar.handleNextMonth tza now s = s))
  /\ (forall s : HallList.State,
      (HallList.prevDisabled tzaR rendered s = true
       <-> HallList.handlePrevMonth tza now s = s)
      /\ (HallList.nextDisabled tzaR rendered s = true
          <-> HallList.handleNextMonth tza now s = s)).
Proof.
  intros Hsame.
  destruct (disabled_by_today tzaR rendered tza now Hsame) as [Hc Hh].
  destruct (disabled_iff_no_move_at_one_clock tza now) as [Kc Kh].
  split; intros s.
  - destruct (Hc s) as [-> ->]. exact (Kc s).
  - destruct (Hh s) as [-> ->]. exact (Kh s).
Qed.

Lemma button_disabled_iff_no_move_witness :
  let s := Calendar.init 0 Sample.jan15 in
  Calendar.prevDisabled 0 Sample.jan15 s = true
  /\ Calendar.handlePrevMonth Sample.ist (Sample.jan15 + 1000) s = s.
Proof.
  assert (Hsame : WindowPolicy.today 0 Sample.jan15
                  = WindowPolicy.today Sample.ist (Sample.jan15 + 1000))
    by (vm_compute; reflexivity).
  assert (Hd : Calendar.prevDisabled 0 Sample.jan15
                 (Calendar.init 0 Sample.jan15) = true)
    by (vm_compute; reflexivity).
  split; [exact Hd|].
  exact (proj1 (proj1 (proj1 (button_disabled_iff_no_move
                                0 Sample.jan15 Sample.ist (Sample.jan15 + 1000)
                                Hsame)
                             (Calendar.init 0 Sample.jan15)))
               Hd).
Defined.

(** X5: with the clock in one month, [k] presses of Next from mounting show
    the month [min k horizon] months after today's, and [k] presses of
    Previous from a month of the window show the month [k] months before,
    but not before today's: the single-hall surface can show 37 months, the
    multi-hall surface 3. *)
Theorem presses_count_months tza now (k : nat) :
  (let s := Nat.iter k (Calendar.handleNextMonth tza now)
                     (Calendar.init tza now) in
   0 <= Calendar.currentMonth s <= 11
   /\ WindowPolicy.monthIndex (Calendar.cursor s)
      = WindowPolicy.monthIndex (WindowPolicy.today tza now)
        + Z.min (Z.of_nat k) 36
   /\ forall j : nat,
       let s' := Nat.iter j (Calendar.handlePrevMonth tza now) s in
       0 <= Calendar.currentMonth s' <= 11
       /\ WindowPolicy.monthIndex (Calendar.cursor s')
          = WindowPolicy.monthIndex (WindowPolicy.today tza now)
            + Z.max (Z.min (Z.of_nat k) 36 - Z.of_nat j) 0)
  /\ (let s := Nat.iter k (HallList.handleNextMonth tza now)
                        (HallList.init tza now) in
      0 <= HallList.currentMonth s <= 11
      /\ WindowPolicy.monthIndex (HallList.cursor s)
         = WindowPolicy.monthIndex (WindowPolicy.today tza now)
           + Z.min (Z.of_nat k) 2
      /\ forall j : nat,
          let s' := Nat.iter j (HallList.handlePrevMonth tza now) s in
          0 <= HallList.currentMonth s' <= 11
          /\ WindowPolicy.monthIndex (HallList.cursor s')
             = WindowPolicy.monthIndex (WindowPolicy.today tza now)
               + Z.max (Z.min (Z.of_nat k) 2 - Z.of_nat j) 0).
Proof.
  split; cbv zeta.
  - assert (Hk : Calendar.cursor
                   (Nat.iter k (Calendar.handleNextMonth tza now)
                      (Calendar.init tza now))
                 = Nat.iter k (WindowPolicy.nextMonth 36 tza now)
                     (WindowPolicy.today tza now))
      by apply (CalendarFacts.calendar_cursor_iter _ _
                  (CalendarFacts.calendar_cursor_next tza now)).
    assert (Hj : forall j,
               Calendar.cursor
                 (Nat.iter j (Calendar.handlePrevMonth tza now)
                    (Nat.iter k (Calendar.handleNextMonth tza now)
                       (Calendar.init tza now)))
               = Nat.iter j (WindowPolicy.prevMonth tza now)
                   (Nat.iter k (WindowPolicy.nextMonth 36 tza now)
                      (WindowPolicy.today tza now))).
    { intros j. rewrite (CalendarFacts.calendar_cursor_iter _ _
                           (CalendarFacts.calendar_cursor_prev tza now)).
      now rewrite Hk. }
    destruct (NavigationFacts.presses_closed_form 36 tza now k 0 ltac:(lia))
      as (Hv & Hi & _).
    rewrite <- Hk in Hv, Hi.
    split; [exact Hv|]. split; [exact Hi|]. intros j.
    destruct (NavigationFacts.presses_closed_form 36 tza now k j ltac:(lia))
      as (_ & _ & Hv' & Hi').
    rewrite <- Hj in Hv', Hi'. split; [exact Hv' | exact Hi'].
  - assert (Hk : HallList.cursor
                   (Nat.iter k (HallList.handleNextMonth tza now)
                      (HallList.init tza now))
                 = Nat.iter k (WindowPolicy.nextMonth 2 tza now)
                     (WindowPolicy.today tza now))
      by apply (HallListFacts.halllist_cursor_iter _ _
                  (HallListFacts.halllist_cursor_next tza now)).
    assert (Hj : forall j,
               HallList.cursor
                 (Nat.iter j (HallList.handlePrevMonth tza now)
                    (Nat.iter k (HallList.handleNextMonth tza now)
                       (HallList.init tza now)))
               = Nat.iter j (WindowPolicy.prevMonth tza now)
                   (Nat.iter k (WindowPolicy.nextMonth 2 tza now)
                      (WindowPolicy.today tza now))).
    { intros j. rewrite (HallListFacts.halllist_cursor_iter _ _
                           (HallListFacts.halllist_cursor_prev tza now)).
      now rewrite Hk. }
    destruct (NavigationFacts.presses_closed_form 2 tza now k 0 ltac:(lia))
      as (Hv & Hi & _).
    rewrite <- Hk in Hv, Hi.
    split; [exact Hv|]. split; [exact Hi|]. intros j.
    destruct (NavigationFacts.presses_closed_form 2 tza now k j ltac:(lia))
      as (_ & _ & Hv' & Hi').
    rewrite <- Hj in Hv', Hi'. split; [exact Hv' | exact Hi'].
Qed.

(** X6: inside the window Previous undoes Next and Next undoes Previous,
    giving back the whole state: from a month at or after today's and
    before the horizon's end, Next then Previous changes nothing; from a
    month after today's and not after the horizon's end, Previous then Next
    changes nothing. *)
Theorem next_and_previous_undo_each_other tza now :
  (forall s : Calendar.State,
      0 <= Calendar.currentMonth s <= 11 ->
      (WindowPolicy.monthIndex (WindowPolicy.today tza now)
         <= WindowPolicy.monthIndex (Calendar.cursor s)
         < WindowPolicy.monthIndex (WindowPolicy.today tza now) + 36 ->
       Calendar.handlePrevMonth tza now (Calendar.handleNextMonth tza now s) = s)
      /\ (WindowPolicy.monthIndex (WindowPolicy.today tza now)
            < WindowPolicy.monthIndex (Calendar.cursor s)
            <= WindowPolicy.monthIndex (WindowPolicy.today tza now) + 36 ->
          Calendar.handleNextMonth tza now (Calendar.handlePrevMonth tza now s)
          = s))
  /\ (forall s : HallList.State,
      0 <= HallList.currentMonth s <= 11 ->
      (WindowPolicy.monthIndex (WindowPolicy.today tza now)
         <= WindowPolicy.monthIndex (HallList.cursor s)
         < WindowPolicy.monthIndex (WindowPolicy.today tza now) + 2 ->
       HallList.handlePrevMonth tza now (HallList.handleNextMonth tza now s) = s)
      /\ (WindowPolicy.monthIndex (WindowPolicy.today tza now)
            < WindowPolicy.monthIndex (HallList.cursor s)
            <= WindowPolicy.monthIndex (WindowPolicy.today tza now) + 2 ->
          HallList.handleNextMonth tza now (HallList.handlePrevMonth tza now s)
          = s)).
Proof.
  split; intros s Hv; split; intros Hi.
  - apply NavigationFacts.calendar_state_eq.
    + rewrite CalendarFacts.calendar_cursor_prev,
              CalendarFacts.calendar_cursor_next.
      apply NavigationFacts.prev_next_cursor;
        [discriminate | exact Hv | exact Hi].
    + now rewrite CalendarFacts.calendar_data_prev,
                  CalendarFacts.calendar_data_next.
  - apply NavigationFacts.calendar_state_eq.
    + rewrite CalendarFacts.calendar_cursor_next,
              CalendarFacts.calendar_cursor_prev.
      apply NavigationFacts.next_prev_cursor;
        [discriminate | exact Hv | exact Hi].
    + now rewrite CalendarFacts.calendar_data_next,
                  CalendarFacts.calendar_data_prev.
  - apply NavigationFacts.halllist_state_eq.
    + rewrite HallListFacts.halllist_cursor_prev,
              HallListFacts.halllist_cursor_next.
      apply NavigationFacts.prev_next_cursor;
        [discriminate | exact Hv | exact Hi].
    + now rewrite HallListFacts.halllist_data_prev,
                  HallListFacts.halllist_data_next.
  - apply NavigationFacts.halllist_state_eq.
    + rewrite HallListFacts.halllist_cursor_next,
              HallListFacts.halllist_cursor_prev.
      apply NavigationFacts.next_prev_cursor;
        [discriminate | exact Hv | exact Hi].
    + now rewrite HallListFacts.halllist_data_next,
                  HallListFacts.halllist_data_prev.
Qed.

Lemma next_and_previous_undo_each_other_witness :
  let c := Calendar.init 0 Sample.jan15 in
  let h := HallList.handleNextMonth 0 Sample.jan15
             (HallList.init 0 Sample.jan15) in
  Calendar.handlePrevMonth 0 Sample.jan15
    (Calendar.handleNextMonth 0 Sample.jan15 c) = c
  /\ HallList.handleNextMonth 0 Sample.jan15
       (HallList.handlePrevMonth 0 Sample.jan15 h) = h.
Proof.
  assert (Hc : 0 <= Calendar.currentMonth (Calendar.init 0 Sample.jan15) <= 11)
    by (vm_compute; split; discriminate).
  assert (Hci : WindowPolicy.monthIndex (WindowPolicy.today 0 Sample.jan15)
                <= WindowPolicy.monthIndex
                     (Calendar.cursor (Calendar.init 0 Sample.jan15))
                < WindowPolicy.monthIndex (WindowPolicy.today 0 Sample.jan15) + 36)
    by (vm_compute; split; [discriminate | reflexivity]).
  assert (Hh : 0 <= HallList.currentMonth
                      (HallList.handleNextMonth 0 Sample.jan15
                         (HallList.init 0 Sample.jan15)) <= 11)
    by (vm_compute; split; discriminate).
  assert (Hhi : WindowPolicy.monthIndex (WindowPolicy.today 0 Sample.jan15)
                < WindowPolicy.monthIndex
                    (HallList.cursor
                       (HallList.handleNextMonth 0 Sample.jan15
                          (HallList.init 0 Sample.jan15)))
                <= WindowPolicy.monthIndex (WindowPolicy.today 0 Sample.jan15) + 2)
    by (vm_compute; split; [reflexivity | discriminate]).
  split.
  - exact (proj1 (proj1 (next_and_previous_undo_each_other 0 Sample.jan15)
                        _ Hc) Hci).
  - exact (proj2 (proj2 (next_and_previous_undo_each_other 0 Sample.jan15)
                        _ Hh) Hhi).
Defined.

(** ** More on the fetched records *)

Module RecordFacts.

(** The records that a payload leaves in the state of each surface. *)
Lemma calendar_run_data hallId events :
  forall (s : Calendar.State) (last : option (list API.Item)),
    Calendar.availabilityData s
    = match last with
      | Some data =>
          List.map Calendar.normalize
            (List.filter (fun item => API.hall_id (API.hall item) =? hallId) data)
      | None => []
      end ->
    Calendar.availabilityData (Calendar.run hallId s events)
    = match fold_left (fun last e =>
                         match e with
                         | Calendar.Fetched (Resolved result) =>
                             if API.statusCode result =? 200
                             then Some (API.data result) else last
                         | _ => last
                         end) events last with
      | Some data =>
          List.map Calendar.normalize
            (List.filter (fun item => API.hall_id (API.hall item) =? hallId) data)
      | None => []
      end.
Proof.
  induction events as [|e events IH]; intros s last Hs; [exact Hs|].
  simpl. apply IH.
  destruct e as [[result|err]|tza now|tza now]; simpl.
  - destruct (API.statusCode result =? 200); [reflexivity | exact Hs].
  - exact Hs.
  - now rewrite CalendarFacts.calendar_data_prev.
  - now rewrite CalendarFacts.calendar_data_next.
Qed.

Lemma halllist_run_data events :
  forall (s : HallList.State) (last : option (list API.Item)),
    HallList.availabilityData s
    = match last with
      | Some data => fold_left HallList.groupItem data ∅
      | None => ∅
      end ->
    HallList.availabilityData (HallList.run s events)
    = match fold_left (fun last e =>
                         match e with
                         | HallList.Fetched (Resolved result) =>
                             if API.statusCode result =? 200
                             then Some (API.data result) else last
                         | _ => last
                         end) events last with
      | Some data => fold_left HallList.groupItem data ∅
      | None => ∅
      end.
Proof.
  induction events as [|e events IH]; intros s last Hs; [exact Hs|].
  simpl. apply IH.
  destruct e as [[result|err]|tza now|tza now]; simpl.
  - destruct (API.statusCode result =? 200); [reflexivity | exact Hs].
  - exact Hs.
  - now rewrite HallListFacts.halllist_data_prev.
  - now rewrite HallListFacts.halllist_data_next.
Qed.

Lemma normalize_same item : HallList.normalize item = Calendar.normalize item.
Proof. reflexivity. Qed.

Lemma find_app_some {A} (p : A -> bool) (l l' : list A) x :
  List.find p l = Some x -> List.find p (l ++ l') = Some x.
Proof.
  induction l as [|y l IH]; simpl; [discriminate|].
  destruct (p y); [trivial | exact IH].
Qed.

End RecordFacts.

(** The records of the single-hall surface over the changes of its
    [hallId] prop. *)
Lemma calendar_runProps_data events :
  forall (s : Calendar.State) (last : option (Z * list API.Item)),
    Calendar.availabilityData s
    = match last with
      | Some (hallId, data) =>
          List.map Calendar.normalize
            (List.filter (fun item => API.hall_id (API.hall item) =? hallId) data)
      | None => []
      end ->
    Calendar.availabilityData (Calendar.runProps s events)
    = match fold_left (fun last e =>
                         match e with
                         | Calendar.FetchedFor hallId (Resolved result) =>
                             if API.statusCode result =? 200
                             then Some (hallId, API.data result) else last
                         | _ => last
                         end) events last with
      | Some (hallId, data) =>
          List.map Calendar.normalize
            (List.filter (fun item => API.hall_id (API.hall item) =? hallId) data)
      | None => []
      end.
Proof.
  induction events as [|e events IH]; intros s last Hs; [exact Hs|].
  simpl. apply IH.
  destruct e as [hallId [result|err]|tza now|tza now]; simpl.
  - destruct (API.statusCode result =? 200); [reflexivity | exact Hs].
  - exact Hs.
  - now rewrite CalendarFacts.calendar_data_prev.
  - now rewrite CalendarFacts.calendar_data_next.
Qed.

(** X7: the single-hall surface fetches on mounting and again when its
    [hallId] prop changes, each fetch filtering for the [hallId] it was
    started with; the multi-hall surface fetches on mounting. Whatever the
    order of completed fetches and presses since mounting, the records a
    surface holds are those of the last fetch that came back with status
    200, and none before the first such fetch: on the single-hall surface
    the records of that payload for the hall that fetch was started with,
    which is not the hall of the current prop when the fetch for a new hall
    has failed. Failed fetches and navigation leave the records as they
    are, and a successful fetch replaces them all. *)
Theorem records_are_last_payload tza now :
  (forall events,
      Calendar.availabilityData
        (Calendar.runProps (Calendar.init tza now) events)
      = match Calendar.lastFetchedFor events with
        | Some (hallId, data) =>
            List.map Calendar.normalize
              (List.filter (fun item => API.hall_id (API.hall item) =? hallId)
                           data)
        | None => []
        end)
  /\ (forall events,
      HallList.availabilityData (HallList.run (HallList.init tza now) events)
      = match HallList.lastPayload events with
        | Some data => fold_left HallList.groupItem data ∅
        | None => ∅
        end).
Proof.
  split.
  - intros events.
    now apply (calendar_runProps_data events _ None).
  - intros events.
    now apply (RecordFacts.halllist_run_data events _ None).
Qed.

(** X8: after the same payload the two surfaces hold the same records for
    a hall: the array the multi-hall surface keeps under the hall's id is
    the list the single-hall surface of that hall keeps, in payload order;
    a hall without a record in the payload has no entry at all. Both find
    the same record for every day. *)
Theorem grouping_agrees_with_filter result hallId :
  API.statusCode result = 200 ->
  forall (c : Calendar.State) (h : HallList.State),
    let c' := fst (Calendar.fetchAvailability hallId (Resolved result) c) in
    let h' := fst (HallList.fetchAvailability (Resolved result) h) in
    HallList.availabilityData h' !! hallId
      = match Calendar.availabilityData c' with
        | [] => None
        | records => Some records
        end
    /\ forall day, HallList.findDay h' hallId day = Calendar.findDay c' day.
Proof.
  intros H200 c h. cbv zeta. split.
  - unfold HallList.fetchAvailability, Calendar.fetchAvailability.
    rewrite H200. simpl.
    rewrite AvailabilityFacts.grouped_lookup, lookup_empty.
    destruct (List.filter _ (API.data result)); reflexivity.
  - intros day.
    rewrite AvailabilityFacts.halllist_findDay_refreshed,
            AvailabilityFacts.calendar_findDay_refreshed by assumption.
    reflexivity.
Qed.

Lemma grouping_agrees_with_filter_witness :
  HallList.findDay
    (fst (HallList.fetchAvailability
            (Sample.ok [Sample.record (Some "Wedding") true])
            (HallList.init 0 Sample.jan15))) 1 "2025-06-10"
  = Calendar.findDay
      (fst (Calendar.fetchAvailability 1
              (Sample.ok [Sample.record (Some "Wedding") true])
              (Calendar.init 0 Sample.jan15))) "2025-06-10".
Proof.
  exact (proj2 (grouping_agrees_with_filter
                  {| API.statusCode := 200; API.message := "OK";
                     API.data := [Sample.record (Some "Wedding") true] |}
                  1 eq_refl (Calendar.init 0 Sample.jan15)
                  (HallList.init 0 Sample.jan15)) "2025-06-10").
Defined.

(** X9: after a refresh, whether a click selects a day is decided by the
    first record of the payload for the hall and the day alone: without one
    the day is selected; with one, the single-hall surface selects unless
    the record is booked or its reason is "On hold", and the multi-hall
    surface selects unless it is booked. Further records of the payload for
    the same hall and day are never looked at. *)
Theorem first_record_decides result hallId day :
  API.statusCode result = 200 ->
  forall (c : Calendar.State) (h : HallList.State),
    Calendar.click hallId
      (fst (Calendar.fetchAvailability hallId (Resolved result) c)) day
    = match List.find (isFor hallId day) (API.data result) with
      | None => Some (hallId, day)
      | Some item =>
          if API.is_booked item
             || String.eqb (orAvailable (API.reason item)) "On hold"
          then None else Some (hallId, day)
      end
    /\ HallList.click
         (fst (HallList.fetchAvailability (Resolved result) h)) hallId day
       = match List.find (isFor hallId day) (API.data result) with
         | None => Some (hallId, day)
         | Some item =>
             if API.is_booked item then None else Some (hallId, day)
         end.
Proof.
  intros H200 c h. split.
  - rewrite SelectionFacts.calendar_click_status.
    rewrite AvailabilityFacts.calendar_findDay_refreshed by assumption.
    destruct (List.find _ (API.data result)) as [item|]; [|reflexivity].
    unfold Calendar.statusOf. simpl.
    destruct (API.is_booked item); [reflexivity|]. simpl.
    now destruct (String.eqb _ "On hold").
  - rewrite SelectionFacts.halllist_click_status.
    rewrite AvailabilityFacts.halllist_findDay_refreshed by assumption.
    destruct (List.find _ (API.data result)) as [item|]; [|reflexivity].
    unfold HallList.statusOf. simpl.
    now destruct (API.is_booked item).
Qed.

Lemma first_record_decides_witness :
  HallList.click
    (fst (HallList.fetchAvailability
            (Sample.ok [Sample.record (Some "Enquiry") false;
                        Sample.record (Some "Wedding") true])
            (HallList.init 0 Sample.jan15))) 1 "2025-06-10"
  = Some (1, "2025-06-10").
Proof.
  exact (proj2 (first_record_decides
                  {| API.statusCode := 200; API.message := "OK";
                     API.data := [Sample.record (Some "Enquiry") false;
                                  Sample.record (Some "Wedding") true] |}
                  1 "2025-06-10" eq_refl
                  (Calendar.init 0 Sample.jan15)
                  (HallList.init 0 Sample.jan15))).
Defined.

(** X10: in every state a surface can reach, each stored record has a
    reason that is not empty and a date without a [T] in it, whatever the
    payloads held; on the multi-hall surface no hall has an empty array. *)
Theorem stored_records_normalized :
  (forall hallId s,
      Calendar.reachable hallId s ->
      Forall (fun a => reason a <> "" /\ hasT (date a) = false)
             (Calendar.availabilityData s))
  /\ (forall s,
      HallList.reachable s ->
      forall h l,
        HallList.availabilityData s !! h = Some l ->
        l <> []
        /\ Forall (fun a => reason a <> "" /\ hasT (date a) = false) l).
Proof.
  assert (Hnorm : forall items,
             Forall (fun a => reason a <> "" /\ hasT (date a) = false)
                    (List.map Calendar.normalize items)).
  { intros items. apply Forall_forall. intros a Ha.
    apply list_elem_of_In, in_map_iff in Ha as (item & <- & _). simpl.
    split; [apply AvailabilityFacts.orAvailable_nonempty
           | apply TextFacts.beforeT_noT]. }
  split.
  - intros hallId s (tza & now & events & ->).
    rewrite (RecordFacts.calendar_run_data hallId events
               (Calendar.init tza now) None eq_refl).
    destruct (fold_left _ events None) as [data|]; [apply Hnorm | constructor].
  - intros s (tza & now & events & ->) h l.
    rewrite (RecordFacts.halllist_run_data events
               (HallList.init tza now) None eq_refl).
    destruct (fold_left _ events None) as [data|].
    + rewrite AvailabilityFacts.grouped_lookup, lookup_empty.
      destruct (List.filter _ data) as [|item items] eqn:E; [discriminate|].
      intros [= <-]. split; [discriminate|]. apply (Hnorm (item :: items)).
    + rewrite lookup_empty. discriminate.
Qed.

Lemma stored_records_normalized_witness :
  let s := Calendar.run 1 (Calendar.init 0 Sample.jan15)
             [Calendar.Fetched (Sample.ok [Sample.record (Some "") false]);
              Calendar.NextPressed 0 Sample.jan15] in
  Forall (fun a => reason a <> "" /\ hasT (date a) = false)
         (Calendar.availabilityData s).
Proof.
  apply (proj1 stored_records_normalized 1).
  exists 0, Sample.jan15. eexists. reflexivity.
Defined.

(** ** The colour of a reason *)

(** X11: the colour of a reason goes by the first of the words Wedding,
    Upanayana, Reception, Available that occurs in it as a substring: a
    reason is blue exactly when it contains "Wedding", and purple on the
    single-hall surface exactly when it contains none of the five words. The
    two surfaces give the same colour except for a reason that contains
    "On hold" and none of the four words, which is orange on the single-hall
    surface and purple on the multi-hall one. *)
Theorem reason_colour_by_substring reason :
  (Calendar.getReasonColor reason = "text-blue-600"
   <-> exists a b, reason = a +:+ "Wedding" +:+ b)
  /\ (HallList.getReasonColor reason = "text-blue-600"
      <-> exists a b, reason = a +:+ "Wedding" +:+ b)
  /\ (Calendar.getReasonColor reason = "text-purple-600"
      <-> forall word,
          In word ["Wedding"; "Upanayana"; "Reception"; "Available"; "On hold"] ->
          ~ exists a b, reason = a +:+ word +:+ b)
  /\ (Calendar.getReasonColor reason = HallList.getReasonColor reason
      \/ (Calendar.getReasonColor reason = "text-orange-600"
          /\ HallList.getReasonColor reason = "text-purple-600"
          /\ exists a b, reason = a +:+ "On hold" +:+ b)).
Proof.
  pose proof (TextFacts.includes_spec reason "Wedding") as Hw.
  pose proof (TextFacts.includes_spec reason "Upanayana") as Hu.
  pose proof (TextFacts.includes_spec reason "Reception") as Hr.
  pose proof (TextFacts.includes_spec reason "Available") as Ha.
  pose proof (TextFacts.includes_spec reason "On hold") as Ho.
  unfold Calendar.getReasonColor, HallList.getReasonColor.
  destruct (includes reason "Wedding") eqn:Ew.
  { split; [tauto|]. split; [tauto|]. split; [|now left].
    split; [discriminate|]. intros H. exfalso.
    apply (H "Wedding"); [now left | tauto]. }
  assert (Hnw : ~ exists a b, reason = a +:+ "Wedding" +:+ b)
    by (intros H; apply Hw in H; discriminate).
  split; [|split].
  - split; [|tauto].
    destruct (includes reason "Upanayana"), (includes reason "Reception"),
      (includes reason "Available"), (includes reason "On hold"); discriminate.
  - split; [|tauto].
    destruct (includes reason "Upanayana"), (includes reason "Reception"),
      (includes reason "Available"); discriminate.
  - destruct (includes reason "Upanayana") eqn:Eu.
    { split; [|now left]. split; [discriminate|]. intros H. exfalso.
      apply (H "Upanayana"); [right; now left | tauto]. }
    destruct (includes reason "Reception") eqn:Er.
    { split; [|now left]. split; [discriminate|]. intros H. exfalso.
      apply (H "Reception"); [right; right; now left | tauto]. }
    destruct (includes reason "Available") eqn:Ea.
    { split; [|now left]. split; [discriminate|]. intros H. exfalso.
      apply (H "Available"); [right; right; right; now left | tauto]. }
    destruct (includes reason "On hold") eqn:Eo.
    { split.
      - split; [discriminate|]. intros H. exfalso.
        apply (H "On hold"); [right; right; right; right; now left | tauto].
      - right. split; [reflexivity|]. split; [reflexivity | tauto]. }
    split; [|now left]. split; [|reflexivity].
    intros _ word Hin H.
    destruct Hin as [<- | [<- | [<- | [<- | [<- | []]]]]].
    + apply Hw in H. discriminate.
    + apply Hu in H. discriminate.
    + apply Hr in H. discriminate.
    + apply Ha in H. discriminate.
    + apply Ho in H. discriminate.
Qed.

(** X12: the guard inside [onClick] and the [disabled] attribute of a day's
    button never disagree: on both surfaces the button is disabled exactly
    when [onClick] would select nothing, and exactly then its class is the
    one with [cursor-not-allowed]. *)
Theorem guard_agrees_with_disabled :
  (forall hallId s day,
      (disabled (Calendar.dayView s day) = true
       <-> Calendar.onClick hallId s day = None)
      /\ includes (className (Calendar.dayView s day)) "cursor-not-allowed"
         = disabled (Calendar.dayView s day))
  /\ (forall s hallId day,
      (disabled (HallList.dayView s hallId day) = true
       <-> HallList.onClick s hallId day = None)
      /\ includes (className (HallList.dayView s hallId day))
                  "cursor-not-allowed"
         = disabled (HallList.dayView s hallId day)).
Proof.
  split.
  - intros hallId s day.
    unfold Calendar.onClick, Calendar.dayView, Calendar.statusOf. simpl.
    destruct (Calendar.booked _), (Calendar.onHold _); simpl;
      (split; [split; [reflexivity || discriminate
                      | reflexivity || discriminate]
              | vm_compute; reflexivity]).
  - intros s hallId day.
    unfold HallList.onClick, HallList.dayView, HallList.statusOf. simpl.
    destruct (HallList.booked _); simpl;
      (split; [split; [reflexivity || discriminate
                      | reflexivity || discriminate]
              | vm_compute; reflexivity]).
Qed.

(** ** The news page *)

Module NewsFacts.
Import News.

Lemma state_eq (s : State) :
  setCurrentImageIndex s (currentImageIndex s) = s.
Proof. now destruct s. Qed.

(** Next and Previous on an index inside [n] images. *)
Lemma next_index i n :
  0 <= i < n ->
  remainder (add (Int i) 1) n = Int ((i + 1) mod n).
Proof.
  intros H. simpl. destruct (n =? 0) eqn:E; [apply Z.eqb_eq in E; lia|].
  now rewrite Z.rem_mod_nonneg by lia.
Qed.

Lemma prev_index i n :
  0 <= i < n ->
  remainder (add (add (Int i) (-1)) n) n = Int ((i - 1) mod n).
Proof.
  intros H. simpl. destruct (n =? 0) eqn:E; [apply Z.eqb_eq in E; lia|].
  rewrite Z.rem_mod_nonneg by lia. f_equal.
  replace (i + -1 + n) with (i - 1 + 1 * n) by lia.
  now rewrite Z.mod_add by lia.
Qed.

Lemma navigate_next s detail i :
  zoomedAt s detail i ->
  navigateImage next s
  = setCurrentImageIndex s
      (Some (Int ((i + 1) mod Z.of_nat (List.length (images detail))))).
Proof.
  intros (Hi & Hd & Hr). unfold navigateImage. rewrite Hi, Hd.
  now rewrite next_index.
Qed.

Lemma navigate_prev s detail i :
  zoomedAt s detail i ->
  navigateImage prev s
  = setCurrentImageIndex s
      (Some (Int ((i - 1) mod Z.of_nat (List.length (images detail))))).
Proof.
  intros (Hi & Hd & Hr). unfold navigateImage. rewrite Hi, Hd.
  now rewrite prev_index.
Qed.

Lemma zoomedAt_set s detail j :
  newsDetail s = Some detail ->
  0 <= j < Z.of_nat (List.length (images detail)) ->
  zoomedAt (setCurrentImageIndex s (Some (Int j))) detail j.
Proof. intros Hd Hj. repeat split; try assumption; lia. Qed.

Lemma set_set s a b :
  setCurrentImageIndex (setCurrentImageIndex s a) b = setCurrentImageIndex s b.
Proof. reflexivity. Qed.

Lemma inRange_cases s :
  indexInRange s ->
  currentImageIndex s = None \/ exists detail i, zoomedAt s detail i.
Proof.
  unfold indexInRange, zoomedAt.
  destruct (currentImageIndex s) as [index|]; [|now left].
  intros (i & detail & -> & Hd & Hr). right. exists detail, i. auto.
Qed.

Lemma zoomedAt_inRange s detail i : zoomedAt s detail i -> indexInRange s.
Proof.
  intros (Hi & Hd & Hr). unfold indexInRange. rewrite Hi.
  exists i, detail. auto.
Qed.

Lemma navigate_closed d s : currentImageIndex s = None -> navigateImage d s = s.
Proof. intros H. unfold navigateImage. now rewrite H. Qed.

(** [k] presses of the right arrow move the index [k] places round. *)
Lemma navigate_next_iter s detail i (k : nat) :
  zoomedAt s detail i ->
  Nat.iter k (navigateImage next) s
  = setCurrentImageIndex s
      (Some (Int ((i + Z.of_nat k) mod Z.of_nat (List.length (images detail))))).
Proof.
  intros Hz. pose proof Hz as (Hi & Hd & Hr).
  induction k as [|k IH].
  - simpl. rewrite Z.add_0_r, Z.mod_small by lia.
    rewrite <- Hi. symmetry. apply state_eq.
  - rewrite Nat.iter_succ, IH.
    rewrite (navigate_next _ detail
               ((i + Z.of_nat k) mod Z.of_nat (List.length (images detail)))).
    + rewrite set_set. do 3 f_equal.
      rewrite Zplus_mod_idemp_l. f_equal. lia.
    + apply zoomedAt_set; [exact Hd|]. apply Z.mod_pos_bound. lia.
Qed.

End NewsFacts.

(** X13: in the modal the arrows walk round the images: with the zoomed
    index a position of the images, the left arrow undoes the right one and
    the right arrow the left one, and as many presses of the right arrow as
    there are images lead back to the image one started from. With the
    modal closed the arrows do nothing. *)
Theorem arrows_walk_round s :
  News.indexInRange s ->
  News.navigateImage News.prev (News.navigateImage News.next s) = s
  /\ News.navigateImage News.next (News.navigateImage News.prev s) = s
  /\ (forall detail,
         News.newsDetail s = Some detail ->
         Nat.iter (List.length (News.images detail))
                  (News.navigateImage News.next) s = s)
  /\ (News.currentImageIndex s = None ->
      forall d, News.navigateImage d s = s).
Proof.
  intros Hin.
  destruct (NewsFacts.inRange_cases s Hin) as [Hnone | (detail & i & Hz)].
  - pose proof (NewsFacts.navigate_closed News.next s Hnone) as Hn.
    pose proof (NewsFacts.navigate_closed News.prev s Hnone) as Hp.
    rewrite Hn, Hp, Hn.
    split; [reflexivity|]. split; [reflexivity|]. split.
    + intros detail _. induction (List.length (News.images detail)) as [|k IH];
        [reflexivity|].
      rewrite Nat.iter_succ, IH. now apply NewsFacts.navigate_closed.
    + intros _ d. now apply NewsFacts.navigate_closed.
  - pose proof Hz as (Hi & Hd & Hr).
    set (n := Z.of_nat (List.length (News.images detail))) in *.
    assert (Hs : News.setCurrentImageIndex s (Some (News.Int i)) = s)
      by (rewrite <- Hi; apply NewsFacts.state_eq).
    split; [|split; [|split]].
    + rewrite (NewsFacts.navigate_next s detail i Hz).
      rewrite (NewsFacts.navigate_prev _ detail ((i + 1) mod n)).
      * rewrite NewsFacts.set_set. rewrite Zminus_mod_idemp_l.
        replace (i + 1 - 1) with i by lia.
        rewrite Z.mod_small by lia. exact Hs.
      * apply NewsFacts.zoomedAt_set; [exact Hd|].
        apply Z.mod_pos_bound. lia.
    + rewrite (NewsFacts.navigate_prev s detail i Hz).
      rewrite (NewsFacts.navigate_next _ detail ((i - 1) mod n)).
      * rewrite NewsFacts.set_set. rewrite Zplus_mod_idemp_l.
        replace (i - 1 + 1) with i by lia.
        rewrite Z.mod_small by lia. exact Hs.
      * apply NewsFacts.zoomedAt_set; [exact Hd|].
        apply Z.mod_pos_bound. lia.
    + intros detail' Hd'. rewrite Hd in Hd'. injection Hd' as <-.
      rewrite (NewsFacts.navigate_next_iter s detail i _ Hz).
      fold n. replace (i + n) with (i + 1 * n) by lia.
      rewrite Z.mod_add by lia. rewrite Z.mod_small by lia. exact Hs.
    + intros Hnone. rewrite Hnone in Hi. discriminate.
Qed.

Lemma arrows_walk_round_witness :
  let s := News.handleImageClick 2 Sample.loaded in
  News.navigateImage News.prev (News.navigateImage News.next s) = s
  /\ Nat.iter 3 (News.navigateImage News.next) s = s.
Proof.
  assert (Hin : News.indexInRange (News.handleImageClick 2 Sample.loaded)).
  { simpl. exists 2. eexists. repeat split; simpl; lia. }
  split.
  - exact (proj1 (arrows_walk_round _ Hin)).
  - exact (proj1 (proj2 (proj2 (arrows_walk_round _ Hin))) _ eq_refl).
Defined.

Module NewsViewFacts.
Import News.

Lemma imageAt_inRange (l : list Image) i :
  0 <= i < Z.of_nat (List.length l) -> exists image, imageAt l (Int i) = Some image.
Proof.
  intros H. simpl. destruct (i <? 0) eqn:E; [apply Z.ltb_lt in E; lia|].
  destruct (nth_error l (Z.to_nat i)) as [image|] eqn:En; [now exists image|].
  apply nth_error_None in En. lia.
Qed.

Lemma imageAt_beyond (l : list Image) i :
  Z.of_nat (List.length l) <= i -> imageAt l (Int i) = None.
Proof.
  intros H. simpl. destruct (i <? 0) eqn:E; [reflexivity|].
  apply nth_error_None. lia.
Qed.

Lemma modal_found s : indexInRange s -> modalOf s <> ModalThrows.
Proof.
  intros Hin. unfold modalOf.
  destruct (NewsFacts.inRange_cases s Hin) as [-> | (detail & i & Hi & Hd & Hr)];
    [discriminate|].
  rewrite Hi, Hd. destruct (imageAt_inRange _ i Hr) as [image ->].
  discriminate.
Qed.

Lemma fetch_index newsId r s :
  currentImageIndex (fst (fetchNewsDetail newsId r s)) = currentImageIndex s.
Proof.
  unfold fetchNewsDetail. destruct (noId newsId); [reflexivity|].
  now destruct r.
Qed.

Lemma step_loading s e : loading s = false -> loading (step s e) = false.
Proof.
  intros H. destruct e as [newsId r|index| |d]; simpl; try exact H.
  - unfold fetchNewsDetail. destruct (noId newsId); [exact H|]. now destruct r.
  - unfold navigateImage.
    destruct (currentImageIndex s), (newsDetail s); try exact H.
    now destruct d.
Qed.

Lemma step_error s e :
  shownError s <> None -> shownError (step s e) <> None.
Proof.
  intros H. destruct e as [newsId r|index| |d]; simpl; try exact H.
  - unfold fetchNewsDetail. destruct (noId newsId); [exact H|].
    destruct r; simpl; [exact H | discriminate].
  - unfold navigateImage.
    destruct (currentImageIndex s), (newsDetail s); try exact H.
    now destruct d.
Qed.

Lemma run_final events : forall s,
  loading s = false -> shownError s <> None ->
  loading (run s events) = false /\ shownError (run s events) <> None.
Proof.
  induction events as [|e events IH]; intros s Hl He; [now split|].
  simpl. apply IH; [now apply step_loading | now apply step_error].
Qed.

End NewsViewFacts.

(** X14: a fetch never closes or moves the modal. So when the modal is open
    on an index and a later fetch brings an item with no image at that
    index, the render throws on the image at that index. *)
Theorem zoom_is_kept_over_a_fetch :
  (forall newsId r s,
      News.currentImageIndex (fst (News.fetchNewsDetail newsId r s))
      = News.currentImageIndex s)
  /\ (forall newsId data s i,
      News.noId newsId = false ->
      News.error s = None ->
      News.currentImageIndex s = Some (News.Int i) ->
      Z.of_nat (List.length (News.NewsImages data)) <= i ->
      forall showKannada,
        News.view showKannada
          (fst (News.fetchNewsDetail newsId (News.Loaded data) s))
        = News.Throws).
Proof.
  split; [exact NewsViewFacts.fetch_index|].
  intros newsId data s i Hid Herr Hi Hlen showKannada.
  unfold News.fetchNewsDetail. rewrite Hid. simpl.
  unfold News.view, News.shownError, News.modalOf. simpl. rewrite Herr, Hi.
  rewrite NewsViewFacts.imageAt_beyond; [reflexivity|].
  now rewrite length_map.
Qed.

Lemma zoom_is_kept_over_a_fetch_witness :
  News.view false
    (fst (News.fetchNewsDetail (Some "8")
            (News.Loaded (Sample.story [Sample.photo "d"]))
            (News.handleImageClick 2 Sample.loaded)))
  = News.Throws.
Proof.
  apply (proj2 zoom_is_kept_over_a_fetch (Some "8")
           (Sample.story [Sample.photo "d"])
           (News.handleImageClick 2 Sample.loaded) 2).
  - reflexivity.
  - reflexivity.
  - reflexivity.
  - simpl. lia.
Defined.

(** X15: as long as the zoomed index is a position of the images the render
    finds the zoomed image and does not throw, and this is kept by the
    arrows, by closing, by a click on a thumbnail that is shown, by a failed
    fetch and by any fetch while the modal is closed. *)
Theorem zoomed_image_is_found s :
  News.indexInRange s ->
  (forall showKannada, News.view showKannada s <> News.Throws)
  /\ (forall d, News.indexInRange (News.navigateImage d s))
  /\ News.indexInRange (News.closeZoom s)
  /\ (forall detail (idx : nat),
         News.newsDetail s = Some detail ->
         (idx < List.length (News.images detail))%nat ->
         News.indexInRange (News.handleImageClick (Z.of_nat idx) s))
  /\ (forall newsId err,
         News.indexInRange (fst (News.fetchNewsDetail newsId (News.Threw err) s)))
  /\ (forall newsId data,
         News.currentImageIndex s = None ->
         News.indexInRange
           (fst (News.fetchNewsDetail newsId (News.Loaded data) s))).
Proof.
  intros Hin. split; [|split; [|split; [|split; [|split]]]].
  - intros showKannada. unfold News.view.
    destruct (News.loading s); [discriminate|].
    destruct (News.shownError s); [discriminate|].
    pose proof (NewsViewFacts.modal_found s Hin).
    now destruct (News.modalOf s).
  - intros d.
    destruct (NewsFacts.inRange_cases s Hin) as [Hnone | (detail & i & Hz)].
    + now rewrite NewsFacts.navigate_closed.
    + pose proof Hz as (Hi & Hd & Hr).
      destruct d.
      * rewrite (NewsFacts.navigate_prev s detail i Hz).
        eapply NewsFacts.zoomedAt_inRange, NewsFacts.zoomedAt_set;
          [exact Hd | apply Z.mod_pos_bound; lia].
      * rewrite (NewsFacts.navigate_next s detail i Hz).
        eapply NewsFacts.zoomedAt_inRange, NewsFacts.zoomedAt_set;
          [exact Hd | apply Z.mod_pos_bound; lia].
  - exact I.
  - intros detail idx Hd Hidx.
    apply (NewsFacts.zoomedAt_inRange _ detail (Z.of_nat idx)).
    apply NewsFacts.zoomedAt_set; [exact Hd | lia].
  - intros newsId err. unfold News.fetchNewsDetail.
    destruct (News.noId newsId); exact Hin.
  - intros newsId data Hnone. unfold News.fetchNewsDetail, News.indexInRange.
    destruct (News.noId newsId); simpl; now rewrite Hnone.
Qed.

Lemma zoomed_image_is_found_witness :
  News.indexInRange (News.handleImageClick 2 Sample.loaded)
  /\ News.indexInRange
       (News.navigateImage News.next (News.handleImageClick 2 Sample.loaded)).
Proof.
  assert (Hin : News.indexInRange (News.handleImageClick 2 Sample.loaded)).
  { simpl. exists 2. eexists. repeat split; simpl; lia. }
  split; [exact Hin|].
  exact (proj1 (proj2 (zoomed_image_is_found _ Hin)) News.next).
Defined.

(** X16: the spinner and the article do not come back. Once a fetch has
    completed the page never shows the spinner again, also while a later
    fetch is on its way; and once a fetch has failed, the page shows an
    error text after every later event, also after a fetch that succeeds.
    A fetch without a news id changes nothing, so the page keeps the
    spinner. *)
Theorem error_and_loaded_are_final :
  (forall newsId r s events,
      News.noId newsId = false ->
      forall showKannada,
        News.view showKannada
          (News.run (fst (News.fetchNewsDetail newsId r s)) events)
        <> News.Spinner)
  /\ (forall newsId err s events,
      News.noId newsId = false ->
      forall showKannada,
        exists message,
          News.view showKannada
            (News.run (fst (News.fetchNewsDetail newsId (News.Threw err) s))
                      events)
          = News.ErrorText message)
  /\ (forall newsId r s,
      News.noId newsId = true ->
      News.fetchNewsDetail newsId r s = (s, [])).
Proof.
  split; [|split].
  - intros newsId r s events Hid showKannada.
    assert (Hl : News.loading (fst (News.fetchNewsDetail newsId r s)) = false)
      by (unfold News.fetchNewsDetail; rewrite Hid; now destruct r).
    assert (Hrun : News.loading
                     (News.run (fst (News.fetchNewsDetail newsId r s)) events)
                   = false).
    { revert Hl. generalize (fst (News.fetchNewsDetail newsId r s)).
      induction events as [|e events IH]; intros s0 Hl; [exact Hl|].
      simpl. apply IH. now apply NewsViewFacts.step_loading. }
    unfold News.view. rewrite Hrun.
    destruct (News.shownError _); [discriminate|].
    now destruct (News.modalOf _).
  - intros newsId err s events Hid showKannada.
    destruct (NewsViewFacts.run_final events
                (fst (News.fetchNewsDetail newsId (News.Threw err) s)))
      as [Hl He].
    + unfold News.fetchNewsDetail. now rewrite Hid.
    + unfold News.fetchNewsDetail. rewrite Hid. discriminate.
    + unfold News.view. rewrite Hl.
      destruct (News.shownError _) as [message|];
        [now exists message | contradiction].
  - intros newsId r s Hid. unfold News.fetchNewsDetail. now rewrite Hid.
Qed.

Lemma error_and_loaded_are_final_witness :
  exists message,
    News.view false
      (News.run (fst (News.fetchNewsDetail (Some "7")
                        (News.Threw "TypeError: Failed to fetch") News.init))
                [News.Fetched (Some "7")
                   (News.Loaded (Sample.story [Sample.photo "a"]))])
    = News.ErrorText message.
Proof.
  exact (proj1 (proj2 error_and_loaded_are_final) (Some "7")
           "TypeError: Failed to fetch" News.init
           [News.Fetched (Some "7")
              (News.Loaded (Sample.story [Sample.photo "a"]))]
           eq_refl false).
Defined.

(** ** The timings page *)

Module TempleFacts.
Import Temple.

Lemma blocksFrom_spec total details : forall index,
  List.length (blocksFrom index total details) = List.length details
  /\ List.map blockTitle (blocksFrom index total details)
     = List.map title details
  /\ List.map blockText (blocksFrom index total details)
     = List.map description details
  /\ forall i b,
      nth_error (blocksFrom index total details) i = Some b ->
      (ruleAfter b = true <-> (S (index + i) < total)%nat).
Proof.
  induction details as [|d rest IH]; intros index; simpl.
  - repeat split; intros; destruct i; discriminate.
  - destruct (IH (S index)) as (Hlen & Ht & Hd & Hr).
    split; [now rewrite Hlen|]. split; [now rewrite Ht|].
    split; [now rewrite Hd|].
    intros [|i] b Hb; simpl in Hb.
    + injection Hb as <-. simpl. rewrite Z.ltb_lt. lia.
    + rewrite (Hr i b Hb). lia.
Qed.

End TempleFacts.

(** X17: the timings page renders its entries in order, one block for each
    with its title and description, and draws a rule after every block but
    the last: with [n] entries there are [n] blocks, and the block at
    position [i] is followed by a rule exactly when [i + 1 < n]. *)
Theorem rule_after_all_but_last details :
  List.length (Temple.blocks details) = List.length details
  /\ List.map Temple.blockTitle (Temple.blocks details)
     = List.map Temple.title details
  /\ List.map Temple.blockText (Temple.blocks details)
     = List.map Temple.description details
  /\ forall i b,
      nth_error (Temple.blocks details) i = Some b ->
      (Temple.ruleAfter b = true <-> (S i < List.length details)%nat).
Proof.
  destruct (TempleFacts.blocksFrom_spec (List.length details) details 0)
    as (Hlen & Ht & Hd & Hr).
  repeat split; try assumption; apply (Hr i b); assumption.
Qed.

(** ** The days the loop visits *)

Module LoopFacts.
Import JSDate.

Lemma no_century_quirk year :
  year < 0 \/ 99 < year -> (0 <=? year) && (year <=? 99) = false.
Proof.
  intros Hy. apply andb_false_iff.
  destruct Hy; [left | right]; apply Z.leb_gt; lia.
Qed.

Lemma DateFromDay_pos z : 1 <= DateFromDay z.
Proof.
  unfold DateFromDay, mp_of.
  pose proof (DateFacts.doy_range (doe_of z) (DateFacts.doe_range z)).
  Z.div_mod_to_equations. lia.
Qed.

(** The local midnight of the day of an instant. *)
Lemma today_midnight tza now :
  getFullYear tza now < 0 \/ 99 < getFullYear tza now ->
  fromYMD tza (getFullYear tza now) (getMonth tza now) (getDate tza now)
  = now - TimeWithinDay (LocalTime tza now).
Proof.
  intros Hy. unfold fromYMD. rewrite no_century_quirk by assumption.
  unfold getFullYear, getMonth, getDate, YearFromTime, MonthFromTime,
    DateFromTime.
  rewrite DateFacts.MakeDay_civil.
  unfold UTC, MakeDate, TimeWithinDay, Day, LocalTime.
  pose proof (Z.div_mod (now + tza) msPerDay ltac:(discriminate)). lia.
Qed.

Lemma digit_inj a b : digit a = digit b -> a mod 10 = b mod 10.
Proof.
  unfold digit. intros H.
  pose proof (Z.mod_pos_bound a 10 ltac:(lia)) as Ha.
  pose proof (Z.mod_pos_bound b 10 ltac:(lia)) as Hb.
  apply (f_equal Ascii.nat_of_ascii) in H.
  rewrite !Ascii.nat_ascii_embedding in H by lia. lia.
Qed.

Lemma pad2_inj a b :
  0 <= a < 100 -> 0 <= b < 100 -> pad 2 a "" = pad 2 b "" -> a = b.
Proof.
  intros Ha Hb H. simpl in H. injection H as H1 H0.
  apply digit_inj in H1, H0.
  pose proof (Z.div_mod a 10 ltac:(lia)). pose proof (Z.div_mod b 10 ltac:(lia)).
  assert (a / 10 = b / 10).
  { rewrite <- (Z.mod_small (a / 10) 10), <- (Z.mod_small (b / 10) 10);
      [exact H1 | |]; Z.div_mod_to_equations; lia. }
  lia.
Qed.

Lemma append_inj (a x y : string) : a +:+ x = a +:+ y -> x = y.
Proof.
  induction a as [|c a IH]; intros H; [exact H|].
  change (String c (a +:+ x) = String c (a +:+ y)) in H.
  injection H as H. now apply IH.
Qed.

Lemma ymdText_inj year month d d' :
  0 <= d < 100 -> 0 <= d' < 100 ->
  ymdText year month d = ymdText year month d' -> d = d'.
Proof.
  intros Hd Hd' H. unfold ymdText in H.
  do 4 apply append_inj in H. now apply pad2_inj.
Qed.

End LoopFacts.

(** X19: in a time zone whose offset from UTC is the same at every instant,
    zero or up to a day west of UTC, and with the bounds of today's month
    dates a [Date] can hold: once any time has passed since local midnight,
    the day list of today's month does not hold today's date; every text in
    it is the date of a later day of the month. *)
Theorem today_is_dropped_at_and_west_of_utc tza now :
  - JSDate.msPerDay < tza <= 0 ->
  0 < JSDate.TimeWithinDay (JSDate.LocalTime tza now) ->
  let year := JSDate.getFullYear tza now in
  let month := JSDate.getMonth tza now in
  let today := JSDate.getDate tza now in
  year < 0 \/ 99 < year ->
  JSDate.valid (JSDate.fromYMD tza year month 1) ->
  JSDate.valid (JSDate.fromYMD tza year (month + 1) 0) ->
  exists days,
    Calendar.getDaysInMonth tza now month year = Some days
    /\ HallList.getDaysInMonth tza now month year = Some days
    /\ ~ In (ymdText year month today) days
    /\ forall text, In text days ->
         exists d, today < d <= 31 /\ text = ymdText year month d.
Proof.
  intros Htz Hpast year month today Hy _ _.
  pose proof (DateFacts.getMonth_range tza now) as Hm. fold month in Hm.
  destruct (DayTextFacts.daysInMonth_days tza now month year)
    as (n & Hn & Hend & H).
  pose proof (DayTextFacts.month_end_day tza year month n Hy Hend) as Hlen.
  pose proof (LoopFacts.today_midnight tza now Hy) as Hmid.
  fold year month today in Hmid.
  assert (Htoday : 1 <= today) by apply LoopFacts.DateFromDay_pos.
  assert (Hlater : forall text,
             In text (List.map (fun d => WindowPolicy.isoDate
                                           (JSDate.fromYMD tza year month d))
                        (List.filter
                           (fun d => JSDate.fromYMD tza year month d >=? now)
                           (seqZ 1 n))) ->
             exists d, today < d <= 31 /\ text = ymdText year month d).
  { intros text Hin. apply in_map_iff in Hin as (d & <- & Hd).
    apply filter_In in Hd as [Hd Hge]. apply Z.geb_le in Hge.
    apply DayTextFacts.in_seqZ in Hd.
    assert (today < d).
    { destruct (Z.lt_ge_cases today d) as [Hlt | Hle]; [exact Hlt|].
      pose proof (MonthFacts.fromYMD_mono tza year month d today Hle). lia. }
    exists d. split; [lia|].
    rewrite MonthFacts.isoDate_west by exact Htz.
    apply DayTextFacts.isoDate_utc; [exact Hm | exact Hy | lia]. }
  destruct (DayTextFacts.both_surfaces _ _ _ _ _ H) as [Hc Hh].
  exists (List.map (fun d => WindowPolicy.isoDate
                               (JSDate.fromYMD tza year month d))
            (List.filter (fun d => JSDate.fromYMD tza year month d >=? now)
                         (seqZ 1 n))).
  split; [exact Hc|]. split; [exact Hh|]. split; [|exact Hlater].
  intros Hin. destruct (Hlater _ Hin) as (d & Hd & Heq).
  apply LoopFacts.ymdText_inj in Heq; lia.
Qed.

Lemma today_is_dropped_at_and_west_of_utc_witness :
  exists days,
    Calendar.getDaysInMonth 0 Sample.jan15 0 2025 = Some days
    /\ ~ In "2025-01-15" days.
Proof.
  assert (Htz : - JSDate.msPerDay < 0 <= 0)
    by (unfold JSDate.msPerDay; lia).
  assert (Hpast : 0 < JSDate.TimeWithinDay (JSDate.LocalTime 0 Sample.jan15))
    by (vm_compute; reflexivity).
  assert (Hy : JSDate.getFullYear 0 Sample.jan15 < 0
               \/ 99 < JSDate.getFullYear 0 Sample.jan15)
    by (right; vm_compute; reflexivity).
  assert (Hlo : JSDate.valid
                  (JSDate.fromYMD 0 (JSDate.getFullYear 0 Sample.jan15)
                                  (JSDate.getMonth 0 Sample.jan15) 1))
    by (vm_compute; split; discriminate).
  assert (Hhi : JSDate.valid
                  (JSDate.fromYMD 0 (JSDate.getFullYear 0 Sample.jan15)
                                  (JSDate.getMonth 0 Sample.jan15 + 1) 0))
    by (vm_compute; split; discriminate).
  pose proof (today_is_dropped_at_and_west_of_utc 0 Sample.jan15 Htz Hpast)
    as H.
  cbv zeta in H. destruct (H Hy Hlo Hhi) as (days & Hc & _ & Hnot & _).
  exists days. split; [exact Hc | exact Hnot].
Defined.

(** X20: the label under a day. After a refresh the single-hall surface
    labels every day that has a record with the record's reason, "Available"
    standing for a missing or empty one; the multi-hall surface labels the
    booked days only. Whenever the multi-hall surface shows a label, the
    single-hall surface of that hall shows the same text for the day. *)
Theorem labels_after_refresh result hallId day :
  API.statusCode result = 200 ->
  forall (c : Calendar.State) (h : HallList.State),
    let c' := fst (Calendar.fetchAvailability hallId (Resolved result) c) in
    let h' := fst (HallList.fetchAvailability (Resolved result) h) in
    option_map snd (label (Calendar.dayView c' day))
      = option_map (fun item => orAvailable (API.reason item))
          (List.find (isFor hallId day) (API.data result))
    /\ option_map snd (label (HallList.dayView h' hallId day))
       = match List.find (isFor hallId day) (API.data result) with
         | Some item =>
             if API.is_booked item then Some (orAvailable (API.reason item))
             else None
         | None => None
         end
    /\ forall text,
        option_map snd (label (HallList.dayView h' hallId day)) = Some text ->
        option_map snd (label (Calendar.dayView c' day)) = Some text.
Proof.
  intros H200 c h c' h'.
  assert (Hc : option_map snd (label (Calendar.dayView c' day))
               = option_map (fun item => orAvailable (API.reason item))
                   (List.find (isFor hallId day) (API.data result))).
  { unfold Calendar.dayView, c'. cbn [label].
    rewrite AvailabilityFacts.calendar_findDay_refreshed by assumption.
    now destruct (List.find _ (API.data result)). }
  assert (Hh : option_map snd (label (HallList.dayView h' hallId day))
               = match List.find (isFor hallId day) (API.data result) with
                 | Some item =>
                     if API.is_booked item
                     then Some (orAvailable (API.reason item)) else None
                 | None => None
                 end).
  { unfold HallList.dayView, h'. cbn [label].
    rewrite AvailabilityFacts.halllist_findDay_refreshed by assumption.
    destruct (List.find _ (API.data result)) as [item|]; [|reflexivity].
    simpl. now destruct (API.is_booked item). }
  split; [exact Hc|]. split; [exact Hh|].
  intros text. rewrite Hh, Hc.
  destruct (List.find _ (API.data result)) as [item|]; [|discriminate].
  destruct (API.is_booked item); [trivial | discriminate].
Qed.

Lemma labels_after_refresh_witness :
  option_map snd
    (label (Calendar.dayView
              (fst (Calendar.fetchAvailability 1
                      (Sample.ok [Sample.record None false])
                      (Calendar.init 0 Sample.jan15))) "2025-06-10"))
  = Some "Available".
Proof.
  exact (proj1 (labels_after_refresh
                  {| API.statusCode := 200; API.message := "OK";
                     API.data := [Sample.record None false] |}
                  1 "2025-06-10" eq_refl (Calendar.init 0 Sample.jan15)
                  (HallList.init 0 Sample.jan15))).
Defined.
